(** * Recipe resolution pipeline (recipe-backend): a shallow embedding

    The development follows the Python sources
      recipe-backend/utils.py, schema_converter.py, recipe_scraper.py, config.py
    function by function.  Python values are an inductive type, Python
    exceptions are the [Raise] branch of a result type, and the effects of the
    orchestrator (printing, drawing random identifiers, calling the LLM
    helper) are threaded through an explicit state.

    Conventions of the model.
    - A Python [str] is the list of its code points ([list N]); [lit] turns an
      ASCII literal into such a list.
    - Values are the JSON-shaped ones: None, bool, int, float, str, list and
      dict with string keys (kept in insertion order).
    - A Python float is an IEEE-754 binary64 number ([spec_float] of the
      standard library, precision 53, exponent bound 1024).
    - The bound on conversions between integers and text (4300 digits, the
      default of CPython 3.11) is part of the model where the converter calls
      [int] and [str].  [Json.loads] is the parser on texts within the
      interpreter's limits (integer literals of at most 4300 digits, nesting
      within the recursion limit); memory is not part of the model.
    - The answers of the LLM helper are values read from JSON, whose
      integers are within that bound. *)

From Stdlib Require Import List ZArith NArith Lia Bool Ascii String SpecFloat FunInd.
Import ListNotations.

Set Warnings "-register-all".

(* ===================================================================== *)
(** ** Python strings *)
(* ===================================================================== *)

Module Str.

Definition str := list N.

Definition chr (a : ascii) : N := N_of_ascii a.
Arguments chr a%_char.

Definition lit (s : string) : str := map N_of_ascii (list_ascii_of_string s).
Arguments lit s%_string.

Fixpoint eqb (a b : str) : bool :=
  match a, b with
  | [], [] => true
  | x :: a', y :: b' => N.eqb x y && eqb a' b'
  | _, _ => false
  end.

(** [s.startswith(p)] *)
Fixpoint startswith (p s : str) : bool :=
  match p, s with
  | [], _ => true
  | x :: p', y :: s' => N.eqb x y && startswith p' s'
  | _ :: _, [] => false
  end.

(** [s.endswith(p)] *)
Definition endswith (p s : str) : bool := startswith (rev p) (rev s).

(** [str.isspace] on one code point, which is also the class [\s] of [re]
    for str patterns: the Unicode White_Space code points and the four
    separators U+001C..U+001F. *)
Definition isspace (c : N) : bool :=
  ((9 <=? c) && (c <=? 13) || (28 <=? c) && (c <=? 32)
   || (c =? 133) || (c =? 160) || (c =? 5760)
   || (8192 <=? c) && (c <=? 8202)
   || (c =? 8232) || (c =? 8233) || (c =? 8239) || (c =? 8287)
   || (c =? 12288))%N.

Fixpoint dropwhile (p : N -> bool) (s : str) : str :=
  match s with
  | [] => []
  | c :: t => if p c then dropwhile p t else s
  end.

Fixpoint takewhile (p : N -> bool) (s : str) : str :=
  match s with
  | [] => []
  | c :: t => if p c then c :: takewhile p t else []
  end.

Definition lstrip (s : str) : str := dropwhile isspace s.
Definition rstrip (s : str) : str := rev (dropwhile isspace (rev s)).
(** [s.strip()] *)
Definition strip (s : str) : str := rstrip (lstrip s).

(** [sub in s] for strings *)
Fixpoint contains (sub s : str) : bool :=
  startswith sub s ||
  match s with
  | [] => false
  | _ :: t => contains sub t
  end.

(** Index of the first occurrence of [sub] in [s] ([s.find(sub)], with
    [None] for -1). *)
Fixpoint find (sub s : str) : option nat :=
  if startswith sub s then Some 0
  else match s with
       | [] => None
       | _ :: t => option_map S (find sub t)
       end.

(** [s.replace(old, new)]: the non-overlapping occurrences of [old], found
    from left to right, are replaced.  [skip] counts the characters of an
    occurrence that are still to be dropped.  For an empty [old] Python
    inserts [new] before every character and at the end. *)
Fixpoint replace_from (old new : str) (skip : nat) (s : str) : str :=
  match s with
  | [] => []
  | c :: t =>
      match skip with
      | S k => replace_from old new k t
      | O => if startswith old s
             then new ++ replace_from old new (List.length old - 1) t
             else c :: replace_from old new 0 t
      end
  end.

Definition replace (old new s : str) : str :=
  match old with
  | [] => new ++ flat_map (fun c => c :: new) s
  | _ :: _ => replace_from old new 0 s
  end.

(** [s.split(sep)] for a non-empty separator: the pieces between the
    non-overlapping occurrences of [sep]; [cur] is the piece being read, in
    reverse. *)
Fixpoint split_from (sep : str) (skip : nat) (cur : str) (s : str) : list str :=
  match s with
  | [] => [rev cur]
  | c :: t =>
      match skip with
      | S k => split_from sep k cur t
      | O => if startswith sep s
             then rev cur :: split_from sep (List.length sep - 1) [] t
             else split_from sep 0 (c :: cur) t
      end
  end.

Definition split (sep s : str) : list str := split_from sep 0 [] s.

(** [sep.join(parts)] *)
Fixpoint join (sep : str) (parts : list str) : str :=
  match parts with
  | [] => []
  | [p] => p
  | p :: rest => p ++ sep ++ join sep rest
  end.

(** Decimal digits: the code points of category Nd, in runs of ten (Unicode
    14.0, the table of CPython 3.11); [\d] of [re] for str patterns and the
    digits [int] and [float] accept.  Each entry is the code point of a
    digit zero. *)
Definition digit_zeros : list N :=
  [48; 1632; 1776; 1984; 2406; 2534; 2662; 2790; 2918; 3046; 3174; 3302;
   3430; 3558; 3664; 3792; 3872; 4160; 4240; 6112; 6160; 6470; 6608; 6784;
   6800; 6992; 7088; 7232; 7248; 42528; 43216; 43264; 43472; 43504; 43600;
   44016; 65296; 66720; 68912; 69734; 69872; 69942; 70096; 70384; 70736;
   70864; 71248; 71360; 71472; 71904; 72016; 72784; 73040; 73120; 92768;
   92864; 93008; 120782; 120792; 120802; 120812; 120822; 123200; 123632;
   125264; 130032]%N.

(** The value of a decimal digit, if [c] is one. *)
Definition digit_value (c : N) : option N :=
  match List.find (fun z => (z <=? c) && (c <? z + 10))%N digit_zeros with
  | Some z => Some (c - z)%N
  | None => None
  end.

Definition isdigit (c : N) : bool :=
  match digit_value c with Some _ => true | None => false end.

Definition is_ascii_digit (c : N) : bool := ((48 <=? c) && (c <=? 57))%N.

(** The number written by a string of decimal digits (0 for a character
    that is no digit; callers pass digits only). *)
Definition nat_of_digits (ds : str) : N :=
  fold_left (fun acc c => acc * 10 + match digit_value c with
                                     | Some d => d
                                     | None => 0
                                     end)%N ds 0%N.

(** Decimal notation of a natural number, as [str(n)] writes it. *)
Fixpoint uint_digits (u : Decimal.uint) : str :=
  match u with
  | Decimal.Nil => []
  | Decimal.D0 u => 48%N :: uint_digits u
  | Decimal.D1 u => 49%N :: uint_digits u
  | Decimal.D2 u => 50%N :: uint_digits u
  | Decimal.D3 u => 51%N :: uint_digits u
  | Decimal.D4 u => 52%N :: uint_digits u
  | Decimal.D5 u => 53%N :: uint_digits u
  | Decimal.D6 u => 54%N :: uint_digits u
  | Decimal.D7 u => 55%N :: uint_digits u
  | Decimal.D8 u => 56%N :: uint_digits u
  | Decimal.D9 u => 57%N :: uint_digits u
  end.

Definition digits_of_N (n : N) : str :=
  match n with
  | N0 => [48%N]
  | Npos p => uint_digits (Pos.to_uint p)
  end.

Definition digits_of_Z (z : Z) : str :=
  match z with
  | Z0 => [48%N]
  | Zpos p => digits_of_N (Npos p)
  | Zneg p => 45%N :: digits_of_N (Npos p)
  end.

End Str.

(* ===================================================================== *)
(** ** Python floats (binary64) *)
(* ===================================================================== *)

Module Float.
Import Str.

Definition float := spec_float.
Definition prec : Z := 53.
Definition emax : Z := 1024.

Definition pos_zero : float := S754_zero false.
Definition one : float := binary_normalize prec emax 1 0 false.

(** [float(z)] for an int, rounded to nearest even; the result is infinite
    when [z] is out of range. *)
Definition of_Z (z : Z) : float := binary_normalize prec emax z 0 false.

(** The quotient [n/d] rounded to nearest even: the quotient is computed
    with at least 63 significant bits and a sticky bit for the remainder. *)
Definition of_ratio (neg : bool) (n d : positive) : float :=
  let k := Z.max 0 (Z.log2 (Zpos d) - Z.log2 (Zpos n) + 64) in
  let q := (Zpos n * 2 ^ k / Zpos d)%Z in
  let r := ((Zpos n * 2 ^ k) mod Zpos d)%Z in
  let m := (2 * q + (if r =? 0 then 0 else 1))%Z in
  binary_normalize prec emax (if neg then - m else m)%Z (- k - 1) false.

(** The decimal number [(-1)^neg * m * 10^e], correctly rounded. *)
Definition of_decimal (neg : bool) (m : N) (e : Z) : float :=
  match m with
  | N0 => S754_zero neg
  | Npos p =>
      if (0 <=? e)%Z
      then binary_normalize prec emax
             (if neg then - (Zpos p * 10 ^ e) else Zpos p * 10 ^ e)%Z 0 false
      else match (10 ^ (- e))%Z with
           | Zpos d => of_ratio neg p d
           | _ => S754_nan
           end
  end.

Definition is_finite (f : float) : bool :=
  match f with
  | S754_zero _ | S754_finite _ _ _ => true
  | _ => false
  end.

(** Truth value of a float: false for the two zeros only. *)
Definition nonzero (f : float) : bool :=
  match f with
  | S754_zero _ => false
  | _ => true
  end.

(** *** [float(s)] for a string *)

(** ASCII letters are compared without case. *)
Definition lower_ascii (c : N) : N :=
  if ((65 <=? c) && (c <=? 90))%N then (c + 32)%N else c.

Definition is_c_space (c : N) : bool :=
  ((c =? 32) || (9 <=? c) && (c <=? 13))%N.

(** Code points from 127 on are mapped to a space (Unicode spaces) or to an
    ASCII digit (decimal digits); the first other one ends the text with a
    question mark. *)
Fixpoint to_ascii_number (s : str) : str :=
  match s with
  | [] => []
  | c :: t =>
      if (c <? 127)%N then c :: to_ascii_number t
      else if isspace c then 32%N :: to_ascii_number t
      else match digit_value c with
           | Some d => (48 + d)%N :: to_ascii_number t
           | None => [63%N]
           end
  end.

(** Underscores are allowed between two digits only; [None] when one is
    misplaced.  [prev] is the previous character (0 at the start). *)
Fixpoint drop_underscores (prev : N) (s : str) : option str :=
  match s with
  | [] => if (prev =? 95)%N then None else Some []
  | c :: t =>
      if (c =? 95)%N
      then if is_ascii_digit prev then drop_underscores c t else None
      else if (prev =? 95)%N && negb (is_ascii_digit c) then None
           else option_map (cons c) (drop_underscores c t)
  end.

Definition split_sign (s : str) : bool * str :=
  match s with
  | 45%N :: t => (true, t)
  | 43%N :: t => (false, t)
  | _ => (false, s)
  end.

(** The exponent of a decimal literal: [Some (e, rest)] when an exponent
    part with at least one digit is present, else no exponent is read. *)
Definition read_exponent (s : str) : Z * str :=
  match s with
  | c :: t =>
      if (lower_ascii c =? 101)%N
      then let (neg, t') := split_sign t in
           let ds := takewhile is_ascii_digit t' in
           match ds with
           | [] => (0%Z, s)
           | _ => ((if neg then - Z.of_N (nat_of_digits ds)
                    else Z.of_N (nat_of_digits ds))%Z,
                   dropwhile is_ascii_digit t')
           end
      else (0%Z, s)
  | [] => (0%Z, s)
  end.

(** A decimal literal, an infinity or a nan, with nothing after it. *)
Definition parse_ascii_float (s : str) : option float :=
  let (neg, body) := split_sign s in
  let low := map lower_ascii body in
  if eqb low (lit "inf") || eqb low (lit "infinity") then Some (S754_infinity neg)
  else if eqb low (lit "nan") then Some S754_nan
  else
    let ip := takewhile is_ascii_digit body in
    let r1 := dropwhile is_ascii_digit body in
    let '(fp, r2) :=
      match r1 with
      | 46%N :: t => (takewhile is_ascii_digit t, dropwhile is_ascii_digit t)
      | _ => ([], r1)
      end in
    match ip ++ fp with
    | [] => None
    | ds =>
        let (e, r3) := read_exponent r2 in
        match r3 with
        | [] => Some (of_decimal neg (nat_of_digits ds) (e - Z.of_nat (List.length fp)))
        | _ :: _ => None
        end
    end.

Definition of_str (s : str) : option float :=
  let a := to_ascii_number s in
  let a := rev (dropwhile is_c_space (rev (dropwhile is_c_space a))) in
  match drop_underscores 0 a with
  | Some b => parse_ascii_float b
  | None => None
  end.

(** *** [repr(x)]: the shortest decimal string that reads back as [x] *)

(** [10^k <= m * 2^e] *)
Definition ge_pow10 (m : positive) (e k : Z) : bool :=
  (10 ^ Z.max k 0 * 2 ^ Z.max (- e) 0 <=? Zpos m * 2 ^ Z.max e 0 * 10 ^ Z.max (- k) 0)%Z.

(** The decimal point position [k] of [m * 2^e]: [10^(k-1) <= m * 2^e < 10^k]. *)
Definition decimal_point (m : positive) (e : Z) : Z :=
  let b := (Zpos (digits2_pos m) + e)%Z in
  let est := ((b - 1) * 30103 / 100000)%Z in
  match List.find (fun k => negb (ge_pow10 m e k))
          [est - 1; est; est + 1; est + 2; est + 3]%Z with
  | Some k => k
  | None => (est + 3)%Z
  end.

Definition same_float (a b : float) : bool :=
  match SFcompare a b with
  | Some Eq => true
  | _ => false
  end.

(** The best [n]-digit decimal for [m * 2^e] with decimal point [k], if one
    reads back as the same float: the nearer of the two neighbours
    [lo, lo + 1] of [m * 2^e * 10^(n-k)] that does. *)
Definition digits_at (m : positive) (e k : Z) (n : Z) (force : bool) : option N :=
  let num := (Zpos m * 2 ^ Z.max e 0 * 10 ^ Z.max (n - k) 0)%Z in
  let den := (2 ^ Z.max (- e) 0 * 10 ^ Z.max (k - n) 0)%Z in
  let lo := (num / den)%Z in
  let r := (num mod den)%Z in
  let hi := (lo + 1)%Z in
  let x := S754_finite false m e in
  let back c := same_float (of_decimal false (Z.to_N c) (k - n)) x in
  let nearest :=
    match (2 * r ?= den)%Z with
    | Lt => lo
    | Gt => hi
    | Eq => if Z.even lo then lo else hi
    end in
  if (r =? 0)%Z then (if back lo || force then Some (Z.to_N lo) else None)
  else if back lo && back hi then Some (Z.to_N nearest)
  else if back lo then Some (Z.to_N lo)
  else if back hi then Some (Z.to_N hi)
  else if force then Some (Z.to_N nearest)
  else None.

Fixpoint shortest_digits (m : positive) (e k : Z) (n : Z) (fuel : nat) : N * Z :=
  match fuel with
  | O => match digits_at m e k n true with
         | Some c => (c, n)
         | None => (0%N, n)
         end
  | S fuel' =>
      match digits_at m e k n false with
      | Some c => (c, n)
      | None => shortest_digits m e k (n + 1) fuel'
      end
  end.

Definition strip_zeros_right (ds : str) : str :=
  rev (dropwhile (fun c => (c =? 48)%N) (rev ds)).

Fixpoint zeros (n : nat) : str :=
  match n with
  | O => []
  | S n' => 48%N :: zeros n'
  end.

(** Layout of [repr]: exponent notation when the decimal point lies left of
    -3 or right of 16, positional notation otherwise. *)
Definition layout (ds : str) (decpt : Z) : str :=
  if ((decpt <=? -4) || (16 <? decpt))%Z then
    let ex := (decpt - 1)%Z in
    let exd := digits_of_N (Z.to_N (Z.abs ex)) in
    let exd := if (List.length exd <? 2)%nat then 48%N :: exd else exd in
    match ds with
    | [] => []
    | d :: rest =>
        d :: (match rest with [] => [] | _ => 46%N :: rest end)
          ++ [101%N; if (ex <? 0)%Z then 45%N else 43%N] ++ exd
    end
  else if (decpt <=? 0)%Z then
    lit "0." ++ zeros (Z.to_nat (- decpt)) ++ ds
  else if (Z.of_nat (List.length ds) <=? decpt)%Z then
    ds ++ zeros (Z.to_nat decpt - List.length ds) ++ lit ".0"
  else
    firstn (Z.to_nat decpt) ds ++ 46%N :: skipn (Z.to_nat decpt) ds.

Definition repr (f : float) : str :=
  match f with
  | S754_nan => lit "nan"
  | S754_infinity false => lit "inf"
  | S754_infinity true => lit "-inf"
  | S754_zero false => lit "0.0"
  | S754_zero true => lit "-0.0"
  | S754_finite s m e =>
      let k := decimal_point m e in
      let '(c, n) := shortest_digits m e k 1 16 in
      let ds := digits_of_N c in
      let decpt := (k + (Z.of_nat (List.length ds) - n))%Z in
      (if s then [45%N] else []) ++ layout (strip_zeros_right ds) decpt
  end.

End Float.

(* ===================================================================== *)
(** ** Python values, exceptions and the builtins the sources use *)
(* ===================================================================== *)

Module Py.
Import Str.

(** *** Exceptions *)

(** The exception classes the sources raise or catch.  [OtherException] is
    any other subclass of [Exception] outside the [ValueError] and
    [ConnectionError] families. *)
Inductive exn_class :=
| ValueError
| JSONDecodeError
| TypeError
| AttributeError
| OverflowError
| ConnectionError
| ConnectionAbortedError
| OtherException (name : str).

(** [issubclass(c, p)]: [JSONDecodeError] derives from [ValueError] and
    [ConnectionAbortedError] from [ConnectionError]. *)
Definition subclass (c p : exn_class) : bool :=
  match c, p with
  | ValueError, ValueError => true
  | JSONDecodeError, (JSONDecodeError | ValueError) => true
  | TypeError, TypeError => true
  | AttributeError, AttributeError => true
  | OverflowError, OverflowError => true
  | ConnectionError, ConnectionError => true
  | ConnectionAbortedError, (ConnectionAbortedError | ConnectionError) => true
  | OtherException a, OtherException b => eqb a b
  | _, _ => false
  end.

(** An exception: its class and [str(e)]. *)
Record exn := mkExn { exn_cls : exn_class; exn_msg : str }.

Inductive result (A : Type) :=
| Ok (a : A)
| Raise (e : exn).
Arguments Ok {A} a.
Arguments Raise {A} e.

Definition bind {A B} (r : result A) (k : A -> result B) : result B :=
  match r with
  | Ok a => k a
  | Raise e => Raise e
  end.

Notation "x <- r ;; k" := (bind r (fun x => k))
  (at level 61, r at next level, right associativity).

(** *** Values *)

Inductive pyval :=
| VNone
| VBool (b : bool)
| VInt (z : Z)
| VFloat (f : Float.float)
| VStr (s : str)
| VList (l : list pyval)
| VDict (d : list (str * pyval)).

Definition dict := list (str * pyval).

(** [type(v).__name__] *)
Definition type_name (v : pyval) : str :=
  match v with
  | VNone => lit "NoneType"
  | VBool _ => lit "bool"
  | VInt _ => lit "int"
  | VFloat _ => lit "float"
  | VStr _ => lit "str"
  | VList _ => lit "list"
  | VDict _ => lit "dict"
  end.

(** [bool(v)] *)
Definition truthy (v : pyval) : bool :=
  match v with
  | VNone => false
  | VBool b => b
  | VInt z => negb (z =? 0)%Z
  | VFloat f => Float.nonzero f
  | VStr s => match s with [] => false | _ => true end
  | VList l => match l with [] => false | _ => true end
  | VDict d => match d with [] => false | _ => true end
  end.

(** [a or b] *)
Definition py_or (a b : pyval) : pyval := if truthy a then a else b.

(** The error of reading a missing attribute. *)
Definition no_attribute {A} (v : pyval) (name : str) : result A :=
  Raise (mkExn AttributeError
           (lit "'" ++ type_name v ++ lit "' object has no attribute '"
                ++ name ++ lit "'")).

(** *** Dictionaries *)

Fixpoint dict_lookup (k : str) (d : dict) : option pyval :=
  match d with
  | [] => None
  | (k', v) :: d' => if eqb k' k then Some v else dict_lookup k d'
  end.

(** [k in d] *)
Definition dict_has (k : str) (d : dict) : bool :=
  match dict_lookup k d with Some _ => true | None => false end.

(** [d[k] = v]: the value of an existing key is replaced in place, a new key
    goes last. *)
Fixpoint dict_set (k : str) (v : pyval) (d : dict) : dict :=
  match d with
  | [] => [(k, v)]
  | (k', v') :: d' => if eqb k' k then (k', v) :: d' else (k', v') :: dict_set k v d'
  end.

(** [dict(pairs)] *)
Definition dict_of_pairs (pairs : list (str * pyval)) : dict :=
  fold_left (fun d kv => dict_set (fst kv) (snd kv) d) pairs [].

(** [d.get(k, default)] on a dict *)
Definition dict_get (k : str) (default : pyval) (d : dict) : pyval :=
  match dict_lookup k d with Some v => v | None => default end.

(** [v.get(k, default)] on any value: only a dict has the method. *)
Definition py_get (v : pyval) (k : str) (default : pyval) : result pyval :=
  match v with
  | VDict d => Ok (dict_get k default d)
  | _ => no_attribute v (lit "get")
  end.

(** Number of entries with key [k]; 0 or 1 in a dict built with [dict_set]. *)
Definition count_key (k : str) (d : dict) : nat :=
  List.length (filter (fun kv => eqb (fst kv) k) d).

(** *** [repr] and [str] *)

(** Code points from 128 on that [str.isprintable] rejects, as closed
    ranges (Unicode 14.0, the table of CPython 3.11). *)
Definition nonprintable_ranges : list (N * N) :=
  [(128, 160); (173, 173); (888, 889); (896, 899); (907, 907); (909, 909);
   (930, 930); (1328, 1328); (1367, 1368); (1419, 1420); (1424, 1424);
   (1480, 1487); (1515, 1518); (1525, 1541); (1564, 1564); (1757, 1757);
   (1806, 1807); (1867, 1868); (1970, 1983); (2043, 2044); (2094, 2095);
   (2111, 2111); (2140, 2141); (2143, 2143); (2155, 2159); (2191, 2199);
   (2274, 2274); (2436, 2436); (2445, 2446); (2449, 2450); (2473, 2473);
   (2481, 2481); (2483, 2485); (2490, 2491); (2501, 2502); (2505, 2506);
   (2511, 2518); (2520, 2523); (2526, 2526); (2532, 2533); (2559, 2560);
   (2564, 2564); (2571, 2574); (2577, 2578); (2601, 2601); (2609, 2609);
   (2612, 2612); (2615, 2615); (2618, 2619); (2621, 2621); (2627, 2630);
   (2633, 2634); (2638, 2640); (2642, 2648); (2653, 2653); (2655, 2661);
   (2679, 2688); (2692, 2692); (2702, 2702); (2706, 2706); (2729, 2729);
   (2737, 2737); (2740, 2740); (2746, 2747); (2758, 2758); (2762, 2762);
   (2766, 2767); (2769, 2783); (2788, 2789); (2802, 2808); (2816, 2816);
   (2820, 2820); (2829, 2830); (2833, 2834); (2857, 2857); (2865, 2865);
   (2868, 2868); (2874, 2875); (2885, 2886); (2889, 2890); (2894, 2900);
   (2904, 2907); (2910, 2910); (2916, 2917); (2936, 2945); (2948, 2948);
   (2955, 2957); (2961, 2961); (2966, 2968); (2971, 2971); (2973, 2973);
   (2976, 2978); (2981, 2983); (2987, 2989); (3002, 3005); (3011, 3013);
   (3017, 3017); (3022, 3023); (3025, 3030); (3032, 3045); (3067, 3071);
   (3085, 3085); (3089, 3089); (3113, 3113); (3130, 3131); (3141, 3141);
   (3145, 3145); (3150, 3156); (3159, 3159); (3163, 3164); (3166, 3167);
   (3172, 3173); (3184, 3190); (3213, 3213); (3217, 3217); (3241, 3241);
   (3252, 3252); (3258, 3259); (3269, 3269); (3273, 3273); (3278, 3284);
   (3287, 3292); (3295, 3295); (3300, 3301); (3312, 3312); (3315, 3327);
   (3341, 3341); (3345, 3345); (3397, 3397); (3401, 3401); (3408, 3411);
   (3428, 3429); (3456, 3456); (3460, 3460); (3479, 3481); (3506, 3506);
   (3516, 3516); (3518, 3519); (3527, 3529); (3531, 3534); (3541, 3541);
   (3543, 3543); (3552, 3557); (3568, 3569); (3573, 3584); (3643, 3646);
   (3676, 3712); (3715, 3715); (3717, 3717); (3723, 3723); (3748, 3748);
   (3750, 3750); (3774, 3775); (3781, 3781); (3783, 3783); (3790, 3791);
   (3802, 3803); (3808, 3839); (3912, 3912); (3949, 3952); (3992, 3992);
   (4029, 4029); (4045, 4045); (4059, 4095); (4294, 4294); (4296, 4300);
   (4302, 4303); (4681, 4681); (4686, 4687); (4695, 4695); (4697, 4697);
   (4702, 4703); (4745, 4745); (4750, 4751); (4785, 4785); (4790, 4791);
   (4799, 4799); (4801, 4801); (4806, 4807); (4823, 4823); (4881, 4881);
   (4886, 4887); (4955, 4956); (4989, 4991); (5018, 5023); (5110, 5111);
   (5118, 5119); (5760, 5760); (5789, 5791); (5881, 5887); (5910, 5918);
   (5943, 5951); (5972, 5983); (5997, 5997); (6001, 6001); (6004, 6015);
   (6110, 6111); (6122, 6127); (6138, 6143); (6158, 6158); (6170, 6175);
   (6265, 6271); (6315, 6319); (6390, 6399); (6431, 6431); (6444, 6447);
   (6460, 6463); (6465, 6467); (6510, 6511); (6517, 6527); (6572, 6575);
   (6602, 6607); (6619, 6621); (6684, 6685); (6751, 6751); (6781, 6782);
   (6794, 6799); (6810, 6815); (6830, 6831); (6863, 6911); (6989, 6991);
   (7039, 7039); (7156, 7163); (7224, 7226); (7242, 7244); (7305, 7311);
   (7355, 7356); (7368, 7375); (7419, 7423); (7958, 7959); (7966, 7967);
   (8006, 8007); (8014, 8015); (8024, 8024); (8026, 8026); (8028, 8028);
   (8030, 8030); (8062, 8063); (8117, 8117); (8133, 8133); (8148, 8149);
   (8156, 8156); (8176, 8177); (8181, 8181); (8191, 8207); (8232, 8239);
   (8287, 8303); (8306, 8307); (8335, 8335); (8349, 8351); (8385, 8399);
   (8433, 8447); (8588, 8591); (9255, 9279); (9291, 9311); (11124, 11125);
   (11158, 11158); (11508, 11512); (11558, 11558); (11560, 11564);
   (11566, 11567); (11624, 11630); (11633, 11646); (11671, 11679);
   (11687, 11687); (11695, 11695); (11703, 11703); (11711, 11711);
   (11719, 11719); (11727, 11727); (11735, 11735); (11743, 11743);
   (11870, 11903); (11930, 11930); (12020, 12031); (12246, 12271);
   (12284, 12288); (12352, 12352); (12439, 12440); (12544, 12548);
   (12592, 12592); (12687, 12687); (12772, 12783); (12831, 12831);
   (42125, 42127); (42183, 42191); (42540, 42559); (42744, 42751);
   (42955, 42959); (42962, 42962); (42964, 42964); (42970, 42993);
   (43053, 43055); (43066, 43071); (43128, 43135); (43206, 43213);
   (43226, 43231); (43348, 43358); (43389, 43391); (43470, 43470);
   (43482, 43485); (43519, 43519); (43575, 43583); (43598, 43599);
   (43610, 43611); (43715, 43738); (43767, 43776); (43783, 43784);
   (43791, 43792); (43799, 43807); (43815, 43815); (43823, 43823);
   (43884, 43887); (44014, 44015); (44026, 44031); (55204, 55215);
   (55239, 55242); (55292, 63743); (64110, 64111); (64218, 64255);
   (64263, 64274); (64280, 64284); (64311, 64311); (64317, 64317);
   (64319, 64319); (64322, 64322); (64325, 64325); (64451, 64466);
   (64912, 64913); (64968, 64974); (64976, 65007); (65050, 65055);
   (65107, 65107); (65127, 65127); (65132, 65135); (65141, 65141);
   (65277, 65280); (65471, 65473); (65480, 65481); (65488, 65489);
   (65496, 65497); (65501, 65503); (65511, 65511); (65519, 65531);
   (65534, 65535); (65548, 65548); (65575, 65575); (65595, 65595);
   (65598, 65598); (65614, 65615); (65630, 65663); (65787, 65791);
   (65795, 65798); (65844, 65846); (65935, 65935); (65949, 65951);
   (65953, 65999); (66046, 66175); (66205, 66207); (66257, 66271);
   (66300, 66303); (66340, 66348); (66379, 66383); (66427, 66431);
   (66462, 66462); (66500, 66503); (66518, 66559); (66718, 66719);
   (66730, 66735); (66772, 66775); (66812, 66815); (66856, 66863);
   (66916, 66926); (66939, 66939); (66955, 66955); (66963, 66963);
   (66966, 66966); (66978, 66978); (66994, 66994); (67002, 67002);
   (67005, 67071); (67383, 67391); (67414, 67423); (67432, 67455);
   (67462, 67462); (67505, 67505); (67515, 67583); (67590, 67591);
   (67593, 67593); (67638, 67638); (67641, 67643); (67645, 67646);
   (67670, 67670); (67743, 67750); (67760, 67807); (67827, 67827);
   (67830, 67834); (67868, 67870); (67898, 67902); (67904, 67967);
   (68024, 68027); (68048, 68049); (68100, 68100); (68103, 68107);
   (68116, 68116); (68120, 68120); (68150, 68151); (68155, 68158);
   (68169, 68175); (68185, 68191); (68256, 68287); (68327, 68330);
   (68343, 68351); (68406, 68408); (68438, 68439); (68467, 68471);
   (68498, 68504); (68509, 68520); (68528, 68607); (68681, 68735);
   (68787, 68799); (68851, 68857); (68904, 68911); (68922, 69215);
   (69247, 69247); (69290, 69290); (69294, 69295); (69298, 69375);
   (69416, 69423); (69466, 69487); (69514, 69551); (69580, 69599);
   (69623, 69631); (69710, 69713); (69750, 69758); (69821, 69821);
   (69827, 69839); (69865, 69871); (69882, 69887); (69941, 69941);
   (69960, 69967); (70007, 70015); (70112, 70112); (70133, 70143);
   (70162, 70162); (70207, 70271); (70279, 70279); (70281, 70281);
   (70286, 70286); (70302, 70302); (70314, 70319); (70379, 70383);
   (70394, 70399); (70404, 70404); (70413, 70414); (70417, 70418);
   (70441, 70441); (70449, 70449); (70452, 70452); (70458, 70458);
   (70469, 70470); (70473, 70474); (70478, 70479); (70481, 70486);
   (70488, 70492); (70500, 70501); (70509, 70511); (70517, 70655);
   (70748, 70748); (70754, 70783); (70856, 70863); (70874, 71039);
   (71094, 71095); (71134, 71167); (71237, 71247); (71258, 71263);
   (71277, 71295); (71354, 71359); (71370, 71423); (71451, 71452);
   (71468, 71471); (71495, 71679); (71740, 71839); (71923, 71934);
   (71943, 71944); (71946, 71947); (71956, 71956); (71959, 71959);
   (71990, 71990); (71993, 71994); (72007, 72015); (72026, 72095);
   (72104, 72105); (72152, 72153); (72165, 72191); (72264, 72271);
   (72355, 72367); (72441, 72703); (72713, 72713); (72759, 72759);
   (72774, 72783); (72813, 72815); (72848, 72849); (72872, 72872);
   (72887, 72959); (72967, 72967); (72970, 72970); (73015, 73017);
   (73019, 73019); (73022, 73022); (73032, 73039); (73050, 73055);
   (73062, 73062); (73065, 73065); (73103, 73103); (73106, 73106);
   (73113, 73119); (73130, 73439); (73465, 73647); (73649, 73663);
   (73714, 73726); (74650, 74751); (74863, 74863); (74869, 74879);
   (75076, 77711); (77811, 77823); (78895, 82943); (83527, 92159);
   (92729, 92735); (92767, 92767); (92778, 92781); (92863, 92863);
   (92874, 92879); (92910, 92911); (92918, 92927); (92998, 93007);
   (93018, 93018); (93026, 93026); (93048, 93052); (93072, 93759);
   (93851, 93951); (94027, 94030); (94088, 94094); (94112, 94175);
   (94181, 94191); (94194, 94207); (100344, 100351); (101590, 101631);
   (101641, 110575); (110580, 110580); (110588, 110588); (110591, 110591);
   (110883, 110927); (110931, 110947); (110952, 110959); (111356, 113663);
   (113771, 113775); (113789, 113791); (113801, 113807); (113818, 113819);
   (113824, 118527); (118574, 118575); (118599, 118607); (118724, 118783);
   (119030, 119039); (119079, 119080); (119155, 119162); (119275, 119295);
   (119366, 119519); (119540, 119551); (119639, 119647); (119673, 119807);
   (119893, 119893); (119965, 119965); (119968, 119969); (119971, 119972);
   (119975, 119976); (119981, 119981); (119994, 119994); (119996, 119996);
   (120004, 120004); (120070, 120070); (120075, 120076); (120085, 120085);
   (120093, 120093); (120122, 120122); (120127, 120127); (120133, 120133);
   (120135, 120137); (120145, 120145); (120486, 120487); (120780, 120781);
   (121484, 121498); (121504, 121504); (121520, 122623); (122655, 122879);
   (122887, 122887); (122905, 122906); (122914, 122914); (122917, 122917);
   (122923, 123135); (123181, 123183); (123198, 123199); (123210, 123213);
   (123216, 123535); (123567, 123583); (123642, 123646); (123648, 124895);
   (124903, 124903); (124908, 124908); (124911, 124911); (124927, 124927);
   (125125, 125126); (125143, 125183); (125260, 125263); (125274, 125277);
   (125280, 126064); (126133, 126208); (126270, 126463); (126468, 126468);
   (126496, 126496); (126499, 126499); (126501, 126502); (126504, 126504);
   (126515, 126515); (126520, 126520); (126522, 126522); (126524, 126529);
   (126531, 126534); (126536, 126536); (126538, 126538); (126540, 126540);
   (126544, 126544); (126547, 126547); (126549, 126550); (126552, 126552);
   (126554, 126554); (126556, 126556); (126558, 126558); (126560, 126560);
   (126563, 126563); (126565, 126566); (126571, 126571); (126579, 126579);
   (126584, 126584); (126589, 126589); (126591, 126591); (126602, 126602);
   (126620, 126624); (126628, 126628); (126634, 126634); (126652, 126703);
   (126706, 126975); (127020, 127023); (127124, 127135); (127151, 127152);
   (127168, 127168); (127184, 127184); (127222, 127231); (127406, 127461);
   (127491, 127503); (127548, 127551); (127561, 127567); (127570, 127583);
   (127590, 127743); (128728, 128732); (128749, 128751); (128765, 128767);
   (128884, 128895); (128985, 128991); (129004, 129007); (129009, 129023);
   (129036, 129039); (129096, 129103); (129114, 129119); (129160, 129167);
   (129198, 129199); (129202, 129279); (129620, 129631); (129646, 129647);
   (129653, 129655); (129661, 129663); (129671, 129679); (129709, 129711);
   (129723, 129727); (129734, 129743); (129754, 129759); (129768, 129775);
   (129783, 129791); (129939, 129939); (129995, 130031); (130042, 131071);
   (173792, 173823); (177977, 177983); (178206, 178207); (183970, 183983);
   (191457, 194559); (195102, 196607); (201547, 917759); (918000, 1114111)]%N.

Definition isprintable (c : N) : bool :=
  if (c <? 128)%N then ((32 <=? c) && (c <? 127))%N
  else negb (existsb (fun r => (fst r <=? c) && (c <=? snd r))%N nonprintable_ranges).

Definition hex_digit (d : N) : N :=
  if (d <? 10)%N then (48 + d)%N else (87 + d)%N.

(** [width] lower-case hexadecimal digits of [n], most significant first. *)
Fixpoint hex_fixed (width : nat) (n : N) : str :=
  match width with
  | O => []
  | S w => hex_fixed w (n / 16)%N ++ [hex_digit (n mod 16)%N]
  end.

Definition repr_char (quote : N) (c : N) : str :=
  if ((c =? quote) || (c =? 92))%N then [92%N; c]
  else if (c =? 9)%N then lit "\t"
  else if (c =? 10)%N then lit "\n"
  else if (c =? 13)%N then lit "\r"
  else if isprintable c then [c]
  else if (c <? 256)%N then lit "\x" ++ hex_fixed 2 c
  else if (c <? 65536)%N then lit "\u" ++ hex_fixed 4 c
  else lit "\U" ++ hex_fixed 8 c.

(** [repr(s)] of a string: single quotes, unless the string has a single
    quote and no double quote. *)
Definition repr_str (s : str) : str :=
  let has c := existsb (N.eqb c) s in
  let quote := if has 39%N && negb (has 34%N) then 34%N else 39%N in
  quote :: flat_map (repr_char quote) s ++ [quote].

Fixpoint py_repr (v : pyval) : str :=
  match v with
  | VNone => lit "None"
  | VBool true => lit "True"
  | VBool false => lit "False"
  | VInt z => digits_of_Z z
  | VFloat f => Float.repr f
  | VStr s => repr_str s
  | VList l => lit "[" ++ join (lit ", ") (map py_repr l) ++ lit "]"
  | VDict d =>
      lit "{"
      ++ join (lit ", ")
           (map (fun kv => match kv with
                           | (k, x) => repr_str k ++ lit ": " ++ py_repr x
                           end) d)
      ++ lit "}"
  end.

(** The text of [str(v)], when the conversion succeeds (see [str_of]). *)
Definition py_str (v : pyval) : str :=
  match v with
  | VStr s => s
  | _ => py_repr v
  end.

(** *** The bound on conversions between integers and text *)

(** [sys.get_int_max_str_digits()], at its default. *)
Definition int_max_str_digits : N := 4300.

(** The error of [str], [repr] and f-strings on an int of more digits. *)
Definition int_to_str_limit : exn :=
  mkExn ValueError
    (lit "Exceeds the limit (4300 digits) for integer string conversion; use sys.set_int_max_str_digits() to increase the limit").

(** The error of [int] on a text of [n] digits, [n] beyond the bound. *)
Definition str_to_int_limit (n : nat) : exn :=
  mkExn ValueError
    (lit "Exceeds the limit (4300 digits) for integer string conversion: value has "
       ++ digits_of_N (N.of_nat n)
       ++ lit " digits; use sys.set_int_max_str_digits() to increase the limit").

(** Number of decimal digits of an int. *)
Definition int_digits (z : Z) : N :=
  N.of_nat (List.length (digits_of_N (Z.abs_N z))).

(** No int that is [v] or inside [v] has more digits than the bound. *)
Fixpoint within_digit_limit (v : pyval) : bool :=
  match v with
  | VInt z => (int_digits z <=? int_max_str_digits)%N
  | VList l => forallb within_digit_limit l
  | VDict d => forallb (fun kv => match kv with
                                  | (_, x) => within_digit_limit x
                                  end) d
  | _ => true
  end.

(** [str(v)]: an int beyond the bound, as [v] or inside a list or dict,
    makes the conversion raise. *)
Definition str_of (v : pyval) : result str :=
  if within_digit_limit v then Ok (py_str v) else Raise int_to_str_limit.

(** [int(s)] for a run [s] of decimal digits: every digit counts, leading
    zeros too. *)
Definition int_of_digits (s : str) : result N :=
  if (N.of_nat (List.length s) <=? int_max_str_digits)%N
  then Ok (nat_of_digits s)
  else Raise (str_to_int_limit (List.length s)).

(** A loop that appends [f a] for each [a] of [l], until one raises. *)
Fixpoint map_result {A B} (f : A -> result B) (l : list A) : result (list B) :=
  match l with
  | [] => Ok []
  | a :: t => b <- f a ;; bs <- map_result f t ;; Ok (b :: bs)
  end.

(** *** Iteration, conversion *)

(** The items a [for] loop over [v] visits: the elements of a list, the
    characters of a string, the keys of a dict; other values are not
    iterable. *)
Definition py_iter (v : pyval) : result (list pyval) :=
  match v with
  | VList l => Ok l
  | VStr s => Ok (map (fun c => VStr [c]) s)
  | VDict d => Ok (map (fun kv => VStr (fst kv)) d)
  | _ => Raise (mkExn TypeError
                  (lit "'" ++ type_name v ++ lit "' object is not iterable"))
  end.

(** [float(v)] *)
Definition py_float (v : pyval) : result Float.float :=
  match v with
  | VFloat f => Ok f
  | VBool b => Ok (if b then Float.one else Float.pos_zero)
  | VInt z =>
      let f := Float.of_Z z in
      if Float.is_finite f then Ok f
      else Raise (mkExn OverflowError (lit "int too large to convert to float"))
  | VStr s =>
      match Float.of_str s with
      | Some f => Ok f
      | None => Raise (mkExn ValueError
                         (lit "could not convert string to float: " ++ repr_str s))
      end
  | _ => Raise (mkExn TypeError
                  (lit "float() argument must be a string or a real number, not '"
                       ++ type_name v ++ lit "'"))
  end.

(** [s in l] for a string [s] and a list [l] *)
Definition list_has_str (s : str) (l : list pyval) : bool :=
  existsb (fun x => match x with VStr t => eqb t s | _ => false end) l.

(** *** Random identifiers *)

(** The integer of [uuid.uuid4()] made from 128 random bits: variant bits
    10 and version 4 are forced. *)
Definition uuid4_int (r : N) : N :=
  let i := (r mod 2 ^ 128)%N in
  let i := N.lor (N.ldiff i (N.shiftl 49152 48)) (N.shiftl 32768 48) in
  N.lor (N.ldiff i (N.shiftl 61440 64)) (N.shiftl 4 76).

(** [uuid.uuid4().hex] *)
Definition uuid4_hex (r : N) : str := hex_fixed 32 (uuid4_int r).

(** [str(uuid.uuid4())] *)
Definition uuid4_str (r : N) : str :=
  let h := uuid4_hex r in
  firstn 8 h ++ lit "-" ++ firstn 4 (skipn 8 h) ++ lit "-" ++ firstn 4 (skipn 12 h)
    ++ lit "-" ++ firstn 4 (skipn 16 h) ++ lit "-" ++ skipn 20 h.

End Py.

(* ===================================================================== *)
(** ** The regular expressions of the sources *)
(* ===================================================================== *)

(** Each pattern the sources hand to [re] is embedded as the matcher it
    denotes.  [re.sub] replaces the non-overlapping matches found from left
    to right; the [skip] argument of the [_from] functions counts the
    characters of the current match that are still to be dropped. *)

Module Re.
Import Str.

Definition backticks : str := lit "```".

(** A character matching the letters j, s, o, n without regard to case
    (U+017F, the long s, folds to s). *)
Definition is_j (c : N) : bool := ((c =? 74) || (c =? 106))%N.
Definition is_s (c : N) : bool := ((c =? 83) || (c =? 115) || (c =? 383))%N.
Definition is_o (c : N) : bool := ((c =? 79) || (c =? 111))%N.
Definition is_n (c : N) : bool := ((c =? 78) || (c =? 110))%N.

Definition json_tag (s : str) : bool :=
  match s with
  | a :: b :: c :: d :: _ => is_j a && is_s b && is_o c && is_n d
  | _ => false
  end.

(** Length of a match of [^```(?:json)?\s*] at the start of [s], which is
    at the beginning of a line. *)
Definition fence_open_len (s : str) : option nat :=
  if startswith backticks s then
    let r := skipn 3 s in
    if json_tag r
    then Some (7 + List.length (takewhile isspace (skipn 4 r)))
    else Some (3 + List.length (takewhile isspace r))
  else None.

(** Length of a match of [\s*```$] at the start of [s]: [$] holds at the
    end of the text and before a newline. *)
Definition fence_close_len (s : str) : option nat :=
  let r := dropwhile isspace s in
  if startswith backticks r
     && match skipn 3 r with
        | [] => true
        | c :: _ => (c =? 10)%N
        end
  then Some (List.length (takewhile isspace s) + 3)
  else None.

(** A match of [^```(?:json)?\s*|\s*```$] (IGNORECASE, MULTILINE) at the
    start of [s]; [bol] tells whether [s] begins a line. *)
Definition fence_match_len (bol : bool) (s : str) : option nat :=
  match (if bol then fence_open_len s else None) with
  | Some n => Some n
  | None => fence_close_len s
  end.

Fixpoint sub_fences_from (bol : bool) (skip : nat) (s : str) : str :=
  match s with
  | [] => []
  | c :: t =>
      match skip with
      | S k => sub_fences_from (c =? 10)%N k t
      | O =>
          match fence_match_len bol s with
          | Some (S n) => sub_fences_from (c =? 10)%N n t
          | _ => c :: sub_fences_from (c =? 10)%N 0 t
          end
      end
  end.

(** [re.sub(r"^```(?:json)?\s*|\s*```$", "", s, flags=IGNORECASE|MULTILINE)] *)
Definition sub_fences (s : str) : str := sub_fences_from true 0 s.

(** [re.sub(r"//.*", "", s)]: from two slashes to the end of the line;
    [inside] tells whether a comment is being dropped. *)
Fixpoint sub_line_comments_from (inside : bool) (s : str) : str :=
  match s with
  | [] => []
  | c :: t =>
      if inside
      then if (c =? 10)%N then c :: sub_line_comments_from false t
           else sub_line_comments_from true t
      else if startswith (lit "//") s then sub_line_comments_from true t
           else c :: sub_line_comments_from false t
  end.

Definition sub_line_comments (s : str) : str := sub_line_comments_from false s.

(** [re.sub(r"/\*.*?\*/", "", s, flags=DOTALL)]: from an opening mark to
    the first closing mark after it. *)
Fixpoint sub_block_comments_from (skip : nat) (s : str) : str :=
  match s with
  | [] => []
  | c :: t =>
      match skip with
      | S k => sub_block_comments_from k t
      | O =>
          if startswith (lit "/*") s
          then match find (lit "*/") (skipn 2 s) with
               | Some k => sub_block_comments_from (k + 3) t
               | None => c :: sub_block_comments_from 0 t
               end
          else c :: sub_block_comments_from 0 t
      end
  end.

Definition sub_block_comments (s : str) : str := sub_block_comments_from 0 s.

Definition is_closer (c : N) : bool := ((c =? 93) || (c =? 125))%N.

(** [re.sub(r",\s*([\]}])", r"\1", s)]: a comma, spaces and a closing
    bracket or brace become that closing character. *)
Fixpoint sub_trailing_commas_from (skip : nat) (s : str) : str :=
  match s with
  | [] => []
  | c :: t =>
      match skip with
      | S k => sub_trailing_commas_from k t
      | O =>
          if (c =? 44)%N
          then match dropwhile isspace t with
               | b :: _ =>
                   if is_closer b
                   then b :: sub_trailing_commas_from
                               (List.length (takewhile isspace t) + 1) t
                   else c :: sub_trailing_commas_from 0 t
               | [] => c :: sub_trailing_commas_from 0 t
               end
          else c :: sub_trailing_commas_from 0 t
      end
  end.

Definition sub_trailing_commas (s : str) : str := sub_trailing_commas_from 0 s.

(** Index of the last occurrence of [c] in [s]. *)
Fixpoint last_index (c : N) (s : str) : option nat :=
  match s with
  | [] => None
  | x :: t =>
      match last_index c t with
      | Some j => Some (S j)
      | None => if (x =? c)%N then Some 0 else None
      end
  end.

(** The closing character of an opening brace or bracket. *)
Definition closer_of (c : N) : option N :=
  if (c =? 123)%N then Some 125%N
  else if (c =? 91)%N then Some 93%N
  else None.

(** Group 1 of [re.search(r"(\{.*\}|\[.*\])", s, re.DOTALL)]: at the first
    position where an opening character has its closing character
    somewhere after it, the text up to the last such closing character. *)
Fixpoint search_json_span (s : str) : option str :=
  match s with
  | [] => None
  | c :: t =>
      match closer_of c with
      | Some k =>
          match last_index k t with
          | Some j => Some (c :: firstn (S j) t)
          | None => search_json_span t
          end
      | None => search_json_span t
      end
  end.

(** Group 1 of [re.search(r"(\d+)X", s)] for a letter [X]: the first run of
    decimal digits that the letter follows. *)
Fixpoint search_digits_before (x : N) (s : str) : option str :=
  match s with
  | [] => None
  | c :: t =>
      if isdigit c
         && match dropwhile isdigit s with
            | y :: _ => (y =? x)%N
            | [] => false
            end
      then Some (takewhile isdigit s)
      else search_digits_before x t
  end.

(** The separator the text extractor joins with and cleans up: a backslash
    and the letter n. *)
Definition backslash_n : str := [92%N; 110%N].

(** A match, at the start of [s], of three or more units, each being
    optional white space, the separator and optional white space (the
    pattern of the text extractor's first clean-up).  [units] counts the
    separators read, [good] is the length of the longest prefix read so far
    that ends a unit, [len] the length read, [pending] tells whether a
    backslash waits for its n.  The result is the number of units and the
    length of the match. *)
Fixpoint separator_run (s : str) (units good len : nat) (pending : bool)
  : nat * nat :=
  match s with
  | [] => (units, good)
  | c :: t =>
      if pending then
        if (c =? 110)%N then separator_run t (S units) (len + 1) (len + 1) false
        else (units, good)
      else if (c =? 92)%N then separator_run t units good (len + 1) true
      else if isspace c then separator_run t units (len + 1) (len + 1) false
      else (units, good)
  end.

Definition separators_match_len (s : str) : option nat :=
  let (units, good) := separator_run s 0 0 0 false in
  if (3 <=? units)%nat then Some good else None.

(** [re.sub] of that pattern with the template ['\\n\\n'], which denotes
    two newline characters. *)
Fixpoint sub_separator_runs_from (skip : nat) (s : str) : str :=
  match s with
  | [] => []
  | c :: t =>
      match skip with
      | S k => sub_separator_runs_from k t
      | O =>
          match separators_match_len s with
          | Some (S n) => 10%N :: 10%N :: sub_separator_runs_from n t
          | _ => c :: sub_separator_runs_from 0 t
          end
      end
  end.

Definition sub_separator_runs (s : str) : str := sub_separator_runs_from 0 s.

(** [re.sub(r'\s{2,}', ' ', s)]; [inside] tells whether a run that was
    replaced is still being dropped. *)
Fixpoint sub_space_runs_from (inside : bool) (s : str) : str :=
  match s with
  | [] => []
  | c :: t =>
      if isspace c then
        if inside then sub_space_runs_from true t
        else match t with
             | d :: _ => if isspace d then 32%N :: sub_space_runs_from true t
                         else c :: sub_space_runs_from false t
             | [] => [c]
             end
      else c :: sub_space_runs_from false t
  end.

Definition sub_space_runs (s : str) : str := sub_space_runs_from false s.

End Re.

(* ===================================================================== *)
(** ** [json.loads] *)
(* ===================================================================== *)

(** The decoder of the standard library with its default settings, after
    the C scanner of CPython: values, error messages and error positions. *)

Module Json.
Import Str Py.

(** The outcome of scanning a value at some position: the value, the text
    after it and the index of that text; or an error message with its
    position. *)
Inductive outcome (A : Type) :=
| Done (a : A) (rest : str) (pos : nat)
| Fail (msg : str) (pos : nat)
| OutOfFuel.
Arguments Done {A} a rest pos.
Arguments Fail {A} msg pos.
Arguments OutOfFuel {A}.

Definition is_ws (c : N) : bool :=
  ((c =? 32) || (c =? 9) || (c =? 10) || (c =? 13))%N.

Definition skip_ws (s : str) (pos : nat) : str * nat :=
  (dropwhile is_ws s, pos + List.length (takewhile is_ws s)).

Definition hex_value (c : N) : option N :=
  if ((48 <=? c) && (c <=? 57))%N then Some (c - 48)%N
  else if ((97 <=? c) && (c <=? 102))%N then Some (c - 87)%N
  else if ((65 <=? c) && (c <=? 70))%N then Some (c - 55)%N
  else None.

Definition hex4 (a b c d : N) : option N :=
  match hex_value a, hex_value b, hex_value c, hex_value d with
  | Some x, Some y, Some z, Some w => Some (((x * 16 + y) * 16 + z) * 16 + w)%N
  | _, _, _, _ => None
  end.

Definition is_high_surrogate (u : N) : bool := ((55296 <=? u) && (u <=? 56319))%N.
Definition is_low_surrogate (u : N) : bool := ((56320 <=? u) && (u <=? 57343))%N.
Definition join_surrogates (hi lo : N) : N :=
  (65536 + ((hi - 55296) * 1024 + (lo - 56320)))%N.

(** The character of a one-letter escape. *)
Definition simple_escape (c : N) : option N :=
  if ((c =? 34) || (c =? 92) || (c =? 47))%N then Some c
  else if (c =? 98)%N then Some 8%N
  else if (c =? 102)%N then Some 12%N
  else if (c =? 110)%N then Some 10%N
  else if (c =? 114)%N then Some 13%N
  else if (c =? 116)%N then Some 9%N
  else None.

Definition msg_unterminated : str := lit "Unterminated string starting at".
Definition msg_control : str := lit "Invalid control character at".
Definition msg_escape : str := lit "Invalid \escape".
Definition msg_uescape : str := lit "Invalid \uXXXX escape".
Definition msg_value : str := lit "Expecting value".
Definition msg_name : str := lit "Expecting property name enclosed in double quotes".
Definition msg_colon : str := lit "Expecting ':' delimiter".
Definition msg_comma : str := lit "Expecting ',' delimiter".
Definition msg_extra : str := lit "Extra data".
Definition msg_bom : str := lit "Unexpected UTF-8 BOM (decode using utf-8-sig)".

(** The body of a string: [s] is the text after the opening quote, [pos]
    its index, [begin] the index of the opening quote, [acc] the characters
    read so far, in reverse.  A [\uXXXX] escape needs a character after it;
    a high surrogate takes a following low surrogate escape when that one
    has a character after it too. *)
Fixpoint scanstring (s : str) (pos begin : nat) (acc : str) : outcome str :=
  match s with
  | [] => Fail msg_unterminated begin
  | c :: t =>
      if (c =? 34)%N then Done (rev acc) t (pos + 1)
      else if (c =? 92)%N then
        match t with
        | [] => Fail msg_unterminated begin
        | e :: t1 =>
            if (e =? 117)%N then
              match t1 with
              | h1 :: h2 :: h3 :: h4 :: ((x :: t2') as t2) =>
                  match hex4 h1 h2 h3 h4 with
                  | None => Fail msg_uescape (pos + 1)
                  | Some u =>
                      match t2 with
                      | b :: v :: g1 :: g2 :: g3 :: g4 :: ((y :: _) as t3) =>
                          if is_high_surrogate u && (b =? 92)%N && (v =? 117)%N
                          then match hex4 g1 g2 g3 g4 with
                               | None => Fail msg_uescape (pos + 7)
                               | Some u2 =>
                                   if is_low_surrogate u2
                                   then scanstring t3 (pos + 12) begin
                                          (join_surrogates u u2 :: acc)
                                   else scanstring t2 (pos + 6) begin (u :: acc)
                               end
                          else scanstring t2 (pos + 6) begin (u :: acc)
                      | _ => scanstring t2 (pos + 6) begin (u :: acc)
                      end
                  end
              | _ => Fail msg_uescape (pos + 1)
              end
            else
              match simple_escape e with
              | Some ch => scanstring t1 (pos + 2) begin (ch :: acc)
              | None => Fail msg_escape pos
              end
        end
      else if (c <=? 31)%N then Fail msg_control pos
      else scanstring t (pos + 1) begin (c :: acc)
  end.

(** The lexeme of a number at the start of [s]: an optional minus sign, a
    zero or a run of ASCII digits that does not begin with zero, an optional
    fraction (a dot and digits) and an optional exponent (e or E, an
    optional sign and digits); with a flag telling whether it has a fraction
    or an exponent. *)
Definition match_number (s : str) : option (str * bool) :=
  let (sign, r0) := match s with
                    | 45%N :: t => ([45%N], t)
                    | _ => ([], s)
                    end in
  match r0 with
  | [] => None
  | d :: t0 =>
      let ip := if (d =? 48)%N then Some [d]
                else if is_ascii_digit d then Some (d :: takewhile is_ascii_digit t0)
                else None in
      match ip with
      | None => None
      | Some ip =>
          let r1 := skipn (List.length ip) r0 in
          let frac :=
            match r1 with
            | 46%N :: f :: t1 =>
                if is_ascii_digit f then 46%N :: takewhile is_ascii_digit (f :: t1)
                else []
            | _ => []
            end in
          let r2 := skipn (List.length frac) r1 in
          let ex :=
            match r2 with
            | e :: t2 =>
                if ((e =? 101) || (e =? 69))%N then
                  let sg := match t2 with
                            | g :: _ => if ((g =? 45) || (g =? 43))%N then [g] else []
                            | [] => []
                            end in
                  let ds := takewhile is_ascii_digit (skipn (List.length sg) t2) in
                  match ds with
                  | [] => []
                  | _ => e :: sg ++ ds
                  end
                else []
            | [] => []
            end in
          Some (sign ++ ip ++ frac ++ ex,
                match frac ++ ex with [] => false | _ => true end)
      end
  end.

(** [int(lexeme)] and [float(lexeme)] for the lexeme of a number. *)
Definition number_value (lexeme : str) (is_float : bool) : pyval :=
  if is_float then
    match Float.of_str lexeme with
    | Some f => VFloat f
    | None => VFloat S754_nan
    end
  else
    match lexeme with
    | 45%N :: ds => VInt (- Z.of_N (nat_of_digits ds))
    | ds => VInt (Z.of_N (nat_of_digits ds))
    end.

(** One value at the start of [s] (index [pos]); [parse_members] and
    [parse_elements] read what follows an opening brace or bracket once the
    first key or element is due. *)
Fixpoint scan_once (fuel : nat) (s : str) (pos : nat) : outcome pyval :=
  match fuel with
  | O => OutOfFuel
  | S fuel' =>
      match s with
      | [] => Fail msg_value pos
      | c :: t =>
          if (c =? 34)%N then
            match scanstring t (pos + 1) pos [] with
            | Done x rest p => Done (VStr x) rest p
            | Fail m p => Fail m p
            | OutOfFuel => OutOfFuel
            end
          else if (c =? 123)%N then
            let (r, p) := skip_ws t (pos + 1) in
            match r with
            | 125%N :: r' => Done (VDict []) r' (p + 1)
            | _ => parse_members fuel' r p []
            end
          else if (c =? 91)%N then
            let (r, p) := skip_ws t (pos + 1) in
            match r with
            | 93%N :: r' => Done (VList []) r' (p + 1)
            | _ => parse_elements fuel' r p []
            end
          else if startswith (lit "null") s then Done VNone (skipn 4 s) (pos + 4)
          else if startswith (lit "true") s then Done (VBool true) (skipn 4 s) (pos + 4)
          else if startswith (lit "false") s then Done (VBool false) (skipn 5 s) (pos + 5)
          else if startswith (lit "NaN") s then Done (VFloat S754_nan) (skipn 3 s) (pos + 3)
          else if startswith (lit "Infinity") s
               then Done (VFloat (S754_infinity false)) (skipn 8 s) (pos + 8)
          else if startswith (lit "-Infinity") s
               then Done (VFloat (S754_infinity true)) (skipn 9 s) (pos + 9)
          else
            match match_number s with
            | Some (lexeme, is_float) =>
                Done (number_value lexeme is_float)
                     (skipn (List.length lexeme) s) (pos + List.length lexeme)
            | None => Fail msg_value pos
            end
      end
  end

with parse_members (fuel : nat) (s : str) (pos : nat) (acc : dict)
  : outcome pyval :=
  match fuel with
  | O => OutOfFuel
  | S fuel' =>
      match s with
      | 34%N :: t =>
          match scanstring t (pos + 1) pos [] with
          | Done key r1 p1 =>
              let (r2, p2) := skip_ws r1 p1 in
              match r2 with
              | 58%N :: r3 =>
                  let (r4, p4) := skip_ws r3 (p2 + 1) in
                  match scan_once fuel' r4 p4 with
                  | Done v r5 p5 =>
                      let acc' := dict_set key v acc in
                      let (r6, p6) := skip_ws r5 p5 in
                      match r6 with
                      | 125%N :: r7 => Done (VDict acc') r7 (p6 + 1)
                      | 44%N :: r7 =>
                          let (r8, p8) := skip_ws r7 (p6 + 1) in
                          parse_members fuel' r8 p8 acc'
                      | _ => Fail msg_comma p6
                      end
                  | Fail m p => Fail m p
                  | OutOfFuel => OutOfFuel
                  end
              | _ => Fail msg_colon p2
              end
          | Fail m p => Fail m p
          | OutOfFuel => OutOfFuel
          end
      | _ => Fail msg_name pos
      end
  end

with parse_elements (fuel : nat) (s : str) (pos : nat) (acc : list pyval)
  : outcome pyval :=
  match fuel with
  | O => OutOfFuel
  | S fuel' =>
      match scan_once fuel' s pos with
      | Done v r1 p1 =>
          let (r2, p2) := skip_ws r1 p1 in
          match r2 with
          | 93%N :: r3 => Done (VList (rev (v :: acc))) r3 (p2 + 1)
          | 44%N :: r3 =>
              let (r4, p4) := skip_ws r3 (p2 + 1) in
              parse_elements fuel' r4 p4 (v :: acc)
          | _ => Fail msg_comma p2
          end
      | Fail m p => Fail m p
      | OutOfFuel => OutOfFuel
      end
  end.

(** [JSONDecodeError(msg, doc, pos)]: the message names the line, the
    column and the index of the error. *)
Definition count_newlines (s : str) : nat :=
  List.length (filter (fun c => (c =? 10)%N) s).

Definition column (before : str) : nat :=
  List.length (takewhile (fun c => negb (c =? 10)%N) (rev before)) + 1.

Definition decode_error (msg doc : str) (pos : nat) : exn :=
  let before := firstn pos doc in
  mkExn JSONDecodeError
    (msg ++ lit ": line " ++ digits_of_N (N.of_nat (count_newlines before + 1))
         ++ lit " column " ++ digits_of_N (N.of_nat (column before))
         ++ lit " (char " ++ digits_of_N (N.of_nat pos) ++ lit ")").

(** Enough fuel for any text: every call of the scanner is made on a text
    that is no longer than the one of its caller, and two nested calls
    consume a character. *)
Definition fuel_for (s : str) : nat := 2 * List.length s + 2.

(** [json.loads(s)] for a string [s] within the interpreter's limits: an
    integer literal has at most 4300 digits and the nesting stays within the
    recursion limit.  Beyond them CPython raises a [ValueError] that is no
    [JSONDecodeError], or [RecursionError]; the recursion limit depends on
    the depth of the call, and neither failure is part of this definition. *)
Definition loads (s : str) : result pyval :=
  match s with
  | 65279%N :: _ => Raise (decode_error msg_bom s 0)
  | _ =>
      let (r0, p0) := skip_ws s 0 in
      match scan_once (fuel_for s) r0 p0 with
      | Done v r1 p1 =>
          let (r2, p2) := skip_ws r1 p1 in
          match r2 with
          | [] => Ok v
          | _ :: _ => Raise (decode_error msg_extra s p2)
          end
      | Fail m p => Raise (decode_error m s p)
      | OutOfFuel => Raise (decode_error msg_value s 0)
      end
  end.

End Json.

(* ===================================================================== *)
(** ** Effects: printing, random identifiers, collaborators *)
(* ===================================================================== *)

Module Eff.
Import Str Py.

(** What the orchestrator hands to the LLM helper. *)
Record llm_request := mkRequest {
  req_page_text : str;
  req_instructions : option str;
  req_preferences : pyval;
  req_source_url : str }.

(** The observable steps of a run, in order. *)
Inductive event :=
| Printed (line : str)
| Requested (url : str)
| LLMCalled (r : llm_request).

(** What [requests.get] followed by [raise_for_status] can do: raise
    [Timeout], [HTTPError] or another [RequestException]; raise an
    exception that is no [RequestException] (urllib3's
    [LocationParseError] on a host name it rejects, for one); or give a
    response. *)
Inductive http_outcome :=
| HttpTimeout
| HttpStatusError (status : Z) (description : str)
| HttpRequestFailed (class_name description : str)
| HttpRaised (e : exn)
| HttpResponse (utf8 : option str) (text : str) (encoding : option str)
               (final_url : str).

(** The collaborators of the pipeline.
    - [urandom n]: the n-th block of 128 random bits drawn by [uuid.uuid4].
    - [http_get url]: the HTTP exchange of [fetch_url_content].
    - [extruct_extract html url]: [extruct.extract] on the encoded page, for
      the syntaxes json-ld and microdata.
    - [soup_parse html]: [BeautifulSoup(html, 'html.parser')], which
      raises on markup the parser rejects ([ParserRejectedMarkup]).
    - [soup_select html selector]: the texts of the elements a CSS selector
      finds in the parsed page once the unwanted tags are removed;
      [soup_body html] the text of the body, if there is one.
    - [llm_extract]: see [RecipeScraper]. *)
Record world := mkWorld {
  urandom : nat -> N;
  http_get : str -> http_outcome;
  extruct_extract : str -> str -> result dict;
  soup_parse : str -> result unit;
  soup_select : str -> str -> list str;
  soup_body : str -> option str;
  llm_extract : llm_request -> result pyval }.

Record state := mkState { trace : list event; draws : nat }.

Definition initial : state := mkState [] 0.

(** A computation: its result (a value or an exception) and the state
    after it; the state survives an exception. *)
Definition M (A : Type) : Type := state -> result A * state.

Definition ret {A} (a : A) : M A := fun st => (Ok a, st).
Definition raise {A} (e : exn) : M A := fun st => (Raise e, st).

Definition bindM {A B} (m : M A) (k : A -> M B) : M B :=
  fun st =>
    match m st with
    | (Ok a, st') => k a st'
    | (Raise e, st') => (Raise e, st')
    end.

Definition lift {A} (r : result A) : M A := fun st => (r, st).

Definition emit (e : event) : M unit :=
  fun st => (Ok tt, mkState (trace st ++ [e]) (draws st)).

(** [print(line)] *)
Definition print (line : str) : M unit := emit (Printed line).

(** The next 128 random bits. *)
Definition draw (w : world) : M N :=
  fun st => (Ok (urandom w (draws st)), mkState (trace st) (S (draws st))).

(** [try: m  except ...: ...  except ...: ...]: the first clause whose
    classes the exception is an instance of handles it; an exception no
    clause handles passes through, and so does one raised by a handler. *)
Fixpoint dispatch {A} (clauses : list ((exn -> bool) * (exn -> M A))) (e : exn)
  : M A :=
  match clauses with
  | [] => raise e
  | (handles, h) :: rest => if handles e then h e else dispatch rest e
  end.

Definition try_clauses {A} (m : M A) (clauses : list ((exn -> bool) * (exn -> M A)))
  : M A :=
  fun st =>
    match m st with
    | (Ok a, st') => (Ok a, st')
    | (Raise e, st') => dispatch clauses e st'
    end.

(** A [try] with one [except] clause. *)
Definition try_except {A} (m : M A) (handles : exn -> bool) (h : exn -> M A) : M A :=
  try_clauses m [(handles, h)].

(** [except C] catches the instances of [C]; [except Exception] everything. *)
Definition instance_of (c : exn_class) (e : exn) : bool := subclass (exn_cls e) c.
Definition any_exception (e : exn) : bool := true.

(** [type(e).__name__] *)
Definition class_name (c : exn_class) : str :=
  match c with
  | ValueError => lit "ValueError"
  | JSONDecodeError => lit "JSONDecodeError"
  | TypeError => lit "TypeError"
  | AttributeError => lit "AttributeError"
  | OverflowError => lit "OverflowError"
  | ConnectionError => lit "ConnectionError"
  | ConnectionAbortedError => lit "ConnectionAbortedError"
  | OtherException name => name
  end.

(** The lines printed during a run. *)
Definition printed (st : state) : list str :=
  flat_map (fun e => match e with Printed l => [l] | _ => [] end) (trace st).

(** The requests the LLM helper received during a run. *)
Definition llm_calls (st : state) : list llm_request :=
  flat_map (fun e => match e with LLMCalled r => [r] | _ => [] end) (trace st).

End Eff.

Notation "x <-- m ;; k" := (Eff.bindM m (fun x => k))
  (at level 61, m at next level, right associativity).
Notation "m ;;; k" := (Eff.bindM m (fun _ => k))
  (at level 61, right associativity).

(* ===================================================================== *)
(** ** config.py *)
(* ===================================================================== *)

Module Config.
Import Str Py.

Definition DEFAULT_SERVINGS : pyval := VInt 2.
Definition DEFAULT_DIFFICULTY : str := lit "Medium".
Definition DEFAULT_CATEGORY : str := lit "Uncategorised".
Definition DEFAULT_RECIPE_TITLE : str := lit "Untitled Recipe".
Definition DEFAULT_INGREDIENT_NAME : str := lit "Unnamed ingredient".
Definition DEFAULT_INGREDIENT_CATEGORY : str := lit "Miscellaneous".
Definition DEFAULT_UNKNOWN_INGREDIENT : str := lit "Unknown Ingredient".
Definition UNKNOWN_STEP_TEXT : str := lit "Unknown step".
Definition MAX_IMAGE_UPLOAD_SIZE_BYTES : Z := 10 * 1024 * 1024.
Definition URL_FETCH_TIMEOUT : Z := 15.

(** [generate_unique_id()] *)
Definition generate_unique_id (w : Eff.world) : Eff.M str :=
  r <-- Eff.draw w ;; Eff.ret (uuid4_hex r).

End Config.

(* ===================================================================== *)
(** ** utils.py *)
(* ===================================================================== *)

Module Utils.
Import Str Py Eff Config.

(** [v.strip()]: only a string has the method. *)
Definition py_strip (v : pyval) : result str :=
  match v with
  | VStr s => Ok (strip s)
  | _ => no_attribute v (lit "strip")
  end.

(** [float(quantity_raw) if quantity_raw is not None else None], with
    [TypeError] and [ValueError] turned into [None]. *)
Definition coerce_quantity (quantity_raw : pyval) : result pyval :=
  match quantity_raw with
  | VNone => Ok VNone
  | _ =>
      match py_float quantity_raw with
      | Ok f => Ok (VFloat f)
      | Raise e =>
          if subclass (exn_cls e) TypeError || subclass (exn_cls e) ValueError
          then Ok VNone
          else Raise e
      end
  end.

Definition ingredient (quantity unit_ item_name : pyval) : pyval :=
  VDict [(lit "quantity", quantity); (lit "unit", unit_); (lit "item_name", item_name)].

Definition coerce_to_ingredient (item : pyval) : result pyval :=
  match item with
  | VDict d =>
      let quantity_raw := dict_get (lit "quantity") VNone d in
      quantity <- coerce_quantity quantity_raw ;;
      let unit_ := dict_get (lit "unit") VNone d in
      let unit_ := match unit_ with
                   | VStr u => py_or (VStr (strip u)) VNone
                   | _ => VNone
                   end in
      let item_name := py_or (py_or (dict_get (lit "item_name") VNone d)
                                    (dict_get (lit "name") VNone d))
                             (VStr []) in
      stripped <- py_strip item_name ;;
      let item_name := py_or (VStr stripped) (VStr DEFAULT_INGREDIENT_NAME) in
      Ok (ingredient quantity unit_ item_name)
  | VStr s =>
      Ok (ingredient VNone VNone (py_or (VStr (strip s)) (VStr DEFAULT_INGREDIENT_NAME)))
  | _ =>
      Ok (ingredient VNone VNone (VStr DEFAULT_UNKNOWN_INGREDIENT))
  end.

(** The fence-free, trimmed text that is parsed first. *)
Definition strip_fences (raw : str) : str := strip (Re.sub_fences raw).

Definition ellipsis : str := [8230%N].

(** The four repairs and the ellipsis replacement, in the order of the
    source. *)
Definition apply_fixes (processed_string : str) : str :=
  let fixed_string := Re.sub_line_comments processed_string in
  let fixed_string := Re.sub_block_comments fixed_string in
  let fixed_string := Re.sub_trailing_commas fixed_string in
  replace ellipsis (lit "...")
    (replace (lit "undefined") (lit "null")
       (replace (lit "False") (lit "false")
          (replace (lit "True") (lit "true")
             (replace (lit "None") (lit "null") fixed_string)))).

Definition initial_failure_line (processed_string : str) (e : exn) : str :=
  lit "Initial JSON parse failed (first 500 chars): "
    ++ firstn 500 processed_string ++ lit "... Error: " ++ exn_msg e.

Definition final_failure_line (fixed_string : str) (final_e : exn) : str :=
  lit "JSON parsing still failed after fixes (first 500 chars): "
    ++ firstn 500 fixed_string ++ lit "... Error: " ++ exn_msg final_e.

Definition invalid_json_error (final_e : exn) : exn :=
  mkExn ValueError (lit "Invalid JSON format after cleaning: " ++ exn_msg final_e).

Definition scrub_and_parse_json_string (raw_json_string : pyval) : M pyval :=
  raw <-- match raw_json_string with
          | VStr s => ret s
          | v =>
              print (lit "Warning: scrub_and_parse_json_string expected a string, got <class '"
                         ++ type_name v ++ lit "'>") ;;;
              lift (str_of v)
          end ;;
  let processed_string := strip_fences raw in
  try_except (lift (Json.loads processed_string)) (instance_of JSONDecodeError)
    (fun e =>
       print (initial_failure_line processed_string e) ;;;
       let fixed_string := apply_fixes processed_string in
       try_except (lift (Json.loads fixed_string)) (instance_of JSONDecodeError)
         (fun final_e =>
            print (final_failure_line fixed_string final_e) ;;;
            raise (invalid_json_error final_e))).

Definition VALID_IMAGE_MIME_TYPES : list str :=
  [lit "image/png"; lit "image/jpeg"; lit "image/webp"; lit "image/heic";
   lit "image/heif"].

Definition no_json_found : exn :=
  mkExn ValueError (lit "No JSON object or array found in text.").

Definition extract_json_from_text (text : str) : M pyval :=
  match Re.search_json_span text with
  | None => raise no_json_found
  | Some json_str =>
      try_except (lift (Json.loads json_str)) (instance_of JSONDecodeError)
        (fun _ => scrub_and_parse_json_string (VStr json_str))
  end.

End Utils.

(* ===================================================================== *)
(** ** schema_converter.py *)
(* ===================================================================== *)

Module SchemaConverter.
Import Str Py Eff Config.

(** [f"{int(group)} hr"] *)
Definition amount (group unit_name : str) : result str :=
  n <- int_of_digits group ;;
  Ok (digits_of_N n ++ lit " " ++ unit_name).

(** [if m: parts.append(f"{int(m.group(1))} hr")] *)
Definition part (m : option str) (unit_name : str) : result (list str) :=
  match m with
  | Some g => a <- amount g unit_name ;; Ok [a]
  | None => Ok []
  end.

Definition parse_schema_duration (duration_str : pyval) : result pyval :=
  if negb (truthy duration_str) then Ok VNone
  else
    match duration_str with
    | VStr s =>
        if negb (startswith (lit "PT") s) then Ok VNone
        else
          let hours_match := Re.search_digits_before 72%N s in
          let mins_match := Re.search_digits_before 77%N s in
          hours <- part hours_match (lit "hr") ;;
          mins <- part mins_match (lit "min") ;;
          let parts := hours ++ mins in
          Ok (match parts with
              | [] => VNone
              | _ => VStr (join (lit " ") parts)
              end)
    | v => no_attribute v (lit "startswith")
    end.

(** One entry of [ingredients] *)
Definition raw_ingredient (ing : pyval) : result pyval :=
  item_name <- str_of ing ;;
  Ok (VDict [(lit "quantity", VNone); (lit "unit", VNone);
             (lit "item_name", VStr item_name)]).

(** One entry of [instructions] for a list of steps *)
Definition step_text (step : pyval) : result pyval :=
  match step with
  | VDict d => Ok (dict_get (lit "text") VNone d)
  | _ => s <- str_of step ;; Ok (VStr s)
  end.

(** The sentences of a single instruction string *)
Definition sentences (raw_instr : str) : list pyval :=
  flat_map (fun sentence =>
              match strip sentence with
              | [] => []
              | s => [VStr s]
              end)
           (split (lit ".") raw_instr).

Definition instructions_of (raw_instr : pyval) : result (list pyval) :=
  match raw_instr with
  | VList steps => map_result step_text steps
  | VStr s => Ok (sentences s)
  | _ => Ok []
  end.

Definition image_url_of (image : pyval) : pyval :=
  match image with
  | VList (first :: _) => first
  | VStr _ => image
  | _ => VNone
  end.

Definition source_tag : str := lit "url_import_schema.org".

Definition convert_schema_org_to_internal_recipe
    (w : world) (data : pyval) (source_url : str) : M pyval :=
  name <-- lift (py_get data (lit "name") VNone) ;;
  let title := py_or name (VStr DEFAULT_RECIPE_TITLE) in
  recipe_yield <-- lift (py_get data (lit "recipeYield") VNone) ;;
  let servings := py_or recipe_yield DEFAULT_SERVINGS in
  recipe_category <-- lift (py_get data (lit "recipeCategory") VNone) ;;
  let category := py_or recipe_category (VStr DEFAULT_CATEGORY) in
  difficulty_raw <-- lift (py_get data (lit "difficulty") VNone) ;;
  let difficulty := py_or difficulty_raw (VStr DEFAULT_DIFFICULTY) in
  prep_raw <-- lift (py_get data (lit "prepTime") VNone) ;;
  prep_time <-- lift (parse_schema_duration prep_raw) ;;
  cook_raw <-- lift (py_get data (lit "cookTime") VNone) ;;
  cook_time <-- lift (parse_schema_duration cook_raw) ;;
  total_raw <-- lift (py_get data (lit "totalTime") VNone) ;;
  total_time <-- lift (parse_schema_duration total_raw) ;;
  ingredients_raw <-- lift (py_get data (lit "recipeIngredient") (VList [])) ;;
  ings <-- lift (py_iter ingredients_raw) ;;
  ingredients <-- lift (map_result raw_ingredient ings) ;;
  raw_instr <-- lift (py_get data (lit "recipeInstructions") VNone) ;;
  instructions <-- lift (instructions_of raw_instr) ;;
  image <-- lift (py_get data (lit "image") VNone) ;;
  let image_url := image_url_of image in
  nutrition_raw <-- lift (py_get data (lit "nutrition") VNone) ;;
  let nutrition := py_or nutrition_raw (VDict []) in
  let calories := match nutrition with
                  | VDict n => dict_get (lit "calories") VNone n
                  | _ => VNone
                  end in
  r <-- draw w ;;
  image_field <-- (if truthy image_url
                   then s <-- lift (Utils.py_strip image_url) ;; ret (VStr s)
                   else ret VNone) ;;
  let calories_field := match calories with
                        | VStr c => VStr (strip c)
                        | _ => VNone
                        end in
  ret (VDict
         [(lit "recipeId", VStr (uuid4_hex r));
          (lit "title", title);
          (lit "servings", servings);
          (lit "category", category);
          (lit "difficulty", difficulty);
          (lit "ingredients", VList ingredients);
          (lit "instructions", VList instructions);
          (lit "prepTime", prep_time);
          (lit "cookTime", cook_time);
          (lit "totalTime", total_time);
          (lit "imageURL", image_field);
          (lit "calories", calories_field);
          (lit "source", VStr source_tag);
          (lit "originalImportUrl", VStr source_url);
          (lit "isPublic", VBool false);
          (lit "isSecretRecipe", VBool false);
          (lit "tipsAndVariations", VNone)]).

End SchemaConverter.

(* ===================================================================== *)
(** ** recipe_scraper.py *)
(* ===================================================================== *)

Module RecipeScraper.
Import Str Py Eff Config.

Definition connection_error (msg : str) : exn := mkExn ConnectionError msg.

Definition fetch_url_content (w : world) (url : str) : M str :=
  emit (Requested url) ;;;
  match http_get w url with
  | HttpResponse utf8 text encoding final_url =>
      content <-- match utf8 with
                  | Some c => ret c
                  | None =>
                      print (lit "WARN (fetch_url_content): UTF-8 decoding failed for "
                               ++ url
                               ++ lit ". Falling back to requests' detected encoding: "
                               ++ match encoding with
                                  | Some e => e
                                  | None => lit "None"
                                  end) ;;;
                      ret text
                  end ;;
      print (lit "Successfully fetched content from URL: " ++ url
               ++ lit " (final URL: " ++ final_url ++ lit ")") ;;;
      ret content
  | HttpTimeout =>
      print (lit "ERROR (fetch_url_content): Timeout fetching URL " ++ url
               ++ lit " after " ++ digits_of_Z URL_FETCH_TIMEOUT ++ lit "s.") ;;;
      raise (connection_error
               (lit "The request to " ++ url
                  ++ lit " timed out. Please check the URL or try again later."))
  | HttpStatusError status description =>
      print (lit "ERROR (fetch_url_content): HTTP error for URL " ++ url ++ lit ": "
               ++ digits_of_Z status ++ lit " - " ++ description) ;;;
      raise (connection_error
               (lit "Could not access URL: " ++ url
                  ++ lit ". The website responded with status "
                  ++ digits_of_Z status ++ lit "."))
  | HttpRequestFailed name description =>
      print (lit "ERROR (fetch_url_content): Failed to fetch URL " ++ url ++ lit ": "
               ++ name ++ lit " - " ++ description) ;;;
      raise (connection_error
               (lit "Failed to retrieve content from the URL: " ++ url
                  ++ lit ". Details: " ++ description))
  | HttpRaised e => raise e
  end.

Definition dq : str := [34%N].

Definition main_content_selectors : list str :=
  [lit "[itemtype$=" ++ dq ++ lit "/Recipe" ++ dq ++ lit "]";
   lit "article[class*=" ++ dq ++ lit "recipe" ++ dq ++ lit "]";
   lit "div[class*=" ++ dq ++ lit "recipe-content" ++ dq ++ lit "]";
   lit "div[id*=" ++ dq ++ lit "recipe" ++ dq ++ lit "]";
   lit "article.post"; lit "div.entry-content"; lit "div.post-content";
   lit "main[role=" ++ dq ++ lit "main" ++ dq ++ lit "]";
   lit "main"; lit "div.main-content"; lit "div#main"; lit "div.content"].

(** The loop over the selectors: the texts of the first selector that finds
    elements, after the line printed for it. *)
Fixpoint select_main_content (w : world) (html : str) (selectors : list str)
  : M (list str) :=
  match selectors with
  | [] => ret []
  | selector :: rest =>
      match soup_select w html selector with
      | [] => select_main_content w html rest
      | texts =>
          print (lit "Found elements with selector: " ++ selector) ;;;
          ret texts
      end
  end.

Definition max_length_for_llm : nat := N.to_nat 75000.

Definition separator : str := Re.backslash_n ++ Re.backslash_n.

(** The clean-up of the joined text, before truncation. *)
Definition clean_text (full_text : str) : str :=
  Re.sub_space_runs (strip (Re.sub_separator_runs full_text)).

Definition extract_relevant_text_from_html (w : world) (html_content : str)
  : M str :=
  match html_content with
  | [] => ret []
  | _ =>
      lift (soup_parse w html_content) ;;;
      selected <-- select_main_content w html_content main_content_selectors ;;
      content_texts <--
        match selected with
        | [] =>
            print (lit "WARN (extract_relevant_text_from_html): No specific recipe/main content selectors matched. Using full body text.") ;;;
            ret (match soup_body w html_content with
                 | Some body => [body]
                 | None => []
                 end)
        | _ => ret selected
        end ;;
      let full_text := join separator content_texts in
      let cleaned_text := clean_text full_text in
      cleaned_text <--
        (if (max_length_for_llm <? List.length cleaned_text)%nat
         then print (lit "WARN (extract_relevant_text_from_html): Extracted text for LLM was truncated to "
                       ++ digits_of_N (N.of_nat max_length_for_llm)
                       ++ lit " characters.") ;;;
              ret (firstn max_length_for_llm cleaned_text)
         else ret cleaned_text) ;;
      print (lit "DEBUG (extract_relevant_text_from_html): Prepared text for LLM (first 300 chars): "
               ++ firstn 300 cleaned_text ++ lit "...") ;;;
      ret cleaned_text
  end.

(** *** The structured-data scan *)

Definition recipe : str := lit "Recipe".

(** [isinstance(t, str) and t == 'Recipe'], or
    [isinstance(t, list) and 'Recipe' in t] *)
Definition is_recipe_type (t : pyval) : bool :=
  match t with
  | VStr s => eqb s recipe
  | VList l => list_has_str recipe l
  | _ => false
  end.

(** The loop over the members of an [@graph] list: the value of
    [recipe_schema_data] after it. *)
Fixpoint scan_graph (graph : list pyval) : result pyval :=
  match graph with
  | [] => Ok VNone
  | graph_item :: rest =>
      graph_item_type <- py_get graph_item (lit "@type") (VList []) ;;
      if is_recipe_type graph_item_type then Ok graph_item
      else scan_graph rest
  end.

(** The loop over the json-ld items. *)
Fixpoint scan_json_ld (items : list pyval) : result pyval :=
  match items with
  | [] => Ok VNone
  | item :: rest =>
      item_type <- py_get item (lit "@type") (VList []) ;;
      if is_recipe_type item_type then Ok item
      else
        match item with
        | VDict d =>
            match dict_lookup (lit "@graph") d with
            | Some (VList graph) =>
                found <- scan_graph graph ;;
                if truthy found then Ok found else scan_json_ld rest
            | _ => scan_json_ld rest
            end
        | _ => scan_json_ld rest
        end
  end.

(** The loop over the microdata items: the property map of the first item
    whose type ends in /Recipe. *)
Fixpoint scan_microdata (items : list pyval) : result (option pyval) :=
  match items with
  | [] => Ok None
  | item :: rest =>
      item_type <- py_get item (lit "type") (VStr []) ;;
      match item_type with
      | VStr t =>
          if endswith (lit "/Recipe") t
          then properties <- py_get item (lit "properties") (VDict []) ;;
               Ok (Some properties)
          else scan_microdata rest
      | _ => scan_microdata rest
      end
  end.

(** [d[k]] for a key known to be present, then the items of a [for] loop
    over it. *)
Definition items_of (k : str) (d : dict) : result (list pyval) :=
  py_iter (dict_get k VNone d).

(** Lines 128-159: the value of [recipe_schema_data] after the scan. *)
Definition locate_structured_data (w : world) (html_content url : str) : M pyval :=
  try_except
    (structured_data_all_types <-- lift (extruct_extract w html_content url) ;;
     found <--
       (if dict_has (lit "json-ld") structured_data_all_types
        then items <-- lift (items_of (lit "json-ld") structured_data_all_types) ;;
             r <-- lift (scan_json_ld items) ;;
             (if truthy r
              then print (lit "Found schema.org/Recipe (JSON-LD) at " ++ url)
              else ret tt) ;;;
             ret r
        else ret VNone) ;;
     if negb (truthy found) && dict_has (lit "microdata") structured_data_all_types
     then items <-- lift (items_of (lit "microdata") structured_data_all_types) ;;
          m <-- lift (scan_microdata items) ;;
          match m with
          | Some properties =>
              print (lit "Found schema.org/Recipe (Microdata) at " ++ url) ;;;
              ret properties
          | None => ret found
          end
     else ret found)
    any_exception
    (fun extruct_err =>
       print (lit "WARN (parse_recipe_from_url): Extruct processing failed for URL "
                ++ url ++ lit ". Error: " ++ exn_msg extruct_err
                ++ lit ". Proceeding to Gemini scrape.") ;;;
       ret VNone).

(** *** The orchestrator *)

Definition invalid_url : exn :=
  mkExn ValueError (lit "Invalid URL provided. It must start with http:// or https://.").

Definition no_extractable_content : exn :=
  mkExn ValueError (lit "Could not extract meaningful text from the URL to attempt a scrape.").

Definition invalid_llm_result : exn :=
  mkExn ValueError (lit "AI recipe extraction from URL content failed to produce a valid recipe.").

Definition fallback_tag : str := lit "url_scrape_gemini_fallback".

Definition nonempty (o : option str) : bool :=
  match o with
  | Some (_ :: _) => true
  | _ => false
  end.

Definition stripped_instructions (o : option str) : pyval :=
  match o with
  | Some s => VStr (strip s)
  | None => VNone
  end.

(** Lines 161-168: the structured-data path; [None] when there is no
    candidate or its conversion raised. *)
Definition structured_path (w : world) (url : str) (user_instructions : option str)
    (recipe_schema_data : pyval) : M (option pyval) :=
  if truthy recipe_schema_data then
    try_except
      (internal_recipe_dict <--
         SchemaConverter.convert_schema_org_to_internal_recipe w recipe_schema_data url ;;
       match internal_recipe_dict with
       | VDict d =>
           if nonempty user_instructions && truthy internal_recipe_dict
           then ret (Some (VDict (dict_set (lit "userModificationInstructions")
                                           (stripped_instructions user_instructions) d)))
           else ret (Some internal_recipe_dict)
       | other => ret (Some other)
       end)
      any_exception
      (fun e_convert =>
         print (lit "ERROR (parse_recipe_from_url): Failed to convert schema.org data from "
                  ++ url ++ lit ". Error: " ++ exn_msg e_convert
                  ++ lit ". Falling back to Gemini scrape.") ;;;
         ret None)
  else ret None.

(** Modelled from the spec: the LLM text-extraction capability.  The source
    imports [extract_recipe_from_text_content_for_url_scrape] from
    gemini_processors, which does not define it; the helper is the
    collaborator [llm_extract] of the world: given the page text, the user
    instructions, the user preferences and the source URL it returns a value
    or raises. *)
Definition extract_recipe_from_text_content_for_url_scrape
    (w : world) (r : llm_request) : M pyval :=
  emit (LLMCalled r) ;;;
  lift (llm_extract w r).

(** Lines 188-196: the post-processing of what the helper returned.  The
    title goes into the printed line through [str]; the answer is a value
    read from JSON, whose integers are within the bound of [str]. *)
Definition finish_llm_recipe (w : world) (url : str) (user_instructions : option str)
    (recipe_from_gemini : pyval) : M pyval :=
  match recipe_from_gemini with
  | VDict ((_ :: _) as d) =>
      d <-- (if negb (dict_has (lit "recipeId") d)
                || negb (truthy (dict_get (lit "recipeId") VNone d))
             then r <-- draw w ;;
                  ret (dict_set (lit "recipeId") (VStr (uuid4_str r)) d)
             else ret d) ;;
      let d := dict_set (lit "source") (VStr fallback_tag) d in
      let d := dict_set (lit "originalImportUrl") (VStr url) d in
      let d := if nonempty user_instructions
                  && negb (dict_has (lit "userModificationInstructions") d)
               then dict_set (lit "userModificationInstructions")
                             (stripped_instructions user_instructions) d
               else d in
      print (lit "Successfully scraped recipe from " ++ url
               ++ lit " using Gemini. Title: "
               ++ py_str (dict_get (lit "title") (VStr (lit "N/A")) d)) ;;;
      ret (VDict d)
  | _ =>
      print (lit "WARN (parse_recipe_from_url): Gemini scrape for " ++ url
               ++ lit " returned invalid data.") ;;;
      raise invalid_llm_result
  end.

(** Lines 170-206: the LLM fallback path. *)
Definition llm_path (w : world) (url html_content : str)
    (user_instructions : option str) (user_preferences : pyval) : M pyval :=
  print (lit "No valid schema.org/Recipe data found/converted for " ++ url
           ++ lit ". Attempting Gemini scrape.") ;;;
  page_text_content <-- extract_relevant_text_from_html w html_content ;;
  match strip page_text_content with
  | [] =>
      print (lit "ERROR (parse_recipe_from_url): No text content extracted from "
               ++ url ++ lit " for Gemini scrape.") ;;;
      raise no_extractable_content
  | _ =>
      try_clauses
        (recipe_from_gemini <--
           extract_recipe_from_text_content_for_url_scrape w
             (mkRequest page_text_content user_instructions user_preferences url) ;;
         finish_llm_recipe w url user_instructions recipe_from_gemini)
        [(fun e => instance_of ConnectionError e || instance_of ValueError e,
          fun e_gemini_scrape =>
            print (lit "ERROR (parse_recipe_from_url): Gemini scrape for " ++ url
                     ++ lit " failed: " ++ exn_msg e_gemini_scrape) ;;;
            raise e_gemini_scrape);
         (any_exception,
          fun e_unhandled_gemini =>
            print (lit "ERROR (parse_recipe_from_url): Unhandled exception during Gemini scrape for "
                     ++ url ++ lit ": " ++ class_name (exn_cls e_unhandled_gemini)
                     ++ lit " - " ++ exn_msg e_unhandled_gemini) ;;;
            raise (mkExn ConnectionAbortedError
                     (lit "Unexpected AI error during URL scrape: " ++ url
                        ++ lit ". Details: " ++ exn_msg e_unhandled_gemini)))]
  end.

Definition valid_url (url : str) : bool :=
  match url with
  | [] => false
  | _ => startswith (lit "http://") url || startswith (lit "https://") url
  end.

Definition parse_recipe_from_url (w : world) (url : str)
    (user_instructions : option str) (user_preferences : pyval) : M pyval :=
  if negb (valid_url url) then raise invalid_url
  else
    html_content <--
      try_except (fetch_url_content w url) (instance_of ConnectionError)
        (fun ce =>
           print (lit "ERROR (parse_recipe_from_url): Fetching URL failed: "
                    ++ exn_msg ce) ;;;
           raise ce) ;;
    recipe_schema_data <-- locate_structured_data w html_content url ;;
    converted <-- structured_path w url user_instructions recipe_schema_data ;;
    match converted with
    | Some internal_recipe_dict => ret internal_recipe_dict
    | None => llm_path w url html_content user_instructions user_preferences
    end.

End RecipeScraper.

(* ===================================================================== *)
(** ** Vocabulary of the properties *)
(* ===================================================================== *)

Module Props.
Import Str Py Eff.

(** The result of a computation started in the initial state. *)
Definition result_of {A} (m : M A) : result A := fst (m initial).

(** [s] has a token for the letter [x]: one or more decimal digits with
    the letter right after them. *)
Definition has_token (x : N) (s : str) : Prop :=
  exists pre ds post,
    s = pre ++ ds ++ x :: post /\ ds <> [] /\ Forall (fun c => isdigit c = true) ds.

(** [s] has a span: an opening brace or bracket and, somewhere after it,
    the closing character of the same kind. *)
Definition has_span (s : str) : Prop :=
  exists pre o mid c post,
    s = pre ++ o :: mid ++ c :: post /\ Re.closer_of o = Some c.

Definition is_str (v : pyval) : bool :=
  match v with VStr _ => true | _ => false end.

Definition is_list (v : pyval) : bool :=
  match v with VList _ => true | _ => false end.

Definition is_float (v : pyval) : bool :=
  match v with VFloat _ => true | _ => false end.

Definition is_none (v : pyval) : bool :=
  match v with VNone => true | _ => false end.

(** An entity of structured data: a key/value mapping. *)
Definition is_entity (v : pyval) : bool :=
  match v with VDict _ => true | _ => false end.

(** Values a [for] loop accepts. *)
Definition iterable (v : pyval) : bool :=
  match v with VList _ | VStr _ | VDict _ => true | _ => false end.

(** A value the duration parser accepts: a falsy one or a string. *)
Definition duration_shaped (v : pyval) : bool := negb (truthy v) || is_str v.

(** The token for the letter [x] that the search finds in [s], if there
    is one, has no more digits than [int] accepts. *)
Definition token_within_limit (x : N) (s : str) : bool :=
  match Re.search_digits_before x s with
  | Some g => (N.of_nat (List.length g) <=? int_max_str_digits)%N
  | None => true
  end.

(** A duration whose tokens [int] accepts: any value but a string that
    begins with PT and whose hours token or minutes token has more than
    4300 digits. *)
Definition duration_within_limit (v : pyval) : bool :=
  match v with
  | VStr s =>
      negb (startswith (lit "PT") s)
      || (token_within_limit 72 s && token_within_limit 77 s)
  | _ => true
  end.

(** A duration the parser handles. *)
Definition duration_ok (v : pyval) : bool :=
  duration_shaped v && duration_within_limit v.

(** The elements of a list of ingredients are within the bound of [str];
    the characters of a string and the keys of a mapping always are. *)
Definition items_within_limit (v : pyval) : bool :=
  match v with
  | VList l => forallb within_digit_limit l
  | _ => true
  end.

(** The steps of a list of instructions that are no mappings are within
    the bound of [str]. *)
Definition steps_within_limit (v : pyval) : bool :=
  match v with
  | VList steps => forallb (fun step => is_entity step || within_digit_limit step) steps
  | _ => true
  end.

(** A value [str] writes without descending into it. *)
Definition scalar (v : pyval) : bool :=
  match v with
  | VList _ | VDict _ => false
  | _ => true
  end.

(** The candidates whose ingredients and steps [str] writes without
    descending into them: the elements of a list of ingredients are
    scalars, and so are the steps of a list of instructions that are no
    mappings.  (On a list or a mapping [str] descends as deep as the value
    is nested, within the recursion limit of the interpreter, which the
    model does not have.) *)
Definition flat (d : dict) : bool :=
  match dict_get (lit "recipeIngredient") (VList []) d with
  | VList l => forallb scalar l
  | _ => true
  end
  && match dict_get (lit "recipeInstructions") VNone d with
     | VList steps => forallb (fun step => is_entity step || scalar step) steps
     | _ => true
     end.

(** The candidates the converter handles: the three durations are falsy or
    strings with tokens of at most 4300 digits, [recipeIngredient] is absent
    or iterable, no ingredient and no step written with [str] holds an int
    of more than 4300 digits, and the image it picks is falsy or a
    string. *)
Definition convertible (d : dict) : bool :=
  duration_ok (dict_get (lit "prepTime") VNone d)
  && duration_ok (dict_get (lit "cookTime") VNone d)
  && duration_ok (dict_get (lit "totalTime") VNone d)
  && iterable (dict_get (lit "recipeIngredient") (VList []) d)
  && items_within_limit (dict_get (lit "recipeIngredient") (VList []) d)
  && steps_within_limit (dict_get (lit "recipeInstructions") VNone d)
  && duration_shaped (SchemaConverter.image_url_of (dict_get (lit "image") VNone d)).

(** An entity typed Recipe. *)
Definition typed_recipe (v : pyval) : bool :=
  match v with
  | VDict d => RecipeScraper.is_recipe_type (dict_get (lit "@type") (VList []) d)
  | _ => false
  end.

(** The members of the [@graph] list of a block. *)
Definition graph_members (item : pyval) : list pyval :=
  match item with
  | VDict d =>
      match dict_lookup (lit "@graph") d with
      | Some (VList graph) => graph
      | _ => []
      end
  | _ => []
  end.

(** The entities of a block in scan order: the block itself, then the
    members of its graph. *)
Definition block_entities (item : pyval) : list pyval := item :: graph_members item.

(** A microdata item whose type ends in /Recipe. *)
Definition microdata_recipe (v : pyval) : bool :=
  match v with
  | VDict d =>
      match dict_get (lit "type") (VStr []) d with
      | VStr t => endswith (lit "/Recipe") t
      | _ => false
      end
  | _ => false
  end.

Definition properties_of (v : pyval) : pyval :=
  match v with
  | VDict d => dict_get (lit "properties") (VDict []) d
  | _ => VNone
  end.

(** The name an ingredient mapping offers:
    [item.get("item_name") or item.get("name") or ""]. *)
Definition offered_name (d : dict) : pyval :=
  py_or (py_or (dict_get (lit "item_name") VNone d) (dict_get (lit "name") VNone d))
        (VStr []).

(** A quantity [float] converts or rejects with [TypeError] or
    [ValueError]: anything but an int beyond the range of a float. *)
Definition quantity_in_range (v : pyval) : bool :=
  match v with
  | VInt z => Float.is_finite (Float.of_Z z)
  | _ => true
  end.

(** The inputs [coerce_to_ingredient] handles. *)
Definition coercible (item : pyval) : bool :=
  match item with
  | VDict d =>
      quantity_in_range (dict_get (lit "quantity") VNone d) && is_str (offered_name d)
  | _ => true
  end.

(** The keys of a dict are distinct. *)
Definition unique_keys (d : dict) : Prop := NoDup (map fst d).

(** No opening character of [pre] has its closing character anywhere in
    what follows it, [rest] included. *)
Definition unopened (pre rest : str) : Prop :=
  forall p1 o r1 c,
    pre = p1 ++ o :: r1 -> Re.closer_of o = Some c -> ~ In c (r1 ++ rest).

(** *** Computations *)

(** [st'] continues [st]: its trace is that of [st] with further events,
    none of which is a call of the LLM helper. *)
Definition follows (st st' : state) : Prop :=
  exists more,
    trace st' = trace st ++ more /\ forall r, ~ In (LLMCalled r) more.

(** A computation that only adds to the trace and never calls the LLM
    helper. *)
Definition quiet {A} (m : M A) : Prop :=
  forall st, follows st (snd (m st)).

(** A computation whose result does not depend on the state it starts in. *)
Definition stateless {A} (m : M A) : Prop :=
  forall st, fst (m st) = fst (m initial).

(** The scan of a list of entities in order: the first one typed Recipe,
    None when there is none, and the error of calling [get] on a value that
    is no mapping. *)
Fixpoint first_typed_recipe (entities : list pyval) : result pyval :=
  match entities with
  | [] => Ok VNone
  | e :: rest =>
      match e with
      | VDict _ => if typed_recipe e then Ok e else first_typed_recipe rest
      | _ => no_attribute e (lit "get")
      end
  end.

(** The mapping the post-processing of an LLM answer [d] returns when it
    starts in the state [st] (lines 188-196 of recipe_scraper.py). *)
Definition finished (w : world) (url : str) (ui : option str) (d : dict) (st : state)
  : dict :=
  let d1 := if negb (dict_has (lit "recipeId") d)
               || negb (truthy (dict_get (lit "recipeId") VNone d))
            then dict_set (lit "recipeId") (VStr (uuid4_str (urandom w (draws st)))) d
            else d in
  let d2 := dict_set (lit "originalImportUrl") (VStr url)
              (dict_set (lit "source") (VStr RecipeScraper.fallback_tag) d1) in
  if RecipeScraper.nonempty ui
     && negb (dict_has (lit "userModificationInstructions") d2)
  then dict_set (lit "userModificationInstructions")
                (RecipeScraper.stripped_instructions ui) d2
  else d2.

(** *** Sample pages *)

(** A world whose page at any address is [html], with the structured data
    [sd], the main text [text] and an LLM helper answering [answer]. *)
Definition sample_world (sd : result dict) (text : str) (answer : result pyval)
  : world :=
  mkWorld (fun n => N.of_nat n)
          (fun _ => HttpResponse (Some (lit "<html></html>")) (lit "<html></html>")
                                 (Some (lit "utf-8")) (lit "http://example.com/soup"))
          (fun _ _ => sd)
          (fun _ => Ok tt)
          (fun _ selector => if eqb selector (lit "main") then [text] else [])
          (fun _ => None)
          (fun _ => answer).

Definition sample_url : str := lit "http://example.com/soup".

Definition entity (type_ : str) (fields : dict) : pyval :=
  VDict ((lit "@type", VStr type_) :: fields).

(** A Recipe whose image is a mapping, as pages often have it: the
    converter raises on it. *)
Definition recipe_with_image_object : pyval :=
  entity (lit "Recipe")
    [(lit "name", VStr (lit "Soup"));
     (lit "image", VList [entity (lit "ImageObject") [(lit "url", VStr (lit "soup.png"))]])].

Definition plain_recipe : pyval :=
  entity (lit "Recipe")
    [(lit "name", VStr (lit "Soup"));
     (lit "recipeIngredient", VList [VStr (lit "1 cup water")])].

(** Structured data with a WebSite block, then a block whose graph holds a
    Recipe, then another Recipe. *)
Definition sample_structured_data (first_recipe : pyval) : dict :=
  [(lit "json-ld",
    VList [entity (lit "WebSite") [];
           VDict [(lit "@graph", VList [entity (lit "Person") []; first_recipe])];
           entity (lit "Recipe") [(lit "name", VStr (lit "Second"))]]);
   (lit "microdata", VList [])].

(** *** Sample texts *)

Definition quoted (s : str) : str := 34%N :: s ++ [34%N].

(** The text [{"a":1}] *)
Definition object_a1 : str := lit "{" ++ quoted (lit "a") ++ lit ":1}".

(** The same text in a fenced block tagged json *)
Definition fenced_object : str :=
  lit "```json" ++ [10%N] ++ object_a1 ++ [10%N] ++ lit "```".

(** The text [{"a":1,}] *)
Definition trailing_comma_object : str := lit "{" ++ quoted (lit "a") ++ lit ":1,}".

(** The text [{"a": None, "b": True, "c": False}] *)
Definition python_literals_object : str :=
  lit "{" ++ quoted (lit "a") ++ lit ": None, " ++ quoted (lit "b") ++ lit ": True, "
    ++ quoted (lit "c") ++ lit ": False}".

(** The object a:1 with a line comment before the closing brace, which is
    on the next line *)
Definition line_comment_object : str :=
  lit "{" ++ quoted (lit "a") ++ lit ":1 // one" ++ [10%N] ++ lit "}".

(** The object a:1 with a block comment before the value *)
Definition block_comment_object : str :=
  lit "{" ++ quoted (lit "a") ++ lit ": /* one */ 1}".

(** The object a:1 with a comma and a line comment after the value: the
    comma is a trailing one only once the comment is gone *)
Definition comma_before_comment_object : str :=
  lit "{" ++ quoted (lit "a") ++ lit ":1, // last" ++ [10%N] ++ lit "}".

(** A list with a block comment that holds two slashes *)
Definition slashes_in_block_comment : str := lit "[1 /* see // */]".

(** *** Texts and traces *)

(** Two white-space characters in a row somewhere in [s]. *)
Fixpoint has_space_run (s : str) : bool :=
  match s with
  | [] => false
  | c :: t =>
      match t with
      | d :: _ => (isspace c && isspace d) || has_space_run t
      | [] => false
      end
  end.

(** [s] is empty or begins with a character that is no white space. *)
Definition head_nonspace (s : str) : bool :=
  match s with
  | [] => true
  | c :: _ => negb (isspace c)
  end.

(** [st'] continues [st] with printed lines only. *)
Definition prints_only (st st' : state) : Prop :=
  exists lines, trace st' = trace st ++ map Printed lines.

(** A computation that does nothing observable but print. *)
Definition printing {A} (m : M A) : Prop :=
  forall st, prints_only st (snd (m st)).

(** The exceptions the orchestrator lets through from the LLM helper as
    they are: the instances of [ConnectionError] and of [ValueError]. *)
Definition passes_through (e : exn) : bool :=
  instance_of ConnectionError e || instance_of ValueError e.

(** Structured data whose first json-ld item is not a mapping, followed by
    a Recipe, and with a microdata Recipe as well. *)
Definition malformed_structured_data : dict :=
  [(lit "json-ld", VList [VStr (lit "oops"); plain_recipe]);
   (lit "microdata",
    VList [VDict [(lit "type", VStr (lit "http://schema.org/Recipe"));
                  (lit "properties", VDict [(lit "name", VStr (lit "Soup"))])]])].

(** *** The JSON scanner *)

(** The outcome of a scan of [s] that had fuel enough: it is a value or an
    error, and a value leaves a text shorter than [s]. *)
Definition consumes {A} (o : Json.outcome A) (s : str) : Prop :=
  o <> Json.OutOfFuel
  /\ forall a rest pos, o = Json.Done a rest pos -> List.length rest < List.length s.

(** *** Identifiers *)

(** A lower-case hexadecimal digit. *)
Definition is_hex (c : N) : bool :=
  ((48 <=? c) && (c <=? 57) || (97 <=? c) && (c <=? 102))%N.

End Props.

(* ===================================================================== *)
(** ** Lemmas on strings *)
(* ===================================================================== *)

Import Str Py Eff Props.

Section StringLemmas.

Lemma eqb_refl (s : str) : eqb s s = true.
Proof.
  induction s as [|c s IH]; simpl; [reflexivity|].
  now rewrite N.eqb_refl, IH.
Qed.

Lemma eqb_eq (a b : str) : eqb a b = true <-> a = b.
Proof.
  revert b; induction a as [|x a IH]; intros [|y b]; simpl; split; intros H;
    try reflexivity; try discriminate.
  - apply andb_true_iff in H as [Hx Hr].
    apply N.eqb_eq in Hx; apply IH in Hr; now subst.
  - inversion H; subst. now rewrite N.eqb_refl, eqb_refl.
Qed.

Lemma eqb_neq (a b : str) : eqb a b = false <-> a <> b.
Proof.
  split; intros H.
  - intros E. apply eqb_eq in E. congruence.
  - destruct (eqb a b) eqn:E; [|reflexivity].
    apply eqb_eq in E. contradiction.
Qed.

Lemma takewhile_dropwhile (p : N -> bool) (s : str) :
  takewhile p s ++ dropwhile p s = s.
Proof.
  induction s as [|c s IH]; simpl; [reflexivity|].
  destruct (p c); simpl; [now rewrite IH | reflexivity].
Qed.

Lemma takewhile_all (p : N -> bool) (s : str) :
  Forall (fun c => p c = true) (takewhile p s).
Proof.
  induction s as [|c s IH]; simpl; [constructor|].
  destruct (p c) eqn:E; [constructor; assumption | constructor].
Qed.

Lemma dropwhile_app_stop (p : N -> bool) (ds : str) (x : N) (post : str) :
  Forall (fun c => p c = true) ds -> p x = false ->
  dropwhile p (ds ++ x :: post) = x :: post.
Proof.
  intros Hds Hx; induction Hds as [|d ds Hd _ IH]; simpl.
  - now rewrite Hx.
  - now rewrite Hd.
Qed.

Lemma dropwhile_idem (p : N -> bool) (s : str) :
  dropwhile p (dropwhile p s) = dropwhile p s.
Proof.
  induction s as [|c s IH]; simpl; [reflexivity|].
  destruct (p c) eqn:E; [assumption | simpl; now rewrite E].
Qed.

Lemma dropwhile_head (p : N -> bool) (s : str) (c : N) (t : str) :
  dropwhile p s = c :: t -> p c = false.
Proof.
  induction s as [|x s IH]; simpl; [discriminate|].
  destruct (p x) eqn:E; [assumption|].
  intros H; inversion H; subst; assumption.
Qed.

Lemma dropwhile_snoc (p : N -> bool) (s : str) (h : N) :
  p h = false -> dropwhile p (s ++ [h]) = dropwhile p s ++ [h].
Proof.
  intros Hh; induction s as [|c s IH]; simpl.
  - now rewrite Hh.
  - destruct (p c); [assumption | reflexivity].
Qed.

Lemma rstrip_cons (h : N) (t : str) :
  isspace h = false -> rstrip (h :: t) = h :: rstrip t.
Proof.
  intros Hh; unfold rstrip; simpl.
  rewrite dropwhile_snoc by assumption.
  now rewrite rev_app_distr.
Qed.

Lemma rstrip_idem (s : str) : rstrip (rstrip s) = rstrip s.
Proof.
  unfold rstrip. now rewrite rev_involutive, dropwhile_idem.
Qed.

Lemma lstrip_fixed (s : str) :
  match s with [] => True | c :: _ => isspace c = false end -> lstrip s = s.
Proof.
  destruct s as [|c s]; simpl; [reflexivity|].
  unfold lstrip; simpl. now intros ->.
Qed.

(** Trimming a trimmed string changes nothing. *)
Lemma strip_idem (s : str) : strip (strip s) = strip s.
Proof.
  unfold strip.
  destruct (lstrip s) as [|h t] eqn:E.
  - reflexivity.
  - assert (Hh : isspace h = false) by (eapply dropwhile_head; exact E).
    rewrite rstrip_cons by assumption.
    rewrite lstrip_fixed by (simpl; assumption).
    rewrite <- rstrip_cons by assumption.
    apply rstrip_idem.
Qed.

Lemma strip_nil : strip [] = [].
Proof. reflexivity. Qed.

Lemma length_hex_fixed (w : nat) (n : N) : List.length (hex_fixed w n) = w.
Proof.
  revert n; induction w as [|w IH]; intros n; simpl; [reflexivity|].
  rewrite length_app, IH; simpl; lia.
Qed.

End StringLemmas.

(* ===================================================================== *)
(** ** Duration strings (schema_converter.py) *)
(* ===================================================================== *)

Section Durations.

Lemma has_token_cons (x c : N) (s : str) : has_token x s -> has_token x (c :: s).
Proof.
  intros (pre & ds & post & -> & Hne & Hds).
  exists (c :: pre), ds, post; auto.
Qed.

(** What the search returns is a token of the text. *)
Lemma search_digits_sound (x : N) (s g : str) :
  Re.search_digits_before x s = Some g ->
  g <> [] /\ Forall (fun c => isdigit c = true) g
  /\ exists pre post, s = pre ++ g ++ x :: post.
Proof.
  induction s as [|c t IH]; simpl; [discriminate|].
  destruct (isdigit c) eqn:Hc; simpl.
  - destruct (dropwhile isdigit t) as [|y r] eqn:Hd.
    + intros H. destruct (IH H) as (Hg & Hall & pre & post & ->).
      repeat split; auto. now exists (c :: pre), post.
    + destruct (y =? x)%N eqn:Hy.
      * intros H; inversion H; subst g; clear H.
        apply N.eqb_eq in Hy; subst y.
        repeat split.
        -- discriminate.
        -- constructor; [assumption | apply takewhile_all].
        -- exists [], r. simpl. f_equal.
           rewrite <- Hd. symmetry. apply takewhile_dropwhile.
      * intros H. destruct (IH H) as (Hg & Hall & pre & post & ->).
        repeat split; auto. now exists (c :: pre), post.
  - intros H. destruct (IH H) as (Hg & Hall & pre & post & ->).
    repeat split; auto. now exists (c :: pre), post.
Qed.

(** A text with a token makes the search succeed, for a letter that is no
    digit. *)
Lemma search_digits_complete (x : N) (s : str) :
  isdigit x = false -> has_token x s -> Re.search_digits_before x s <> None.
Proof.
  intros Hx (pre & ds & post & -> & Hne & Hds).
  induction pre as [|c pre IH]; simpl.
  - destruct ds as [|d ds]; [contradiction|].
    inversion Hds as [|? ? Hd Hds']; subst. simpl.
    rewrite Hd. simpl.
    rewrite (dropwhile_app_stop isdigit ds x post Hds' Hx).
    rewrite N.eqb_refl. discriminate.
  - destruct (isdigit c && _); [discriminate | assumption].
Qed.

Lemma search_digits_none_iff (x : N) (s : str) :
  isdigit x = false ->
  (Re.search_digits_before x s = None <-> ~ has_token x s).
Proof.
  intros Hx; split.
  - intros Hnone Htok. now apply (search_digits_complete x s Hx Htok).
  - intros Hno. destruct (Re.search_digits_before x s) as [g|] eqn:E; [|reflexivity].
    exfalso; apply Hno.
    destruct (search_digits_sound x s g E) as (Hg & Hall & pre & post & ->).
    now exists pre, g, post.
Qed.

Lemma duration_without_tokens (s : str) :
  ~ has_token 72 s -> ~ has_token 77 s ->
  SchemaConverter.parse_schema_duration (VStr s) = Ok VNone.
Proof.
  intros HH HM.
  apply (search_digits_none_iff 72 s eq_refl) in HH.
  apply (search_digits_none_iff 77 s eq_refl) in HM.
  unfold SchemaConverter.parse_schema_duration.
  destruct s as [|c s]; [reflexivity|].
  cbn [truthy negb].
  destruct (negb (startswith (lit "PT") (c :: s))); [reflexivity|].
  now rewrite HH, HM.
Qed.

(** C3: [parse_schema_duration] maps PT1H30M, PT45M and PT2H to
    "1 hr 30 min", "45 min" and "2 hr"; it returns None, without raising,
    for the empty string, for None, for "garbage", and for every string that
    has neither an hours token nor a minutes token. *)
Theorem parse_schema_duration_spec :
  SchemaConverter.parse_schema_duration (VStr (lit "PT1H30M"))
    = Ok (VStr (lit "1 hr 30 min"))
  /\ SchemaConverter.parse_schema_duration (VStr (lit "PT45M"))
     = Ok (VStr (lit "45 min"))
  /\ SchemaConverter.parse_schema_duration (VStr (lit "PT2H"))
     = Ok (VStr (lit "2 hr"))
  /\ SchemaConverter.parse_schema_duration (VStr []) = Ok VNone
  /\ SchemaConverter.parse_schema_duration VNone = Ok VNone
  /\ SchemaConverter.parse_schema_duration (VStr (lit "garbage")) = Ok VNone
  /\ (forall s : str,
        ~ has_token 72 s -> ~ has_token 77 s ->
        SchemaConverter.parse_schema_duration (VStr s) = Ok VNone).
Proof.
  repeat split; try reflexivity.
  exact duration_without_tokens.
Qed.

End Durations.

(* ===================================================================== *)
(** ** The JSON repair parser (utils.py) *)
(* ===================================================================== *)

Section JsonRepair.

(** *** What the removal of comments removes *)

Lemma line_comment_body (body rest : str) :
  ~ In 10%N body ->
  (rest = [] \/ exists r, rest = 10%N :: r) ->
  Re.sub_line_comments_from true (body ++ rest) = Re.sub_line_comments_from false rest.
Proof.
  intros Hbody Hrest. induction body as [|c body IH]; cbn [app].
  - destruct Hrest as [->|(r & ->)]; reflexivity.
  - cbn [Re.sub_line_comments_from].
    destruct (c =? 10)%N eqn:E.
    + apply N.eqb_eq in E. exfalso. apply Hbody. now left.
    + apply IH. intros Hin. apply Hbody. now right.
Qed.

(** A line comment goes, from its two slashes to the end of its line; the
    newline stays. *)
Lemma line_comment_removed (pre body rest : str) :
  ~ In 47%N pre -> ~ In 10%N body ->
  (rest = [] \/ exists r, rest = 10%N :: r) ->
  Re.sub_line_comments (pre ++ lit "//" ++ body ++ rest)
    = pre ++ Re.sub_line_comments rest.
Proof.
  intros Hpre Hbody Hrest. unfold Re.sub_line_comments.
  induction pre as [|c pre IH]; cbn [app].
  - change (lit "//") with [47%N; 47%N]. cbn [app Re.sub_line_comments_from].
    change (startswith (lit "//") (47%N :: 47%N :: body ++ rest)) with true.
    cbv iota. change (47 =? 10)%N with false. cbv iota.
    now apply line_comment_body.
  - cbn [Re.sub_line_comments_from].
    assert (Hc : startswith (lit "//") (c :: pre ++ lit "//" ++ body ++ rest) = false).
    { change (lit "//") with [47%N; 47%N] at 1. cbn [startswith].
      destruct (47 =? c)%N eqn:E; [|reflexivity].
      apply N.eqb_eq in E. exfalso. apply Hpre. now left. }
    rewrite Hc. f_equal. apply IH. intros Hin. apply Hpre. now right.
Qed.

Lemma find_closing_mark (body rest : str) :
  contains [42%N; 47%N] body = false ->
  find [42%N; 47%N] (body ++ 42%N :: 47%N :: rest) = Some (List.length body).
Proof.
  induction body as [|c body IH]; intros H.
  - reflexivity.
  - cbn [contains] in H. apply orb_false_iff in H as [H1 H2].
    cbn [app find List.length].
    match goal with
    | |- context [if startswith ?p ?t then _ else _] =>
        assert (Hs : startswith p t = false)
    end.
    { cbn [startswith] in H1 |- *.
      destruct (42 =? c)%N; [|reflexivity]. cbn [andb] in H1 |- *.
      destruct body as [|y body]; [reflexivity | exact H1]. }
    rewrite Hs, (IH H2). reflexivity.
Qed.

Lemma block_comment_skipped (a rest : str) (n : nat) :
  Re.sub_block_comments_from (List.length a + n) (a ++ rest)
    = Re.sub_block_comments_from n rest.
Proof.
  induction a as [|c a IH]; [reflexivity|].
  cbn [List.length app Nat.add Re.sub_block_comments_from]. exact IH.
Qed.

Lemma block_comment_opens (t : str) :
  Re.sub_block_comments_from 0 (47%N :: 42%N :: t)
    = match find [42%N; 47%N] t with
      | Some k => Re.sub_block_comments_from (k + 3) (42%N :: t)
      | None => 47%N :: Re.sub_block_comments_from 0 (42%N :: t)
      end.
Proof. reflexivity. Qed.

(** A block comment goes, from its opening mark to the first closing mark
    after it. *)
Lemma block_comment_removed (pre body rest : str) :
  ~ In 47%N pre -> contains (lit "*/") body = false ->
  Re.sub_block_comments (pre ++ lit "/*" ++ body ++ lit "*/" ++ rest)
    = pre ++ Re.sub_block_comments rest.
Proof.
  intros Hpre Hbody. unfold Re.sub_block_comments.
  change (lit "*/") with [42%N; 47%N] in *.
  change (lit "/*") with [47%N; 42%N].
  change ([47%N; 42%N] ++ body ++ [42%N; 47%N] ++ rest)
    with (47%N :: 42%N :: body ++ 42%N :: 47%N :: rest).
  induction pre as [|c pre IH]; cbn [app].
  - rewrite block_comment_opens, (find_closing_mark body rest Hbody).
    replace (List.length body + 3)
      with (List.length (42%N :: body ++ [42%N; 47%N]) + 0)
      by (cbn [List.length]; rewrite length_app; cbn [List.length]; lia).
    replace (42%N :: body ++ 42%N :: 47%N :: rest)
      with ((42%N :: body ++ [42%N; 47%N]) ++ rest)
      by (cbn [app]; rewrite <- app_assoc; reflexivity).
    apply block_comment_skipped.
  - cbn [Re.sub_block_comments_from].
    match goal with
    | |- context [if startswith ?p ?t then _ else _] =>
        assert (Hc : startswith p t = false)
    end.
    { change (lit "/*") with [47%N; 42%N]. cbn [startswith].
      destruct (47 =? c)%N eqn:E; [|reflexivity].
      apply N.eqb_eq in E. exfalso. apply Hpre. now left. }
    rewrite Hc. f_equal. apply IH. intros Hin. apply Hpre. now right.
Qed.

Lemma printed_emit_print (st : state) (l : str) :
  printed (mkState (trace st ++ [Printed l]) (draws st)) = printed st ++ [l].
Proof.
  unfold printed; simpl. now rewrite flat_map_app.
Qed.

Lemma llm_calls_emit_print (st : state) (l : str) :
  llm_calls (mkState (trace st ++ [Printed l]) (draws st)) = llm_calls st.
Proof.
  unfold llm_calls; simpl. rewrite flat_map_app; simpl. apply app_nil_r.
Qed.

(** The decoder raises nothing but [JSONDecodeError]. *)
Lemma loads_raises_decode_error (s : str) (e : exn) :
  Json.loads s = Raise e -> exn_cls e = JSONDecodeError.
Proof.
  unfold Json.loads.
  destruct s as [|c t].
  - destruct (Json.skip_ws [] 0) as [r0 p0].
    destruct (Json.scan_once _ r0 p0) as [v r1 p1|m p|].
    + destruct (Json.skip_ws r1 p1) as [[|x r2] p2]; [discriminate|].
      intros H; inversion H; reflexivity.
    + intros H; inversion H; reflexivity.
    + intros H; inversion H; reflexivity.
  - assert (Hgen : forall body : result pyval,
               (body = Raise e -> exn_cls e = JSONDecodeError) ->
               match c with
               | 65279%N => Raise (Json.decode_error Json.msg_bom (c :: t) 0)
               | _ => body
               end = Raise e -> exn_cls e = JSONDecodeError).
    { intros body Hbody H.
      destruct (N.eq_dec c 65279) as [->|Hne].
      - inversion H; reflexivity.
      - apply Hbody. revert H.
        destruct c as [|q]; [auto|].
        repeat (destruct q as [q|q|]; try (intros H; exact H); try contradiction).
        all: try (exfalso; apply Hne; reflexivity). }
    apply Hgen. clear Hgen.
    destruct (Json.skip_ws (c :: t) 0) as [r0 p0].
    destruct (Json.scan_once _ r0 p0) as [v r1 p1|m p|].
    + destruct (Json.skip_ws r1 p1) as [[|x r2] p2]; [discriminate|].
      intros H; inversion H; reflexivity.
    + intros H; inversion H; reflexivity.
    + intros H; inversion H; reflexivity.
Qed.

(** The whole behaviour of the parser on a string, in terms of the two
    calls of the decoder. *)
Lemma scrub_on_str (raw : str) (st : state) :
  Utils.scrub_and_parse_json_string (VStr raw) st =
    match Json.loads (Utils.strip_fences raw) with
    | Ok v => (Ok v, st)
    | Raise e =>
        let st1 := mkState (trace st
                     ++ [Printed (Utils.initial_failure_line (Utils.strip_fences raw) e)])
                     (draws st) in
        match Json.loads (Utils.apply_fixes (Utils.strip_fences raw)) with
        | Ok v => (Ok v, st1)
        | Raise fe =>
            (Raise (Utils.invalid_json_error fe),
             mkState (trace st1
                ++ [Printed (Utils.final_failure_line
                               (Utils.apply_fixes (Utils.strip_fences raw)) fe)])
               (draws st1))
        end
    end.
Proof.
  unfold Utils.scrub_and_parse_json_string, bindM, ret, try_except, try_clauses, lift.
  cbn [fst snd].
  destruct (Json.loads (Utils.strip_fences raw)) as [v|e] eqn:E1; [reflexivity|].
  cbn [dispatch]. unfold instance_of.
  rewrite (loads_raises_decode_error _ _ E1). cbn [subclass].
  unfold bindM, print, emit. cbn [fst snd].
  destruct (Json.loads (Utils.apply_fixes (Utils.strip_fences raw))) as [v|fe] eqn:E2;
    [reflexivity|].
  cbn [dispatch]. rewrite (loads_raises_decode_error _ _ E2). cbn [subclass].
  reflexivity.
Qed.

End JsonRepair.

Section JsonRepairClaims.

(** C4: [scrub_and_parse_json_string] strips the fences and white space and
    parses; when that fails it removes line comments, block comments and
    trailing commas, replaces None, True, False and undefined by null, true,
    false and null (and the ellipsis by three dots), in this order, and
    parses again.  The removal of a line comment takes the text from two
    slashes to the end of the line and keeps the newline; the removal of a
    block comment takes the text from an opening mark to the first closing
    mark after it.  A fenced block with the object a:1, the object with a
    trailing comma, an object with None, True and False, and the object
    with a line comment or a block comment parse to the expected values.
    The order shows in two texts: a comma followed by a line comment is
    removed as a trailing comma, because the comment goes first; and two
    slashes inside a block comment cut the line there, because line
    comments go before block comments. *)
Theorem scrub_and_parse_json_string_spec :
  (forall raw st v,
      Json.loads (Utils.strip_fences raw) = Ok v ->
      Utils.scrub_and_parse_json_string (VStr raw) st = (Ok v, st))
  /\ (forall raw st e,
        Json.loads (Utils.strip_fences raw) = Raise e ->
        fst (Utils.scrub_and_parse_json_string (VStr raw) st) =
          match Json.loads (Utils.apply_fixes (Utils.strip_fences raw)) with
          | Ok v => Ok v
          | Raise final_e => Raise (Utils.invalid_json_error final_e)
          end)
  /\ (forall p,
        Utils.apply_fixes p =
          replace Utils.ellipsis (lit "...")
            (replace (lit "undefined") (lit "null")
               (replace (lit "False") (lit "false")
                  (replace (lit "True") (lit "true")
                     (replace (lit "None") (lit "null")
                        (Re.sub_trailing_commas
                           (Re.sub_block_comments (Re.sub_line_comments p))))))))
  /\ Utils.strip_fences fenced_object = object_a1
  /\ result_of (Utils.scrub_and_parse_json_string (VStr fenced_object))
     = Ok (VDict [(lit "a", VInt 1)])
  /\ result_of (Utils.scrub_and_parse_json_string (VStr trailing_comma_object))
     = Ok (VDict [(lit "a", VInt 1)])
  /\ result_of (Utils.scrub_and_parse_json_string (VStr python_literals_object))
     = Ok (VDict [(lit "a", VNone); (lit "b", VBool true); (lit "c", VBool false)])
  /\ (forall pre body rest,
        ~ In 47%N pre -> ~ In 10%N body ->
        (rest = [] \/ exists r, rest = 10%N :: r) ->
        Re.sub_line_comments (pre ++ lit "//" ++ body ++ rest)
          = pre ++ Re.sub_line_comments rest)
  /\ (forall pre body rest,
        ~ In 47%N pre -> contains (lit "*/") body = false ->
        Re.sub_block_comments (pre ++ lit "/*" ++ body ++ lit "*/" ++ rest)
          = pre ++ Re.sub_block_comments rest)
  /\ result_of (Utils.scrub_and_parse_json_string (VStr line_comment_object))
     = Ok (VDict [(lit "a", VInt 1)])
  /\ result_of (Utils.scrub_and_parse_json_string (VStr block_comment_object))
     = Ok (VDict [(lit "a", VInt 1)])
  /\ result_of (Utils.scrub_and_parse_json_string (VStr comma_before_comment_object))
     = Ok (VDict [(lit "a", VInt 1)])
  /\ Utils.apply_fixes slashes_in_block_comment = lit "[1 /* see ".
Proof.
  split; [|split; [|split; [|split; [|split; [|split; [|split; [|split;
    [|split; [|split; [|split; [|split]]]]]]]]]]].
  - intros raw st v H. rewrite scrub_on_str, H. reflexivity.
  - intros raw st e H. rewrite scrub_on_str, H. cbv zeta.
    destruct (Json.loads (Utils.apply_fixes (Utils.strip_fences raw))); reflexivity.
  - reflexivity.
  - vm_compute. reflexivity.
  - vm_compute. reflexivity.
  - vm_compute. reflexivity.
  - vm_compute. reflexivity.
  - exact line_comment_removed.
  - exact block_comment_removed.
  - vm_compute. reflexivity.
  - vm_compute. reflexivity.
  - vm_compute. reflexivity.
  - vm_compute. reflexivity.
Qed.

Lemma scrub_and_parse_json_string_spec_witness :
  Json.loads (Utils.strip_fences fenced_object) = Ok (VDict [(lit "a", VInt 1)])
  /\ Utils.scrub_and_parse_json_string (VStr fenced_object) initial
     = (Ok (VDict [(lit "a", VInt 1)]), initial).
Proof.
  assert (H : Json.loads (Utils.strip_fences fenced_object)
              = Ok (VDict [(lit "a", VInt 1)])) by (vm_compute; reflexivity).
  split; [exact H|].
  exact (proj1 scrub_and_parse_json_string_spec fenced_object initial _ H).
Defined.

(** C5, as stated, fails: for the text "garbage" both parses fail and the
    error raised does not hold the excerpt of the text. *)
Lemma scrub_error_carries_no_excerpt :
  (exists e, Json.loads (Utils.strip_fences (lit "garbage")) = Raise e)
  /\ (exists e, Json.loads (Utils.apply_fixes (Utils.strip_fences (lit "garbage")))
                = Raise e)
  /\ firstn 500 (Utils.apply_fixes (Utils.strip_fences (lit "garbage"))) = lit "garbage"
  /\ result_of (Utils.scrub_and_parse_json_string (VStr (lit "garbage")))
     = Raise (mkExn ValueError
                (lit "Invalid JSON format after cleaning: Expecting value: line 1 column 1 (char 0)"))
  /\ contains (lit "garbage")
       (lit "Invalid JSON format after cleaning: Expecting value: line 1 column 1 (char 0)")
     = false.
Proof.
  repeat split; try (vm_compute; reflexivity);
    eexists; vm_compute; reflexivity.
Qed.

(** C5, amended: when both parses fail the function raises a [ValueError]
    whose message is "Invalid JSON format after cleaning: " followed by the
    message of the final parser error, and nothing else; the excerpt, the
    first 500 characters at most of the repaired text, goes to the line
    printed just before, after the line printed for the first failure. *)
Theorem scrub_failure_reports (raw : str) (st : state) (e final_e : exn) :
  Json.loads (Utils.strip_fences raw) = Raise e ->
  Json.loads (Utils.apply_fixes (Utils.strip_fences raw)) = Raise final_e ->
  fst (Utils.scrub_and_parse_json_string (VStr raw) st)
    = Raise (mkExn ValueError
               (lit "Invalid JSON format after cleaning: " ++ exn_msg final_e))
  /\ printed (snd (Utils.scrub_and_parse_json_string (VStr raw) st))
     = printed st
         ++ [lit "Initial JSON parse failed (first 500 chars): "
               ++ firstn 500 (Utils.strip_fences raw)
               ++ lit "... Error: " ++ exn_msg e;
             lit "JSON parsing still failed after fixes (first 500 chars): "
               ++ firstn 500 (Utils.apply_fixes (Utils.strip_fences raw))
               ++ lit "... Error: " ++ exn_msg final_e]
  /\ List.length (firstn 500 (Utils.apply_fixes (Utils.strip_fences raw))) <= 500
  /\ List.length (firstn 500 (Utils.strip_fences raw)) <= 500.
Proof.
  intros H1 H2. rewrite scrub_on_str, H1. cbv zeta. rewrite H2.
  cbn [fst snd]. repeat split.
  - rewrite !printed_emit_print. rewrite <- app_assoc. reflexivity.
  - apply firstn_le_length.
  - apply firstn_le_length.
Qed.

Lemma scrub_failure_reports_witness :
  fst (Utils.scrub_and_parse_json_string (VStr (lit "garbage")) initial)
    = Raise (mkExn ValueError
               (lit "Invalid JSON format after cleaning: "
                  ++ lit "Expecting value: line 1 column 1 (char 0)")).
Proof.
  refine (proj1 (scrub_failure_reports (lit "garbage") initial
                   (Json.decode_error Json.msg_value (lit "garbage") 0)
                   (Json.decode_error Json.msg_value (lit "garbage") 0) _ _));
    vm_compute; reflexivity.
Defined.

End JsonRepairClaims.

(* ===================================================================== *)
(** ** Extraction of a JSON span (utils.py) *)
(* ===================================================================== *)

Section JsonSpan.

Lemma last_index_none (c : N) (s : str) :
  Re.last_index c s = None <-> ~ In c s.
Proof.
  induction s as [|x t IH]; simpl.
  - split; auto.
  - destruct (Re.last_index c t) as [j|] eqn:E.
    + split; [discriminate|].
      intros H. exfalso.
      assert (Hin : In c t).
      { destruct (in_dec N.eq_dec c t) as [Hi|Hn]; [assumption|].
        apply IH in Hn. discriminate. }
      apply H; now right.
    + destruct (x =? c)%N eqn:Ex.
      * split; [discriminate|].
        intros H. exfalso. apply H. left. now apply N.eqb_eq.
      * split; [|reflexivity].
        intros _ [Hx|Hin].
        -- apply N.eqb_neq in Ex. contradiction.
        -- now apply (proj1 IH eq_refl).
Qed.

Lemma last_index_some (c : N) (s : str) (j : nat) :
  Re.last_index c s = Some j ->
  exists mid post, s = mid ++ c :: post /\ List.length mid = j /\ ~ In c post.
Proof.
  revert j; induction s as [|x t IH]; simpl; intros j; [discriminate|].
  destruct (Re.last_index c t) as [k|] eqn:E.
  - intros H; inversion H; subst j; clear H.
    destruct (IH k eq_refl) as (mid & post & -> & Hlen & Hno).
    exists (x :: mid), post. simpl. auto.
  - destruct (x =? c)%N eqn:Ex; [|discriminate].
    intros H; inversion H; subst j; clear H.
    apply N.eqb_eq in Ex; subst x.
    exists [], t. simpl. repeat split; auto. now apply last_index_none.
Qed.

Lemma firstn_through (mid post : str) (c : N) :
  firstn (S (List.length mid)) (mid ++ c :: post) = mid ++ [c].
Proof.
  induction mid as [|x mid IH]; [reflexivity|].
  simpl in *. now rewrite IH.
Qed.

Lemma has_span_cons (x : N) (s : str) : has_span s -> has_span (x :: s).
Proof.
  intros (pre & o & mid & c & post & -> & Hc).
  now exists (x :: pre), o, mid, c, post.
Qed.

Lemma unopened_nil (rest : str) : unopened [] rest.
Proof. intros [|? ?] o r1 c H; discriminate. Qed.

Lemma unopened_cons (x : N) (pre rest : str) :
  (forall c, Re.closer_of x = Some c -> ~ In c (pre ++ rest)) ->
  unopened pre rest -> unopened (x :: pre) rest.
Proof.
  intros Hx Hpre [|y p1] o r1 c Heq Hc.
  - simpl in Heq. inversion Heq; subst. now apply Hx.
  - simpl in Heq. inversion Heq; subst. now apply (Hpre p1 o r1 c).
Qed.

(** The span the search finds: it starts at the first opening character
    that has its closing character after it and ends at the last such
    closing character. *)
Lemma search_json_span_sound (s span : str) :
  Re.search_json_span s = Some span ->
  exists pre o mid c post,
    s = pre ++ o :: mid ++ c :: post
    /\ span = o :: mid ++ [c]
    /\ Re.closer_of o = Some c
    /\ ~ In c post
    /\ unopened pre (o :: mid ++ c :: post).
Proof.
  induction s as [|x t IH]; [discriminate|]; cbn [Re.search_json_span].
  destruct (Re.closer_of x) as [k|] eqn:Ek.
  - destruct (Re.last_index k t) as [j|] eqn:Ej.
    + intros H; inversion H; subst span; clear H.
      destruct (last_index_some k t j Ej) as (mid & post & -> & Hlen & Hno).
      exists [], x, mid, k, post.
      change (match mid ++ k :: post with
              | [] => []
              | a :: l => a :: firstn j l
              end) with (firstn (S j) (mid ++ k :: post)).
      rewrite <- Hlen, firstn_through. repeat split; auto. apply unopened_nil.
    + intros H. destruct (IH H) as (pre & o & mid & c & post & -> & Hs & Hc & Hno & Hun).
      exists (x :: pre), o, mid, c, post. repeat split; auto.
      apply unopened_cons; [|assumption].
      intros c' Hc'. rewrite Ek in Hc'. inversion Hc'; subst c'.
      now apply last_index_none.
  - intros H. destruct (IH H) as (pre & o & mid & c & post & -> & Hs & Hc & Hno & Hun).
    exists (x :: pre), o, mid, c, post. repeat split; auto.
    apply unopened_cons; [|assumption].
    intros c' Hc'. congruence.
Qed.

Lemma search_json_span_complete (s : str) :
  has_span s -> Re.search_json_span s <> None.
Proof.
  intros (pre & o & mid & c & post & -> & Hc).
  induction pre as [|x pre IH]; simpl.
  - rewrite Hc.
    destruct (Re.last_index c (mid ++ c :: post)) as [j|] eqn:E; [discriminate|].
    apply last_index_none in E. exfalso; apply E.
    apply in_or_app; right; now left.
  - destruct (Re.closer_of x) as [k|].
    + destruct (Re.last_index k _); [discriminate | assumption].
    + assumption.
Qed.

Lemma search_json_span_none_iff (s : str) :
  Re.search_json_span s = None <-> ~ has_span s.
Proof.
  split.
  - intros H Hs. now apply (search_json_span_complete s Hs).
  - intros H. destruct (Re.search_json_span s) as [span|] eqn:E; [|reflexivity].
    exfalso; apply H.
    destruct (search_json_span_sound s span E) as (pre & o & mid & c & post & -> & _ & Hc & _).
    now exists pre, o, mid, c, post.
Qed.

Lemma extract_on_span (text span : str) (st : state) :
  Re.search_json_span text = Some span ->
  Utils.extract_json_from_text text st =
    match Json.loads span with
    | Ok v => (Ok v, st)
    | Raise _ => Utils.scrub_and_parse_json_string (VStr span) st
    end.
Proof.
  intros H. unfold Utils.extract_json_from_text. rewrite H.
  unfold try_except, try_clauses, lift. cbn [fst snd].
  destruct (Json.loads span) as [v|e] eqn:E; [reflexivity|].
  cbn [dispatch]. unfold instance_of.
  rewrite (loads_raises_decode_error _ _ E). reflexivity.
Qed.

(** The parser never raises the error of the extraction. *)
Lemma scrub_never_no_json (raw : str) (st : state) :
  fst (Utils.scrub_and_parse_json_string (VStr raw) st) <> Raise Utils.no_json_found.
Proof.
  rewrite scrub_on_str.
  destruct (Json.loads (Utils.strip_fences raw)); [discriminate|].
  cbv zeta.
  destruct (Json.loads (Utils.apply_fixes (Utils.strip_fences raw))); [discriminate|].
  cbn [fst]. unfold Utils.invalid_json_error, Utils.no_json_found.
  intros H. inversion H.
Qed.

(** C6: [extract_json_from_text] takes the span from the first opening
    brace or bracket that has its closing character after it to the last
    such closing character, parses it and, failing that, hands it to the
    repairing parser; it fails with "No JSON object or array found in text."
    exactly when the text has no such span. *)
Theorem extract_json_from_text_spec (text : str) (st : state) :
  (forall span,
      Re.search_json_span text = Some span ->
      (exists pre o mid c post,
          text = pre ++ o :: mid ++ c :: post
          /\ span = o :: mid ++ [c]
          /\ Re.closer_of o = Some c
          /\ ~ In c post
          /\ unopened pre (o :: mid ++ c :: post))
      /\ Utils.extract_json_from_text text st =
           match Json.loads span with
           | Ok v => (Ok v, st)
           | Raise _ => Utils.scrub_and_parse_json_string (VStr span) st
           end)
  /\ (has_span text -> exists span, Re.search_json_span text = Some span)
  /\ (fst (Utils.extract_json_from_text text st) = Raise Utils.no_json_found
      <-> ~ has_span text).
Proof.
  split; [|split].
  - intros span H. split.
    + now apply search_json_span_sound.
    + now apply extract_on_span.
  - intros H. destruct (Re.search_json_span text) as [span|] eqn:E.
    + now exists span.
    + exfalso. now apply (search_json_span_complete text H).
  - split.
    + intros H Hs.
      destruct (Re.search_json_span text) as [span|] eqn:E.
      * rewrite (extract_on_span text span st E) in H.
        destruct (Json.loads span); [discriminate|].
        now apply (scrub_never_no_json span st).
      * now apply (search_json_span_complete text Hs).
    + intros H. apply search_json_span_none_iff in H.
      unfold Utils.extract_json_from_text. now rewrite H.
Qed.

Lemma extract_json_from_text_spec_witness :
  Re.search_json_span (lit "Here: " ++ object_a1 ++ lit " ok}") =
    Some (object_a1 ++ lit " ok}")
  /\ Utils.extract_json_from_text (lit "Here: " ++ object_a1 ++ lit " ok}") initial =
       match Json.loads (object_a1 ++ lit " ok}") with
       | Ok v => (Ok v, initial)
       | Raise _ =>
           Utils.scrub_and_parse_json_string (VStr (object_a1 ++ lit " ok}")) initial
       end.
Proof.
  assert (H : Re.search_json_span (lit "Here: " ++ object_a1 ++ lit " ok}") =
              Some (object_a1 ++ lit " ok}")) by (vm_compute; reflexivity).
  split; [exact H|].
  exact (proj2 (proj1 (extract_json_from_text_spec
                         (lit "Here: " ++ object_a1 ++ lit " ok}") initial) _ H)).
Defined.

End JsonSpan.

(* ===================================================================== *)
(** ** Ingredient coercion (utils.py) *)
(* ===================================================================== *)

Section Ingredients.

Lemma coerce_quantity_in_range (v : pyval) :
  quantity_in_range v = true ->
  exists q, Utils.coerce_quantity v = Ok q /\ (q = VNone \/ exists f, q = VFloat f).
Proof.
  intros H. destruct v as [|b|z|f|s|l|d]; simpl in *.
  - exists VNone; auto.
  - eexists; split; [reflexivity|]. right; eauto.
  - rewrite H. eexists; split; [reflexivity|]. right; eauto.
  - eexists; split; [reflexivity|]. right; eauto.
  - destruct (Float.of_str s); simpl.
    + eexists; split; [reflexivity|]. right; eauto.
    + exists VNone; auto.
  - exists VNone; auto.
  - exists VNone; auto.
Qed.

Lemma coerce_quantity_out_of_range (v : pyval) :
  quantity_in_range v = false ->
  Utils.coerce_quantity v
    = Raise (mkExn OverflowError (lit "int too large to convert to float")).
Proof.
  destruct v as [|b|z|f|s|l|d]; simpl; try discriminate.
  intros ->. reflexivity.
Qed.

Lemma truthy_str (s : str) : truthy (VStr s) = true <-> s <> [].
Proof. destruct s; simpl; split; congruence. Qed.

(** [s.strip() or default] is never empty when the default is not. *)
Lemma stripped_or_default (s default : str) :
  default <> [] ->
  exists n, py_or (VStr (strip s)) (VStr default) = VStr n /\ n <> []
            /\ n = match strip s with [] => default | t => t end.
Proof.
  intros Hd. unfold py_or.
  destruct (strip s) as [|c t] eqn:E; simpl.
  - exists default; auto.
  - exists (c :: t); repeat split; congruence.
Qed.

(** C10, as stated, fails: a mapping whose name is the number 5 makes
    [coerce_to_ingredient] raise. *)
Lemma coerce_to_ingredient_raises :
  Utils.coerce_to_ingredient (VDict [(lit "item_name", VInt 5)])
    = Raise (mkExn AttributeError (lit "'int' object has no attribute 'strip'")).
Proof. vm_compute. reflexivity. Qed.

(** C10, amended: [coerce_to_ingredient] returns a mapping for every input
    but two kinds of mappings, on which it raises: those whose quantity is
    an int beyond the range of a float, and those whose offered name
    ([item_name], else [name]) is truthy and not a string.  In the mapping
    returned the quantity is a float or None, the unit is None or a trimmed
    non-empty string, and the name is a non-empty string: the trimmed name,
    or 'Unnamed ingredient' for a blank one in a mapping or a string, and
    'Unknown Ingredient' for an input of another type. *)
Theorem coerce_to_ingredient_spec (item : pyval) :
  (coercible item = true ->
   exists q u n,
     Utils.coerce_to_ingredient item = Ok (Utils.ingredient q u (VStr n))
     /\ (q = VNone \/ exists f, q = VFloat f)
     /\ (u = VNone \/ exists s, u = VStr s /\ s <> [] /\ strip s = s)
     /\ n <> []
     /\ (forall d, item = VDict d ->
           n = match offered_name d with
               | VStr s => match strip s with
                           | [] => Config.DEFAULT_INGREDIENT_NAME
                           | t => t
                           end
               | _ => Config.DEFAULT_INGREDIENT_NAME
               end)
     /\ (forall s, item = VStr s ->
           q = VNone /\ u = VNone
           /\ n = match strip s with
                  | [] => Config.DEFAULT_INGREDIENT_NAME
                  | t => t
                  end)
     /\ (is_entity item = false -> is_str item = false ->
           q = VNone /\ u = VNone /\ n = Config.DEFAULT_UNKNOWN_INGREDIENT))
  /\ (coercible item = false ->
      exists e, Utils.coerce_to_ingredient item = Raise e
                /\ (exn_cls e = OverflowError \/ exn_cls e = AttributeError)).
Proof.
  assert (Hdef : Config.DEFAULT_INGREDIENT_NAME <> []) by discriminate.
  split.
  - intros Hc. destruct item as [|b|z|f|s|l|d].
    1-4, 6: exists VNone, VNone, Config.DEFAULT_UNKNOWN_INGREDIENT;
      (split; [reflexivity|]); (split; [left; reflexivity|]);
      (split; [left; reflexivity|]); (split; [discriminate|]);
      (split; [intros d E; discriminate|]);
      (split; [intros s E; discriminate | intros _ _; auto]).
    + destruct (stripped_or_default s _ Hdef) as (n & Hn & Hne & Heq).
      exists VNone, VNone, n.
      split; [unfold Utils.coerce_to_ingredient; rewrite Hn; reflexivity|].
      split; [left; reflexivity|]. split; [left; reflexivity|].
      split; [assumption|]. split; [intros d E; discriminate|].
      split; [intros s' E; inversion E; subst; auto | intros _ E; discriminate].
    + simpl in Hc. apply andb_true_iff in Hc as [Hq Hname].
      destruct (coerce_quantity_in_range _ Hq) as (q & Eq & Hqs).
      unfold Utils.coerce_to_ingredient. rewrite Eq. cbn [bind].
      fold (offered_name d).
      destruct (offered_name d) as [| | | |nm| |] eqn:En; try discriminate.
      cbn [Utils.py_strip bind].
      destruct (stripped_or_default nm _ Hdef) as (n & Hn & Hne & Heq).
      rewrite Hn.
      exists q,
        (match dict_get (lit "unit") VNone d with
         | VStr u => py_or (VStr (strip u)) VNone
         | _ => VNone
         end), n.
      split; [reflexivity|]. split; [assumption|]. split.
      * destruct (dict_get (lit "unit") VNone d) as [| | | |u| |]; auto.
        unfold py_or. destruct (truthy (VStr (strip u))) eqn:Et; auto.
        right. exists (strip u). split; [reflexivity|]. split.
        -- now apply truthy_str.
        -- apply strip_idem.
      * split; [assumption|]. split; [|split].
        -- intros d' E; inversion E; subst d'. rewrite En. assumption.
        -- intros s' E; discriminate.
        -- intros E; discriminate.
  - intros Hc. destruct item as [|b|z|f|s|l|d]; try discriminate.
    simpl in Hc. unfold Utils.coerce_to_ingredient.
    destruct (quantity_in_range (dict_get (lit "quantity") VNone d)) eqn:Hq.
    + destruct (coerce_quantity_in_range _ Hq) as (q & Eq & _).
      rewrite Eq. cbn [bind]. fold (offered_name d).
      simpl in Hc.
      destruct (offered_name d) as [| | | |nm| |] eqn:En; try discriminate;
        eexists; (split; [reflexivity|]); right; reflexivity.
    + rewrite (coerce_quantity_out_of_range _ Hq). cbn [bind].
      eexists; split; [reflexivity|]. left; reflexivity.
Qed.

Lemma coerce_to_ingredient_spec_witness :
  exists q u n,
    Utils.coerce_to_ingredient
      (VDict [(lit "name", VStr (lit " salt ")); (lit "quantity", VStr (lit "1.5"));
              (lit "unit", VStr (lit " "))])
    = Ok (Utils.ingredient q u (VStr n)) /\ n <> [].
Proof.
  destruct (proj1 (coerce_to_ingredient_spec
                     (VDict [(lit "name", VStr (lit " salt "));
                             (lit "quantity", VStr (lit "1.5"));
                             (lit "unit", VStr (lit " "))])) eq_refl)
    as (q & u & n & H & _ & _ & Hn & _).
  exists q, u, n. split; assumption.
Defined.

End Ingredients.

(* ===================================================================== *)
(** ** The schema converter (schema_converter.py) *)
(* ===================================================================== *)

Section Conversion.

Lemma join_nonempty (sep p : str) (rest : list str) :
  p <> [] -> join sep (p :: rest) <> [].
Proof.
  intros Hp. destruct rest as [|q rest]; cbn [join]; [assumption|].
  destruct p; [contradiction | discriminate].
Qed.

(** A token within the bound gives one part, which is not empty. *)
Lemma part_within (m : option str) (unit_name : str) :
  match m with
  | Some g => (N.of_nat (List.length g) <=? int_max_str_digits)%N
  | None => true
  end = true ->
  exists l, SchemaConverter.part m unit_name = Ok l /\ Forall (fun p => p <> []) l.
Proof.
  destruct m as [g|]; intros H; [|exists []; split; [reflexivity | constructor]].
  unfold SchemaConverter.part, SchemaConverter.amount, int_of_digits.
  rewrite H. cbn [bind]. eexists. split; [reflexivity|].
  constructor; [|constructor].
  destruct (digits_of_N (nat_of_digits g)); discriminate.
Qed.

(** A token beyond the bound makes [int] raise. *)
Lemma part_beyond (m : option str) (unit_name : str) :
  match m with
  | Some g => (N.of_nat (List.length g) <=? int_max_str_digits)%N
  | None => true
  end = false ->
  exists e, SchemaConverter.part m unit_name = Raise e /\ exn_cls e = ValueError.
Proof.
  destruct m as [g|]; intros H; [|discriminate].
  unfold SchemaConverter.part, SchemaConverter.amount, int_of_digits.
  rewrite H. eexists. split; reflexivity.
Qed.

Lemma duration_ok_returns (v : pyval) :
  duration_ok v = true ->
  exists r, SchemaConverter.parse_schema_duration v = Ok r
            /\ (r = VNone \/ exists t, r = VStr t /\ t <> []).
Proof.
  unfold duration_ok, duration_shaped, duration_within_limit,
    SchemaConverter.parse_schema_duration.
  destruct (negb (truthy v)) eqn:Ht;
    [intros _; eexists; split; [reflexivity | now left]|].
  destruct v as [| | | |s| |]; try discriminate. cbn [orb is_str andb].
  destruct (negb (startswith (lit "PT") s));
    [intros _; eexists; split; [reflexivity | now left]|].
  cbn [orb]. unfold token_within_limit. intros H.
  apply andb_true_iff in H as [Hh Hm].
  destruct (part_within _ (lit "hr") Hh) as (hours & -> & Hhours).
  destruct (part_within _ (lit "min") Hm) as (mins & -> & Hmins).
  cbn [bind]. eexists. split; [reflexivity|].
  destruct (hours ++ mins) as [|p rest] eqn:E; [now left|].
  right. eexists. split; [reflexivity|]. apply join_nonempty.
  assert (Hall : Forall (fun p => p <> []) (hours ++ mins))
    by (apply Forall_app; split; assumption).
  rewrite E in Hall. now inversion Hall.
Qed.

Lemma duration_misshaped (v : pyval) :
  duration_shaped v = false ->
  SchemaConverter.parse_schema_duration v = no_attribute v (lit "startswith").
Proof.
  unfold duration_shaped, SchemaConverter.parse_schema_duration.
  destruct (negb (truthy v)) eqn:Ht; [discriminate|].
  destruct v; try discriminate; reflexivity.
Qed.

Lemma duration_beyond_limit (v : pyval) :
  duration_shaped v = true -> duration_within_limit v = false ->
  exists e, SchemaConverter.parse_schema_duration v = Raise e
            /\ exn_cls e = ValueError.
Proof.
  unfold duration_shaped, duration_within_limit,
    SchemaConverter.parse_schema_duration.
  destruct v as [| | | |s| |]; try discriminate. intros _.
  destruct s as [|c s]; [discriminate|]. cbn [truthy negb].
  destruct (negb (startswith (lit "PT") (c :: s))); [discriminate|].
  cbn [orb]. unfold token_within_limit. intros H.
  apply andb_false_iff in H.
  destruct (match Re.search_digits_before 72 (c :: s) with
            | Some g => (N.of_nat (List.length g) <=? int_max_str_digits)%N
            | None => true
            end) eqn:Hh.
  - destruct H as [H|H]; [discriminate|].
    destruct (part_within _ (lit "hr") Hh) as (hours & -> & _).
    destruct (part_beyond _ (lit "min") H) as (e & -> & He).
    cbn [bind]. now exists e.
  - destruct (part_beyond _ (lit "hr") Hh) as (e & -> & He).
    cbn [bind]. now exists e.
Qed.

(** A duration the parser does not handle makes it raise. *)
Lemma duration_not_ok (v : pyval) :
  duration_ok v = false ->
  exists e, SchemaConverter.parse_schema_duration v = Raise e
            /\ (exn_cls e = AttributeError \/ exn_cls e = ValueError).
Proof.
  unfold duration_ok. intros H.
  destruct (duration_shaped v) eqn:Hs.
  - destruct (duration_beyond_limit v Hs H) as (e & E & He). exists e. auto.
  - rewrite (duration_misshaped v Hs). eexists. split; [reflexivity | now left].
Qed.

Lemma iterable_ok (v : pyval) :
  iterable v = true -> exists l, py_iter v = Ok l.
Proof. destruct v; try discriminate; intros _; eexists; reflexivity. Qed.

Lemma not_iterable (v : pyval) :
  iterable v = false ->
  py_iter v = Raise (mkExn TypeError
                       (lit "'" ++ type_name v ++ lit "' object is not iterable")).
Proof. destruct v; try discriminate; reflexivity. Qed.

Lemma stripped_image (u : pyval) (st : state) :
  duration_shaped u = true ->
  exists f,
    (if truthy u
     then s <-- lift (Utils.py_strip u) ;; ret (VStr s)
     else ret VNone) st = (Ok f, st).
Proof.
  unfold duration_shaped. destruct (truthy u) eqn:Ht.
  - destruct u; try discriminate. intros _. eexists; reflexivity.
  - intros _. eexists; reflexivity.
Qed.

(** The loop over ingredients that [str] accepts. *)
Lemma ingredients_within (l : list pyval) :
  forallb within_digit_limit l = true ->
  map_result SchemaConverter.raw_ingredient l
    = Ok (map (fun ing =>
                 VDict [(lit "quantity", VNone); (lit "unit", VNone);
                        (lit "item_name", VStr (py_str ing))]) l).
Proof.
  induction l as [|ing l IH]; [reflexivity|].
  cbn [forallb map_result map]. intros H. apply andb_true_iff in H as [H1 H2].
  unfold SchemaConverter.raw_ingredient at 1. unfold str_of. rewrite H1.
  cbn [bind]. now rewrite (IH H2).
Qed.

Lemma ingredients_beyond (l : list pyval) :
  forallb within_digit_limit l = false ->
  exists e, map_result SchemaConverter.raw_ingredient l = Raise e
            /\ exn_cls e = ValueError.
Proof.
  induction l as [|ing l IH]; [discriminate|].
  cbn [forallb map_result]. intros H.
  unfold SchemaConverter.raw_ingredient at 1. unfold str_of.
  destruct (within_digit_limit ing); cbn [andb bind] in *.
  - destruct (IH H) as (e & -> & He). now exists e.
  - eexists. split; reflexivity.
Qed.

(** The items a loop over the ingredients visits are within the bound
    when the value is. *)
Lemma iterated_items_within (v : pyval) (ings : list pyval) :
  py_iter v = Ok ings ->
  forallb within_digit_limit ings = items_within_limit v.
Proof.
  destruct v as [| | | |s|l|d]; try discriminate; cbn [py_iter items_within_limit];
    intros H; inversion H; subst; clear H.
  - induction s as [|c s IH]; [reflexivity | exact IH].
  - reflexivity.
  - induction d as [|kv d IH]; [reflexivity | exact IH].
Qed.

Lemma steps_within (v : pyval) :
  steps_within_limit v = true ->
  exists l, SchemaConverter.instructions_of v = Ok l.
Proof.
  destruct v as [| | | |s|steps|d]; try (intros _; eexists; reflexivity).
  cbn [steps_within_limit SchemaConverter.instructions_of].
  induction steps as [|step steps IH]; intros H; [eexists; reflexivity|].
  cbn [forallb] in H. apply andb_true_iff in H as [H1 H2].
  destruct (IH H2) as (l & El).
  cbn [map_result]. rewrite El.
  destruct step; cbn [SchemaConverter.step_text is_entity orb] in *;
    unfold str_of; try rewrite H1; eexists; reflexivity.
Qed.

Lemma steps_beyond (v : pyval) :
  steps_within_limit v = false ->
  exists e, SchemaConverter.instructions_of v = Raise e /\ exn_cls e = ValueError.
Proof.
  destruct v as [| | | |s|steps|d]; try discriminate.
  cbn [steps_within_limit SchemaConverter.instructions_of].
  induction steps as [|step steps IH]; intros H; [discriminate|].
  cbn [forallb] in H. cbn [map_result].
  destruct (is_entity step || within_digit_limit step) eqn:Hs; cbn [andb] in H.
  - destruct (IH H) as (e & -> & He).
    destruct step; cbn [SchemaConverter.step_text is_entity orb] in *;
      unfold str_of; try rewrite Hs; cbn [bind]; now exists e.
  - destruct step; cbn [is_entity orb] in Hs; try discriminate;
      cbn [SchemaConverter.step_text]; unfold str_of; rewrite Hs;
      eexists; split; reflexivity.
Qed.

(** The record the converter builds for a candidate it handles. *)
Lemma convert_convertible (w : world) (d : dict) (url : str) (st : state) :
  convertible d = true ->
  exists prep_time cook_time total_time ings instructions image_field,
    SchemaConverter.parse_schema_duration (dict_get (lit "prepTime") VNone d) = Ok prep_time
    /\ SchemaConverter.parse_schema_duration (dict_get (lit "cookTime") VNone d) = Ok cook_time
    /\ SchemaConverter.parse_schema_duration (dict_get (lit "totalTime") VNone d) = Ok total_time
    /\ py_iter (dict_get (lit "recipeIngredient") (VList []) d) = Ok ings
    /\ SchemaConverter.instructions_of (dict_get (lit "recipeInstructions") VNone d)
       = Ok instructions
    /\ SchemaConverter.convert_schema_org_to_internal_recipe w (VDict d) url st
       = (Ok (VDict
            [(lit "recipeId", VStr (uuid4_hex (urandom w (draws st))));
             (lit "title", py_or (dict_get (lit "name") VNone d)
                                 (VStr Config.DEFAULT_RECIPE_TITLE));
             (lit "servings", py_or (dict_get (lit "recipeYield") VNone d)
                                    Config.DEFAULT_SERVINGS);
             (lit "category", py_or (dict_get (lit "recipeCategory") VNone d)
                                    (VStr Config.DEFAULT_CATEGORY));
             (lit "difficulty", py_or (dict_get (lit "difficulty") VNone d)
                                      (VStr Config.DEFAULT_DIFFICULTY));
             (lit "ingredients",
              VList (map (fun ing =>
                            VDict [(lit "quantity", VNone); (lit "unit", VNone);
                                   (lit "item_name", VStr (py_str ing))]) ings));
             (lit "instructions", VList instructions);
             (lit "prepTime", prep_time);
             (lit "cookTime", cook_time);
             (lit "totalTime", total_time);
             (lit "imageURL", image_field);
             (lit "calories",
              match match py_or (dict_get (lit "nutrition") VNone d) (VDict []) with
                    | VDict n => dict_get (lit "calories") VNone n
                    | _ => VNone
                    end with
              | VStr c => VStr (strip c)
              | _ => VNone
              end);
             (lit "source", VStr SchemaConverter.source_tag);
             (lit "originalImportUrl", VStr url);
             (lit "isPublic", VBool false);
             (lit "isSecretRecipe", VBool false);
             (lit "tipsAndVariations", VNone)]),
          mkState (trace st) (S (draws st))).
Proof.
  unfold convertible. rewrite !andb_true_iff.
  intros ((((((Hp & Hc) & Ht) & Hi) & Hw) & Hs) & Him).
  destruct (duration_ok_returns _ Hp) as (pt & Ep & _).
  destruct (duration_ok_returns _ Hc) as (ct & Ec & _).
  destruct (duration_ok_returns _ Ht) as (tt' & Et & _).
  destruct (iterable_ok _ Hi) as [ings Ei].
  rewrite <- (iterated_items_within _ _ Ei) in Hw.
  destruct (steps_within _ Hs) as (instrs & Es).
  destruct (stripped_image _ (mkState (trace st) (S (draws st))) Him) as [img Eimg].
  exists pt, ct, tt', ings, instrs, img.
  repeat (split; [assumption|]).
  unfold SchemaConverter.convert_schema_org_to_internal_recipe.
  unfold bindM, lift, ret, draw. cbn [py_get].
  rewrite Ep, Ec, Et, Ei, (ingredients_within _ Hw), Es.
  unfold bindM, lift, ret in Eimg. rewrite Eimg.
  reflexivity.
Qed.

(** On the other candidates the converter raises. *)
Lemma convert_not_convertible (w : world) (d : dict) (url : str) (st : state) :
  convertible d = false ->
  exists e,
    fst (SchemaConverter.convert_schema_org_to_internal_recipe w (VDict d) url st)
      = Raise e
    /\ (exn_cls e = AttributeError \/ exn_cls e = TypeError \/ exn_cls e = ValueError).
Proof.
  unfold convertible. intros Hc.
  unfold SchemaConverter.convert_schema_org_to_internal_recipe.
  unfold bindM, lift, ret, draw. cbn [py_get].
  destruct (duration_ok (dict_get (lit "prepTime") VNone d)) eqn:Hp.
  2:{ destruct (duration_not_ok _ Hp) as (e & -> & He). exists e.
      split; [reflexivity | tauto]. }
  destruct (duration_ok_returns _ Hp) as (pt & -> & _).
  destruct (duration_ok (dict_get (lit "cookTime") VNone d)) eqn:Hk.
  2:{ destruct (duration_not_ok _ Hk) as (e & -> & He). exists e.
      split; [reflexivity | tauto]. }
  destruct (duration_ok_returns _ Hk) as (ct & -> & _).
  destruct (duration_ok (dict_get (lit "totalTime") VNone d)) eqn:Ht.
  2:{ destruct (duration_not_ok _ Ht) as (e & -> & He). exists e.
      split; [reflexivity | tauto]. }
  destruct (duration_ok_returns _ Ht) as (tt' & -> & _).
  destruct (iterable (dict_get (lit "recipeIngredient") (VList []) d)) eqn:Hi.
  2:{ rewrite (not_iterable _ Hi). eexists; split; [reflexivity | tauto]. }
  destruct (iterable_ok _ Hi) as [ings Ei]. rewrite Ei.
  rewrite <- (iterated_items_within _ _ Ei) in Hc.
  destruct (forallb within_digit_limit ings) eqn:Hw.
  2:{ destruct (ingredients_beyond _ Hw) as (e & -> & He). exists e.
      split; [reflexivity | tauto]. }
  rewrite (ingredients_within _ Hw).
  destruct (steps_within_limit (dict_get (lit "recipeInstructions") VNone d)) eqn:Hs.
  2:{ destruct (steps_beyond _ Hs) as (e & -> & He). exists e.
      split; [reflexivity | tauto]. }
  destruct (steps_within _ Hs) as (instrs & ->).
  cbn [andb] in Hc. unfold duration_shaped in Hc.
  destruct (truthy (SchemaConverter.image_url_of (dict_get (lit "image") VNone d)))
    eqn:Hi'; [|discriminate].
  destruct (SchemaConverter.image_url_of (dict_get (lit "image") VNone d));
    try discriminate;
    eexists; (split; [reflexivity | tauto]).
Qed.

(** Whether and how the converter raises does not depend on the state. *)
Lemma convert_raise_stateless (w : world) (data : pyval) (url : str)
    (st st' : state) (e : exn) :
  fst (SchemaConverter.convert_schema_org_to_internal_recipe w data url st) = Raise e ->
  fst (SchemaConverter.convert_schema_org_to_internal_recipe w data url st') = Raise e.
Proof.
  destruct data as [| | | | | |d]; try (intros H; exact H).
  destruct (convertible d) eqn:Hc.
  - destruct (convert_convertible w d url st Hc)
      as (? & ? & ? & ? & ? & ? & _ & _ & _ & _ & _ & E).
    rewrite E. discriminate.
  - unfold SchemaConverter.convert_schema_org_to_internal_recipe.
    unfold bindM, lift, ret, draw. cbn [py_get].
    destruct (SchemaConverter.parse_schema_duration (dict_get (lit "prepTime") VNone d));
      [|intros H; exact H].
    destruct (SchemaConverter.parse_schema_duration (dict_get (lit "cookTime") VNone d));
      [|intros H; exact H].
    destruct (SchemaConverter.parse_schema_duration (dict_get (lit "totalTime") VNone d));
      [|intros H; exact H].
    destruct (py_iter (dict_get (lit "recipeIngredient") (VList []) d)) as [ings|];
      [|intros H; exact H].
    destruct (map_result SchemaConverter.raw_ingredient ings);
      [|intros H; exact H].
    destruct (SchemaConverter.instructions_of
                (dict_get (lit "recipeInstructions") VNone d));
      [|intros H; exact H].
    destruct (truthy (SchemaConverter.image_url_of (dict_get (lit "image") VNone d)));
      [|discriminate].
    destruct (Utils.py_strip (SchemaConverter.image_url_of (dict_get (lit "image") VNone d)));
      [discriminate | intros H; exact H].
Qed.

(** C2, as stated, fails: a candidate whose [recipeIngredient] is null
    makes the converter raise. *)
Lemma convert_raises_on_null_ingredients :
  result_of (SchemaConverter.convert_schema_org_to_internal_recipe
               (mkWorld (fun _ => 0%N) (fun _ => HttpTimeout) (fun _ _ => Ok [])
                        (fun _ => Ok tt) (fun _ _ => []) (fun _ => None) (fun _ => Ok VNone))
               (VDict [(lit "@type", VStr (lit "Recipe"));
                       (lit "recipeIngredient", VNone)])
               (lit "http://example.com/soup"))
    = Raise (mkExn TypeError (lit "'NoneType' object is not iterable")).
Proof. vm_compute. reflexivity. Qed.

(** C2, amended: among the candidate mappings whose listed ingredients
    and steps are scalars or, for steps, mappings, the converter returns a
    record, applying the configured defaults, exactly for those whose three
    durations are each falsy or a string, whose [recipeIngredient] is absent
    or iterable, whose picked image is falsy or a string, and which stay
    within the bound of 4300 digits where the converter calls [int] and
    [str] (the hours and minutes tokens of a duration that begins with PT,
    the ingredients and the steps that are ints).  On the others it raises
    [AttributeError], [TypeError] or [ValueError].  It draws one random
    identifier and changes nothing else. *)
Theorem convert_schema_org_spec (w : world) (d : dict) (url : str) (st : state) :
  flat d = true ->
  (convertible d = true ->
   exists record,
     SchemaConverter.convert_schema_org_to_internal_recipe w (VDict d) url st
       = (Ok (VDict record), mkState (trace st) (S (draws st)))
     /\ dict_lookup (lit "recipeId") record
        = Some (VStr (uuid4_hex (urandom w (draws st))))
     /\ dict_lookup (lit "title") record
        = Some (py_or (dict_get (lit "name") VNone d) (VStr Config.DEFAULT_RECIPE_TITLE))
     /\ dict_lookup (lit "servings") record
        = Some (py_or (dict_get (lit "recipeYield") VNone d) Config.DEFAULT_SERVINGS)
     /\ dict_lookup (lit "category") record
        = Some (py_or (dict_get (lit "recipeCategory") VNone d)
                      (VStr Config.DEFAULT_CATEGORY))
     /\ dict_lookup (lit "difficulty") record
        = Some (py_or (dict_get (lit "difficulty") VNone d)
                      (VStr Config.DEFAULT_DIFFICULTY))
     /\ (exists l, dict_lookup (lit "ingredients") record = Some (VList l))
     /\ (exists l, dict_lookup (lit "instructions") record = Some (VList l))
     /\ dict_lookup (lit "source") record = Some (VStr SchemaConverter.source_tag)
     /\ dict_lookup (lit "originalImportUrl") record = Some (VStr url))
  /\ (convertible d = false ->
      exists e,
        fst (SchemaConverter.convert_schema_org_to_internal_recipe w (VDict d) url st)
          = Raise e
        /\ (exn_cls e = AttributeError \/ exn_cls e = TypeError
            \/ exn_cls e = ValueError)).
Proof.
  intros _. split.
  - intros Hc.
    destruct (convert_convertible w d url st Hc)
      as (pt & ct & tt' & ings & instrs & img & _ & _ & _ & _ & _ & E).
    eexists. split; [exact E|].
    repeat split; try reflexivity; eexists; reflexivity.
  - apply convert_not_convertible.
Qed.

Lemma convert_schema_org_spec_witness :
  exists record,
    result_of (SchemaConverter.convert_schema_org_to_internal_recipe
                 (mkWorld (fun _ => 0%N) (fun _ => HttpTimeout) (fun _ _ => Ok [])
                          (fun _ => Ok tt) (fun _ _ => []) (fun _ => None)
                          (fun _ => Ok VNone))
                 (VDict [(lit "name", VStr (lit "Soup"));
                         (lit "prepTime", VStr (lit "PT10M"));
                         (lit "recipeIngredient", VList [VStr (lit "1 cup water")])])
                 (lit "http://example.com/soup"))
      = Ok (VDict record)
    /\ dict_lookup (lit "title") record = Some (VStr (lit "Soup")).
Proof.
  destruct (proj1 (convert_schema_org_spec
                     (mkWorld (fun _ => 0%N) (fun _ => HttpTimeout) (fun _ _ => Ok [])
                              (fun _ => Ok tt) (fun _ _ => []) (fun _ => None)
                              (fun _ => Ok VNone))
                     [(lit "name", VStr (lit "Soup"));
                      (lit "prepTime", VStr (lit "PT10M"));
                      (lit "recipeIngredient", VList [VStr (lit "1 cup water")])]
                     (lit "http://example.com/soup") initial eq_refl) eq_refl)
    as (record & E & _ & Ht & _).
  exists record. split.
  - unfold result_of. rewrite E. reflexivity.
  - exact Ht.
Defined.

End Conversion.

(* ===================================================================== *)
(** ** The structured-data scan (recipe_scraper.py) *)
(* ===================================================================== *)

Section StructuredData.

Lemma typed_recipe_truthy (v : pyval) : typed_recipe v = true -> truthy v = true.
Proof.
  destruct v as [| | | | | |d]; try discriminate.
  destruct d as [|kv d]; [discriminate | reflexivity].
Qed.

Lemma scan_graph_first (graph : list pyval) :
  RecipeScraper.scan_graph graph = first_typed_recipe graph.
Proof.
  induction graph as [|g rest IH]; [reflexivity|].
  cbn [RecipeScraper.scan_graph first_typed_recipe].
  destruct g as [| | | | | |d]; try reflexivity.
  cbn [py_get bind typed_recipe].
  destruct (RecipeScraper.is_recipe_type _); [reflexivity | exact IH].
Qed.

(** What a scan returns is None or an entity typed Recipe. *)
Lemma first_typed_recipe_hit (entities : list pyval) (r : pyval) :
  first_typed_recipe entities = Ok r -> r = VNone \/ typed_recipe r = true.
Proof.
  induction entities as [|e rest IH]; cbn [first_typed_recipe].
  - intros H; inversion H; auto.
  - destruct e as [| | | | | |d]; try discriminate.
    destruct (typed_recipe (VDict d)) eqn:E.
    + intros H; inversion H; subst; auto.
    + exact IH.
Qed.

Lemma first_typed_recipe_app (a b : list pyval) :
  first_typed_recipe (a ++ b) =
    match first_typed_recipe a with
    | Ok found => if truthy found then Ok found else first_typed_recipe b
    | Raise e => Raise e
    end.
Proof.
  induction a as [|e rest IH]; [reflexivity|].
  cbn [app first_typed_recipe].
  destruct e as [| | | | | |d]; try reflexivity.
  destruct (typed_recipe (VDict d)) eqn:E.
  - now rewrite (typed_recipe_truthy _ E).
  - exact IH.
Qed.

(** The loop over the json-ld items visits the entities of the blocks in
    order and stops at the first one typed Recipe. *)
Lemma scan_json_ld_first (items : list pyval) :
  RecipeScraper.scan_json_ld items = first_typed_recipe (flat_map block_entities items).
Proof.
  induction items as [|item rest IH]; [reflexivity|].
  cbn [RecipeScraper.scan_json_ld flat_map block_entities app first_typed_recipe].
  destruct item as [| | | | | |d]; try reflexivity.
  cbn [py_get bind typed_recipe graph_members].
  destruct (RecipeScraper.is_recipe_type _); [reflexivity|].
  rewrite first_typed_recipe_app.
  destruct (dict_lookup (lit "@graph") d) as [[| | | | |graph|]|];
    try (cbn [first_typed_recipe truthy]; exact IH).
  rewrite scan_graph_first.
  destruct (first_typed_recipe graph) as [found|e]; cbn [bind]; [|reflexivity].
  destruct (truthy found); [reflexivity | exact IH].
Qed.

(** Among entities, the scan is [List.find]. *)
Lemma first_typed_recipe_find (entities : list pyval) :
  Forall (fun e => is_entity e = true) entities ->
  first_typed_recipe entities =
    Ok match List.find typed_recipe entities with
       | Some r => r
       | None => VNone
       end.
Proof.
  induction 1 as [|e rest He _ IH]; [reflexivity|].
  cbn [first_typed_recipe List.find].
  destruct e as [| | | | | |d]; try discriminate.
  destruct (typed_recipe (VDict d)); [reflexivity | exact IH].
Qed.

Lemma scan_microdata_find (items : list pyval) :
  Forall (fun e => is_entity e = true) items ->
  RecipeScraper.scan_microdata items =
    Ok (option_map properties_of (List.find microdata_recipe items)).
Proof.
  induction 1 as [|e rest He _ IH]; [reflexivity|].
  cbn [RecipeScraper.scan_microdata List.find].
  destruct e as [| | | | | |d]; try discriminate.
  cbn [py_get bind microdata_recipe].
  destruct (dict_get (lit "type") (VStr []) d) as [| | | |t| |]; try exact IH.
  destruct (endswith (lit "/Recipe") t); [reflexivity | exact IH].
Qed.

(** The scan never raises: an exception of any stage ends it with None. *)
Lemma locate_never_raises (w : world) (html url : str) (st : state) :
  exists v, fst (RecipeScraper.locate_structured_data w html url st) = Ok v.
Proof.
  unfold RecipeScraper.locate_structured_data, try_except, try_clauses.
  match goal with
  | |- context [match ?m st with _ => _ end] => destruct (m st) as [[v|e] st']
  end.
  - exists v; reflexivity.
  - exists VNone. reflexivity.
Qed.

End StructuredData.
Section StructuredDataClaims.

Lemma dict_has_lookup (k : str) (d : dict) (v : pyval) :
  dict_lookup k d = Some v -> dict_has k d = true /\ dict_get k VNone d = v.
Proof. unfold dict_has, dict_get. now intros ->. Qed.

Lemma locate_json_ld_hit (w : world) (html url : str) (st : state)
    (sd : dict) (items : list pyval) (r : pyval) :
  extruct_extract w html url = Ok sd ->
  dict_lookup (lit "json-ld") sd = Some (VList items) ->
  first_typed_recipe (flat_map block_entities items) = Ok r ->
  truthy r = true ->
  RecipeScraper.locate_structured_data w html url st
    = (Ok r, mkState (trace st
                ++ [Printed (lit "Found schema.org/Recipe (JSON-LD) at " ++ url)])
               (draws st)).
Proof.
  intros Hsd Hld Hfirst Htr.
  destruct (dict_has_lookup _ _ _ Hld) as [Hhas Hget].
  unfold RecipeScraper.locate_structured_data, try_except, try_clauses.
  unfold bindM, lift, ret, print, emit, RecipeScraper.items_of.
  rewrite Hsd. cbn [fst snd]. rewrite Hhas, Hget. cbn [py_iter].
  rewrite scan_json_ld_first, Hfirst, Htr. cbv beta iota.
  rewrite Htr. reflexivity.
Qed.

Lemma locate_json_ld_miss (w : world) (html url : str) (st : state)
    (sd : dict) (items : list pyval) :
  extruct_extract w html url = Ok sd ->
  dict_lookup (lit "json-ld") sd = Some (VList items) ->
  first_typed_recipe (flat_map block_entities items) = Ok VNone ->
  (dict_lookup (lit "microdata") sd = None ->
   RecipeScraper.locate_structured_data w html url st = (Ok VNone, st))
  /\ (forall micro,
        dict_lookup (lit "microdata") sd = Some (VList micro) ->
        Forall (fun e => is_entity e = true) micro ->
        fst (RecipeScraper.locate_structured_data w html url st)
          = Ok match List.find microdata_recipe micro with
               | Some m => properties_of m
               | None => VNone
               end).
Proof.
  intros Hsd Hld Hfirst.
  destruct (dict_has_lookup _ _ _ Hld) as [Hhas Hget].
  split.
  - intros Hmd.
    unfold RecipeScraper.locate_structured_data, try_except, try_clauses.
    unfold bindM, lift, ret, print, emit, RecipeScraper.items_of.
    rewrite Hsd. cbn [fst snd]. rewrite Hhas, Hget. cbn [py_iter].
    rewrite scan_json_ld_first, Hfirst. cbn [truthy]. cbv beta iota.
    cbn [truthy negb andb]. unfold dict_has. rewrite Hmd. reflexivity.
  - intros micro Hmd Hent.
    destruct (dict_has_lookup _ _ _ Hmd) as [Hhas' Hget'].
    unfold RecipeScraper.locate_structured_data, try_except, try_clauses.
    unfold bindM, lift, ret, print, emit, RecipeScraper.items_of.
    rewrite Hsd. cbn [fst snd]. rewrite Hhas, Hget. cbn [py_iter].
    rewrite scan_json_ld_first, Hfirst. cbn [truthy]. cbv beta iota.
    cbn [truthy negb andb]. rewrite Hhas', Hget'. cbn [py_iter].
    rewrite (scan_microdata_find micro Hent).
    destruct (List.find microdata_recipe micro); reflexivity.
Qed.

(** C7: the scan returns the first entity typed Recipe and stops there:
    the json-ld blocks are visited in order, a block's own entity before
    the members of its [@graph] list; a type is matched when it is the
    string 'Recipe' or a list holding it; entities of other types are
    passed over wherever they stand; microdata (a type ending in /Recipe,
    whose property map is returned) is consulted only when json-ld gave no
    match; and when nothing matches the scan yields None, never an error. *)
Theorem locate_structured_data_spec :
  (forall (w : world) (html url : str) (st : state) (sd : dict) (items : list pyval),
      extruct_extract w html url = Ok sd ->
      dict_lookup (lit "json-ld") sd = Some (VList items) ->
      Forall (fun e => is_entity e = true) (flat_map block_entities items) ->
      (forall r,
          List.find typed_recipe (flat_map block_entities items) = Some r ->
          fst (RecipeScraper.locate_structured_data w html url st) = Ok r)
      /\ (List.find typed_recipe (flat_map block_entities items) = None ->
          (dict_lookup (lit "microdata") sd = None ->
           fst (RecipeScraper.locate_structured_data w html url st) = Ok VNone)
          /\ (forall micro,
                 dict_lookup (lit "microdata") sd = Some (VList micro) ->
                 Forall (fun e => is_entity e = true) micro ->
                 fst (RecipeScraper.locate_structured_data w html url st)
                   = Ok match List.find microdata_recipe micro with
                        | Some m => properties_of m
                        | None => VNone
                        end)))
  /\ (forall v,
         typed_recipe v = true <->
         exists d, v = VDict d
                   /\ (dict_lookup (lit "@type") d = Some (VStr (lit "Recipe"))
                       \/ exists types,
                            dict_lookup (lit "@type") d = Some (VList types)
                            /\ In (VStr (lit "Recipe")) types))
  /\ (forall (w : world) (html url : str) (st : state),
         exists v, fst (RecipeScraper.locate_structured_data w html url st) = Ok v).
Proof.
  split; [|split].
  - intros w html url st sd items Hsd Hld Hent.
    pose proof (first_typed_recipe_find _ Hent) as Hfirst.
    split.
    + intros r Hr. rewrite Hr in Hfirst.
      assert (Htr : truthy r = true).
      { apply typed_recipe_truthy. now apply (find_some _ _ Hr). }
      now rewrite (locate_json_ld_hit w html url st sd items r Hsd Hld Hfirst Htr).
    + intros Hnone. rewrite Hnone in Hfirst.
      destruct (locate_json_ld_miss w html url st sd items Hsd Hld Hfirst) as [H1 H2].
      split.
      * intros Hmd. now rewrite (H1 Hmd).
      * exact H2.
  - intros v. split.
    + destruct v as [| | | | | |d]; try discriminate.
      cbn [typed_recipe]. unfold dict_get.
      destruct (dict_lookup (lit "@type") d) as [[| | | |s|l|]|] eqn:E;
        try discriminate; cbn [RecipeScraper.is_recipe_type].
      * intros H. apply eqb_eq in H. subst s. exists d; auto.
      * intros H. exists d. split; [reflexivity|]. right. exists l. split; [exact E|].
        unfold list_has_str in H. apply existsb_exists in H as (x & Hin & Hx).
        destruct x; try discriminate. apply eqb_eq in Hx. now subst.
    + intros (d & -> & [H|(types & H & Hin)]); cbn [typed_recipe]; unfold dict_get;
        rewrite H; cbn [RecipeScraper.is_recipe_type].
      * apply eqb_refl.
      * unfold list_has_str. apply existsb_exists.
        exists (VStr (lit "Recipe")). split; [assumption | apply eqb_refl].
  - apply locate_never_raises.
Qed.

End StructuredDataClaims.

(* ===================================================================== *)
(** ** Computations: traces and results *)
(* ===================================================================== *)

Section Computations.

Lemma follows_refl (st : state) : follows st st.
Proof. exists []. split; [now rewrite app_nil_r | intros r []]. Qed.

Lemma follows_trans (a b c : state) : follows a b -> follows b c -> follows a c.
Proof.
  intros (m1 & E1 & H1) (m2 & E2 & H2).
  exists (m1 ++ m2). split.
  - now rewrite E2, E1, app_assoc.
  - intros r Hin. apply in_app_or in Hin as [Hin|Hin]; [now apply (H1 r) | now apply (H2 r)].
Qed.

Lemma llm_calls_app (a b : list event) :
  flat_map (fun e => match e with LLMCalled r => [r] | _ => [] end) (a ++ b)
  = flat_map (fun e => match e with LLMCalled r => [r] | _ => [] end) a
    ++ flat_map (fun e => match e with LLMCalled r => [r] | _ => [] end) b.
Proof. apply flat_map_app. Qed.

Lemma no_llm_calls (more : list event) :
  (forall r, ~ In (LLMCalled r) more) ->
  flat_map (fun e => match e with LLMCalled r => [r] | _ => [] end) more = [].
Proof.
  induction more as [|e more IH]; intros H; [reflexivity|].
  simpl. destruct e as [l|u|r].
  - apply IH. intros r Hin. apply (H r). now right.
  - apply IH. intros r Hin. apply (H r). now right.
  - exfalso. apply (H r). now left.
Qed.

(** A continuation has the same calls of the LLM helper. *)
Lemma follows_llm_calls (st st' : state) :
  follows st st' -> llm_calls st' = llm_calls st.
Proof.
  intros (more & E & H). unfold llm_calls. rewrite E, llm_calls_app.
  rewrite (no_llm_calls more H). apply app_nil_r.
Qed.

(** A continuation keeps the lines printed so far. *)
Lemma follows_printed (st st' : state) (l : str) :
  follows st st' -> In l (printed st) -> In l (printed st').
Proof.
  intros (more & E & _) Hin. unfold printed in *. rewrite E, flat_map_app.
  apply in_or_app. now left.
Qed.

Lemma quiet_ret {A} (a : A) : quiet (ret a).
Proof. intros st. apply follows_refl. Qed.

Lemma quiet_raise {A} (e : exn) : quiet (@raise A e).
Proof. intros st. apply follows_refl. Qed.

Lemma quiet_lift {A} (r : result A) : quiet (lift r).
Proof. intros st. apply follows_refl. Qed.

Lemma quiet_print (l : str) : quiet (print l).
Proof.
  intros st. exists [Printed l]. split; [reflexivity|].
  intros r [H|[]]. discriminate.
Qed.

Lemma quiet_requested (url : str) : quiet (emit (Requested url)).
Proof.
  intros st. exists [Requested url]. split; [reflexivity|].
  intros r [H|[]]. discriminate.
Qed.

Lemma quiet_draw (w : world) : quiet (draw w).
Proof. intros st. exists []. split; [simpl; now rewrite app_nil_r | intros r []]. Qed.

Lemma quiet_bind {A B} (m : M A) (k : A -> M B) :
  quiet m -> (forall a, quiet (k a)) -> quiet (bindM m k).
Proof.
  intros Hm Hk st. unfold bindM. specialize (Hm st).
  destruct (m st) as [[a|e] st1]; cbn [snd] in *.
  - eapply follows_trans; [exact Hm | apply Hk].
  - exact Hm.
Qed.

Lemma quiet_dispatch {A} (clauses : list ((exn -> bool) * (exn -> M A))) (e : exn) :
  Forall (fun c => forall e, quiet (snd c e)) clauses -> quiet (dispatch clauses e).
Proof.
  induction 1 as [|[p h] rest Hc _ IH]; cbn [dispatch].
  - apply quiet_raise.
  - destruct (p e); [apply Hc | exact IH].
Qed.

Lemma quiet_try_clauses {A} (m : M A) (clauses : list ((exn -> bool) * (exn -> M A))) :
  quiet m -> Forall (fun c => forall e, quiet (snd c e)) clauses ->
  quiet (try_clauses m clauses).
Proof.
  intros Hm Hc st. unfold try_clauses. specialize (Hm st).
  destruct (m st) as [[a|e] st1]; cbn [snd] in *.
  - exact Hm.
  - eapply follows_trans; [exact Hm | now apply quiet_dispatch].
Qed.

Lemma quiet_try_except {A} (m : M A) (p : exn -> bool) (h : exn -> M A) :
  quiet m -> (forall e, quiet (h e)) -> quiet (try_except m p h).
Proof.
  intros Hm Hh. apply quiet_try_clauses; [assumption|].
  constructor; [exact Hh | constructor].
Qed.

Lemma stateless_ret {A} (a : A) : stateless (ret a).
Proof. intros st; reflexivity. Qed.

Lemma stateless_raise {A} (e : exn) : stateless (@raise A e).
Proof. intros st; reflexivity. Qed.

Lemma stateless_lift {A} (r : result A) : stateless (lift r).
Proof. intros st; reflexivity. Qed.

Lemma stateless_emit (e : event) : stateless (emit e).
Proof. intros st; reflexivity. Qed.

Lemma stateless_bind {A B} (m : M A) (k : A -> M B) :
  stateless m -> (forall a, stateless (k a)) -> stateless (bindM m k).
Proof.
  intros Hm Hk st. unfold bindM.
  pose proof (Hm st) as H.
  destruct (m st) as [[a|e] st1]; destruct (m initial) as [[a'|e'] st1'];
    cbn [fst] in *; try discriminate.
  - inversion H; subst a'. rewrite (Hk a st1). symmetry. apply Hk.
  - now inversion H.
Qed.

Lemma stateless_dispatch {A} (clauses : list ((exn -> bool) * (exn -> M A))) (e : exn) :
  Forall (fun c => forall e, stateless (snd c e)) clauses ->
  stateless (dispatch clauses e).
Proof.
  induction 1 as [|[p h] rest Hc _ IH]; cbn [dispatch].
  - apply stateless_raise.
  - destruct (p e); [apply Hc | exact IH].
Qed.

Lemma stateless_try_clauses {A} (m : M A) (clauses : list ((exn -> bool) * (exn -> M A))) :
  stateless m -> Forall (fun c => forall e, stateless (snd c e)) clauses ->
  stateless (try_clauses m clauses).
Proof.
  intros Hm Hc st. unfold try_clauses.
  pose proof (Hm st) as H.
  destruct (m st) as [[a|e] st1]; destruct (m initial) as [[a'|e'] st1'];
    cbn [fst] in *; try discriminate.
  - exact H.
  - inversion H; subst e'.
    rewrite (stateless_dispatch clauses e Hc st1). symmetry.
    apply (stateless_dispatch clauses e Hc).
Qed.

Lemma stateless_try_except {A} (m : M A) (p : exn -> bool) (h : exn -> M A) :
  stateless m -> (forall e, stateless (h e)) -> stateless (try_except m p h).
Proof.
  intros Hm Hh. apply stateless_try_clauses; [assumption|].
  constructor; [exact Hh | constructor].
Qed.

(** Running a stage whose result is known. *)
Lemma run_stage {A} (m : M A) (st : state) (r : result A) :
  stateless m -> quiet m -> result_of m = r ->
  exists st', m st = (r, st') /\ follows st st'.
Proof.
  intros Hs Hq Hr. exists (snd (m st)). split.
  - rewrite <- Hr. unfold result_of. rewrite <- (Hs st). now destruct (m st).
  - apply Hq.
Qed.

End Computations.

Ltac quiet_step :=
  match goal with
  | |- quiet (bindM _ _) => apply quiet_bind; [|intros ?]
  | |- quiet (ret _) => apply quiet_ret
  | |- quiet (raise _) => apply quiet_raise
  | |- quiet (lift _) => apply quiet_lift
  | |- quiet (print _) => apply quiet_print
  | |- quiet (emit (Requested _)) => apply quiet_requested
  | |- quiet (draw _) => apply quiet_draw
  | |- quiet (try_except _ _ _) => apply quiet_try_except; [|intros ?]
  | |- quiet (match ?x with _ => _ end) => destruct x
  end.

Ltac stateless_step :=
  match goal with
  | |- stateless (bindM _ _) => apply stateless_bind; [|intros ?]
  | |- stateless (ret _) => apply stateless_ret
  | |- stateless (raise _) => apply stateless_raise
  | |- stateless (lift _) => apply stateless_lift
  | |- stateless (print _) => apply stateless_emit
  | |- stateless (emit _) => apply stateless_emit
  | |- stateless (try_except _ _ _) => apply stateless_try_except; [|intros ?]
  | |- stateless (match ?x with _ => _ end) => destruct x
  end.

Section Stages.

Lemma fetch_quiet (w : world) (url : str) : quiet (RecipeScraper.fetch_url_content w url).
Proof. unfold RecipeScraper.fetch_url_content. repeat quiet_step. Qed.

Lemma fetch_stateless (w : world) (url : str) :
  stateless (RecipeScraper.fetch_url_content w url).
Proof. unfold RecipeScraper.fetch_url_content. repeat stateless_step. Qed.

Lemma select_quiet (w : world) (html : str) (selectors : list str) :
  quiet (RecipeScraper.select_main_content w html selectors).
Proof.
  induction selectors as [|s rest IH]; cbn [RecipeScraper.select_main_content].
  - apply quiet_ret.
  - destruct (soup_select w html s); [exact IH | repeat quiet_step].
Qed.

Lemma select_stateless (w : world) (html : str) (selectors : list str) :
  stateless (RecipeScraper.select_main_content w html selectors).
Proof.
  induction selectors as [|s rest IH]; cbn [RecipeScraper.select_main_content].
  - apply stateless_ret.
  - destruct (soup_select w html s); [exact IH | repeat stateless_step].
Qed.

Lemma extract_text_quiet (w : world) (html : str) :
  quiet (RecipeScraper.extract_relevant_text_from_html w html).
Proof.
  unfold RecipeScraper.extract_relevant_text_from_html.
  destruct html; [apply quiet_ret|].
  apply quiet_bind; [apply quiet_lift | intros _].
  apply quiet_bind; [apply select_quiet | intros sel].
  repeat quiet_step.
Qed.

Lemma extract_text_stateless (w : world) (html : str) :
  stateless (RecipeScraper.extract_relevant_text_from_html w html).
Proof.
  unfold RecipeScraper.extract_relevant_text_from_html.
  destruct html; [apply stateless_ret|].
  apply stateless_bind; [apply stateless_lift | intros _].
  apply stateless_bind; [apply select_stateless | intros sel].
  repeat stateless_step.
Qed.

Lemma locate_quiet (w : world) (html url : str) :
  quiet (RecipeScraper.locate_structured_data w html url).
Proof. unfold RecipeScraper.locate_structured_data. repeat quiet_step. Qed.

Lemma locate_stateless (w : world) (html url : str) :
  stateless (RecipeScraper.locate_structured_data w html url).
Proof. unfold RecipeScraper.locate_structured_data. repeat stateless_step. Qed.

Lemma convert_quiet (w : world) (data : pyval) (url : str) :
  quiet (SchemaConverter.convert_schema_org_to_internal_recipe w data url).
Proof.
  unfold SchemaConverter.convert_schema_org_to_internal_recipe. repeat quiet_step.
Qed.

Lemma structured_path_quiet (w : world) (url : str) (ui : option str) (cand : pyval) :
  quiet (RecipeScraper.structured_path w url ui cand).
Proof.
  unfold RecipeScraper.structured_path.
  destruct (truthy cand); [|apply quiet_ret].
  apply quiet_try_except.
  - apply quiet_bind; [apply convert_quiet | intros d]. repeat quiet_step.
  - intros e. repeat quiet_step.
Qed.

End Stages.

(* ===================================================================== *)
(** ** Dictionaries *)
(* ===================================================================== *)

Section Dictionaries.

Lemma dict_lookup_set_same (k : str) (v : pyval) (d : dict) :
  dict_lookup k (dict_set k v d) = Some v.
Proof.
  induction d as [|[k' v'] d IH]; cbn [dict_set dict_lookup].
  - now rewrite eqb_refl.
  - destruct (eqb k' k) eqn:E; cbn [dict_lookup]; rewrite E; [reflexivity | exact IH].
Qed.

Lemma dict_lookup_set_other (k k' : str) (v : pyval) (d : dict) :
  k' <> k -> dict_lookup k (dict_set k' v d) = dict_lookup k d.
Proof.
  intros Hne. induction d as [|[k0 v0] d IH]; cbn [dict_set dict_lookup].
  - apply eqb_neq in Hne. now rewrite Hne.
  - destruct (eqb k0 k') eqn:E; cbn [dict_lookup].
    + apply eqb_eq in E. subst k0. apply eqb_neq in Hne. now rewrite Hne.
    + now rewrite IH.
Qed.

Lemma count_key_absent (k : str) (d : dict) :
  ~ In k (map fst d) -> count_key k d = 0.
Proof.
  induction d as [|[k' v'] d IH]; intros H; [reflexivity|].
  unfold count_key in *. cbn [filter fst].
  destruct (eqb k' k) eqn:E.
  - apply eqb_eq in E. subst. exfalso. apply H. now left.
  - apply IH. intros Hin. apply H. now right.
Qed.

Lemma keys_set (k : str) (v : pyval) (d : dict) :
  map fst (dict_set k v d) = if dict_has k d then map fst d else map fst d ++ [k].
Proof.
  unfold dict_has.
  induction d as [|[k' v'] d IH]; cbn [dict_set dict_lookup map fst app]; [reflexivity|].
  destruct (eqb k' k) eqn:E; cbn [map fst]; [reflexivity|].
  rewrite IH. now destruct (dict_lookup k d).
Qed.

Lemma dict_has_in (k : str) (d : dict) : dict_has k d = true <-> In k (map fst d).
Proof.
  unfold dict_has.
  induction d as [|[k' v'] d IH]; cbn [dict_lookup map fst In].
  - split; [discriminate | intros []].
  - destruct (eqb k' k) eqn:E.
    + apply eqb_eq in E. split; auto.
    + rewrite IH. split; auto. intros [H|H]; [|assumption].
      apply eqb_neq in E. contradiction.
Qed.

Lemma unique_keys_set (k : str) (v : pyval) (d : dict) :
  unique_keys d -> unique_keys (dict_set k v d).
Proof.
  unfold unique_keys. intros H. rewrite keys_set.
  destruct (dict_has k d) eqn:E; [assumption|].
  apply NoDup_app; [assumption | repeat constructor; intros [] |].
  intros x Hin [Hx|[]]. subst x.
  apply dict_has_in in Hin. congruence.
Qed.

Lemma count_key_set_same (k : str) (v : pyval) (d : dict) :
  unique_keys d -> count_key k (dict_set k v d) = 1.
Proof.
  unfold unique_keys.
  induction d as [|[k' v'] d IH]; intros H; cbn [dict_set].
  - unfold count_key. cbn [filter fst]. now rewrite eqb_refl.
  - inversion H as [|? ? Hnot Hrest]; subst.
    destruct (eqb k' k) eqn:E.
    + unfold count_key. cbn [filter fst]. rewrite E. cbn [List.length].
      apply eqb_eq in E. subst k'.
      f_equal. now apply count_key_absent.
    + unfold count_key in *. cbn [filter fst]. rewrite E. now apply IH.
Qed.

Lemma count_key_set_other (k k' : str) (v : pyval) (d : dict) :
  k' <> k -> count_key k (dict_set k' v d) = count_key k d.
Proof.
  intros Hne. unfold count_key.
  induction d as [|[k0 v0] d IH]; cbn [dict_set filter fst].
  - apply eqb_neq in Hne. now rewrite Hne.
  - destruct (eqb k0 k') eqn:E; cbn [filter fst].
    + now destruct (eqb k0 k).
    + destruct (eqb k0 k); cbn [List.length]; now rewrite IH.
Qed.

End Dictionaries.

(* ===================================================================== *)
(** ** The orchestrator (recipe_scraper.py) *)
(* ===================================================================== *)

Ltac distinct_keys :=
  let H := fresh in intros H; vm_compute in H; discriminate H.

Section Orchestrator.

Lemma uuid4_str_truthy (r : N) : truthy (VStr (uuid4_str r)) = true.
Proof.
  unfold uuid4_str. cbn [truthy].
  destruct (firstn 8 (uuid4_hex r)); reflexivity.
Qed.

Lemma uuid4_hex_truthy (r : N) : truthy (VStr (uuid4_hex r)) = true.
Proof.
  pose proof (length_hex_fixed 32 (uuid4_int r)) as H.
  unfold uuid4_hex. cbn [truthy].
  destruct (hex_fixed 32 (uuid4_int r)); [discriminate | reflexivity].
Qed.

Lemma finish_llm_recipe_run (w : world) (url : str) (ui : option str)
    (d : dict) (st : state) :
  d <> [] ->
  exists st',
    RecipeScraper.finish_llm_recipe w url ui (VDict d) st
      = (Ok (VDict (finished w url ui d st)), st')
    /\ follows st st'.
Proof.
  intros Hd. destruct d as [|kv d]; [contradiction|].
  unfold RecipeScraper.finish_llm_recipe, finished.
  set (d0 := kv :: d).
  unfold bindM.
  destruct (negb (dict_has (lit "recipeId") d0)
            || negb (truthy (dict_get (lit "recipeId") VNone d0)));
    unfold draw, ret, print, emit; cbn [fst snd];
    (eexists; split; [reflexivity|]);
    (eexists; split; [reflexivity|]); intros r [H|[]]; discriminate.
Qed.

Lemma finish_llm_recipe_invalid (w : world) (url : str) (ui : option str)
    (v : pyval) (st : state) :
  (forall d, v = VDict d -> d = []) ->
  exists st',
    RecipeScraper.finish_llm_recipe w url ui v st
      = (Raise RecipeScraper.invalid_llm_result, st')
    /\ follows st st'.
Proof.
  intros Hv.
  assert (E : RecipeScraper.finish_llm_recipe w url ui v st
              = (Raise RecipeScraper.invalid_llm_result,
                 mkState (trace st
                    ++ [Printed (lit "WARN (parse_recipe_from_url): Gemini scrape for "
                                   ++ url ++ lit " returned invalid data.")])
                   (draws st))).
  { destruct v as [| | | | | |[|kv d]]; try reflexivity.
    specialize (Hv _ eq_refl). discriminate. }
  rewrite E. eexists. split; [reflexivity|].
  eexists. split; [reflexivity|]. intros r [H|[]]. discriminate.
Qed.

(** The fields the post-processing sets. *)
Lemma finished_fields (w : world) (url : str) (ui : option str) (d : dict) (st : state) :
  dict_lookup (lit "source") (finished w url ui d st)
    = Some (VStr RecipeScraper.fallback_tag)
  /\ dict_lookup (lit "originalImportUrl") (finished w url ui d st) = Some (VStr url)
  /\ (exists id, dict_lookup (lit "recipeId") (finished w url ui d st) = Some id
                 /\ truthy id = true)
  /\ (unique_keys d -> count_key (lit "source") (finished w url ui d st) = 1).
Proof.
  unfold finished.
  set (d1 := if negb (dict_has (lit "recipeId") d)
                || negb (truthy (dict_get (lit "recipeId") VNone d))
             then dict_set (lit "recipeId") (VStr (uuid4_str (urandom w (draws st)))) d
             else d).
  assert (Hid : exists id, dict_lookup (lit "recipeId") d1 = Some id /\ truthy id = true).
  { subst d1. unfold dict_has, dict_get.
    destruct (dict_lookup (lit "recipeId") d) as [id|] eqn:E; cbn [negb orb].
    - destruct (truthy id) eqn:Ht; cbn [negb].
      + exists id. auto.
      + eexists. split; [apply dict_lookup_set_same | apply uuid4_str_truthy].
    - eexists. split; [apply dict_lookup_set_same | apply uuid4_str_truthy]. }
  assert (Hu : unique_keys d -> unique_keys d1).
  { intros H. subst d1.
    destruct (negb _ || negb _); [now apply unique_keys_set | assumption]. }
  clearbody d1.
  set (d2 := dict_set (lit "originalImportUrl") (VStr url)
               (dict_set (lit "source") (VStr RecipeScraper.fallback_tag) d1)).
  assert (H2 : dict_lookup (lit "source") d2 = Some (VStr RecipeScraper.fallback_tag)
               /\ dict_lookup (lit "originalImportUrl") d2 = Some (VStr url)
               /\ (exists id, dict_lookup (lit "recipeId") d2 = Some id /\ truthy id = true)
               /\ (unique_keys d -> count_key (lit "source") d2 = 1)).
  { subst d2. repeat split.
    - rewrite dict_lookup_set_other by distinct_keys. apply dict_lookup_set_same.
    - apply dict_lookup_set_same.
    - destruct Hid as (id & Hid & Ht). exists id. split; [|assumption].
      now rewrite !dict_lookup_set_other by distinct_keys.
    - intros H. rewrite count_key_set_other by distinct_keys.
      apply count_key_set_same. now apply Hu. }
  clearbody d2.
  destruct (RecipeScraper.nonempty ui
            && negb (dict_has (lit "userModificationInstructions") d2)); [|exact H2].
  destruct H2 as (Hs & Ho & (id & Hi & Ht) & Hc).
  repeat split.
  - now rewrite dict_lookup_set_other by distinct_keys.
  - now rewrite dict_lookup_set_other by distinct_keys.
  - exists id. split; [|assumption]. now rewrite dict_lookup_set_other by distinct_keys.
  - intros H. rewrite count_key_set_other by distinct_keys. now apply Hc.
Qed.

End Orchestrator.

Section Pipeline.

Lemma printed_app_llm (t : list event) (r : llm_request) :
  flat_map (fun e => match e with Printed l => [l] | _ => [] end) (t ++ [LLMCalled r])
  = flat_map (fun e => match e with Printed l => [l] | _ => [] end) t.
Proof. rewrite flat_map_app. apply app_nil_r. Qed.

(** A stage with a known result, run in any state. *)
Lemma fetch_run (w : world) (url : str) (st : state) (r : result str) :
  result_of (RecipeScraper.fetch_url_content w url) = r ->
  exists st', RecipeScraper.fetch_url_content w url st = (r, st') /\ follows st st'.
Proof. apply run_stage; [apply fetch_stateless | apply fetch_quiet]. Qed.

Lemma locate_run (w : world) (html url : str) (st : state) (r : result pyval) :
  result_of (RecipeScraper.locate_structured_data w html url) = r ->
  exists st', RecipeScraper.locate_structured_data w html url st = (r, st')
              /\ follows st st'.
Proof. apply run_stage; [apply locate_stateless | apply locate_quiet]. Qed.

Lemma extract_text_run (w : world) (html : str) (st : state) (r : result str) :
  result_of (RecipeScraper.extract_relevant_text_from_html w html) = r ->
  exists st', RecipeScraper.extract_relevant_text_from_html w html st = (r, st')
              /\ follows st st'.
Proof. apply run_stage; [apply extract_text_stateless | apply extract_text_quiet]. Qed.

(** Once the parser has accepted the page, the text extractor returns. *)
Lemma extract_text_parsed (w : world) (html : str) (st : state) :
  soup_parse w html = Ok tt ->
  exists text, fst (RecipeScraper.extract_relevant_text_from_html w html st) = Ok text.
Proof.
  intros Hp.
  unfold RecipeScraper.extract_relevant_text_from_html.
  destruct html as [|c html]; [eexists; reflexivity|].
  unfold bindM, lift. rewrite Hp.
  assert (Hsel : forall sels st0, exists l st1,
             RecipeScraper.select_main_content w (c :: html) sels st0 = (Ok l, st1)).
  { induction sels as [|s rest IH]; intros st0; cbn [RecipeScraper.select_main_content].
    - eexists; eexists; reflexivity.
    - destruct (soup_select w (c :: html) s); [apply IH|].
      eexists; eexists; reflexivity. }
  destruct (Hsel RecipeScraper.main_content_selectors st) as (l & st1 & ->).
  destruct l as [|t l]; unfold print, emit, ret; cbn [fst snd];
    match goal with
    | |- context [if ?b then _ else _] => destruct b
    end; eexists; reflexivity.
Qed.

(** The text extractor raises only what the HTML parser raises, and an
    empty page is not parsed. *)
Lemma extract_text_outcome (w : world) (html : str) (st : state) :
  match fst (RecipeScraper.extract_relevant_text_from_html w html st) with
  | Ok _ => html = [] \/ soup_parse w html = Ok tt
  | Raise e => html <> [] /\ soup_parse w html = Raise e
  end.
Proof.
  destruct html as [|c html]; [now left|].
  destruct (soup_parse w (c :: html)) as [[]|e] eqn:Hp.
  - destruct (extract_text_parsed w (c :: html) st Hp) as (text & ->). now right.
  - unfold RecipeScraper.extract_relevant_text_from_html, bindM, lift.
    rewrite Hp. cbn [fst]. split; [discriminate | reflexivity].
Qed.

(** When the candidate is truthy and its conversion raises, the structured
    path prints the failure and yields no record. *)
Lemma structured_path_fallback (w : world) (url : str) (ui : option str)
    (cand : pyval) (e : exn) (st : state) :
  truthy cand = true ->
  result_of (SchemaConverter.convert_schema_org_to_internal_recipe w cand url) = Raise e ->
  exists st',
    RecipeScraper.structured_path w url ui cand st = (Ok None, st')
    /\ follows st st'
    /\ In (lit "ERROR (parse_recipe_from_url): Failed to convert schema.org data from "
             ++ url ++ lit ". Error: " ++ exn_msg e
             ++ lit ". Falling back to Gemini scrape.") (printed st').
Proof.
  intros Ht Hc.
  pose proof (convert_raise_stateless w cand url initial st e Hc) as Hst.
  pose proof (convert_quiet w cand url st) as Hq.
  unfold RecipeScraper.structured_path. rewrite Ht.
  unfold try_except, try_clauses, bindM.
  destruct (SchemaConverter.convert_schema_org_to_internal_recipe w cand url st)
    as [[v|e'] st1]; cbn [fst snd] in *; [discriminate|].
  inversion Hst; subst e'. cbn [dispatch any_exception].
  unfold print, emit, ret. cbn [fst snd].
  eexists. split; [reflexivity|]. split.
  - eapply follows_trans; [exact Hq|].
    eexists. split; [reflexivity|]. intros r [H|[]]. discriminate.
  - unfold printed. cbn [trace]. rewrite flat_map_app. apply in_or_app. right. now left.
Qed.

Lemma structured_path_no_candidate (w : world) (url : str) (ui : option str)
    (cand : pyval) (st : state) :
  truthy cand = false ->
  RecipeScraper.structured_path w url ui cand st = (Ok None, st).
Proof. intros Ht. unfold RecipeScraper.structured_path. now rewrite Ht. Qed.

(** The record of a successful structured path. *)
Lemma structured_path_record (w : world) (url : str) (ui : option str)
    (cand v : pyval) (st st' : state) :
  RecipeScraper.structured_path w url ui cand st = (Ok (Some v), st') ->
  exists record,
    v = VDict record
    /\ (exists id, dict_lookup (lit "recipeId") record = Some id /\ truthy id = true)
    /\ count_key (lit "source") record = 1
    /\ dict_lookup (lit "source") record = Some (VStr SchemaConverter.source_tag)
    /\ (exists l, dict_lookup (lit "ingredients") record = Some (VList l))
    /\ (exists l, dict_lookup (lit "instructions") record = Some (VList l)).
Proof.
  unfold RecipeScraper.structured_path.
  destruct (truthy cand); [|discriminate].
  unfold try_except, try_clauses, bindM.
  destruct cand as [| | | | | |d]; try discriminate.
  destruct (convertible d) eqn:Hc.
  - destruct (convert_convertible w d url st Hc)
      as (pt & ct & tt' & ings & instrs & img & _ & _ & _ & _ & _ & E).
    rewrite E.
    destruct (RecipeScraper.nonempty ui && truthy _); unfold ret;
      intros H; inversion H; subst; clear H;
      eexists; (split; [reflexivity|]);
      (split; [eexists; split; [reflexivity | apply uuid4_hex_truthy]|]);
      repeat split; try reflexivity; eexists; reflexivity.
  - destruct (convert_not_convertible w d url st Hc) as (e & He & _).
    destruct (SchemaConverter.convert_schema_org_to_internal_recipe w (VDict d) url st)
      as [[v'|e'] st1]; cbn [fst] in He; [discriminate|].
    cbn [dispatch any_exception]. unfold bindM, print, emit, ret. cbn [fst snd].
    discriminate.
Qed.

End Pipeline.

Section Fallback.

Variables (w : world) (url html : str) (ui : option str) (prefs : pyval).

(** The state in which the fallback path calls the text extractor. *)
Lemma llm_path_blank (st : state) (text : str) :
  result_of (RecipeScraper.extract_relevant_text_from_html w html) = Ok text ->
  strip text = [] ->
  exists st',
    RecipeScraper.llm_path w url html ui prefs st
      = (Raise RecipeScraper.no_extractable_content, st')
    /\ follows st st'.
Proof.
  intros Htext Hblank.
  unfold RecipeScraper.llm_path, bindM.
  unfold print at 1, emit at 1. cbn [fst snd].
  match goal with
  | |- context [RecipeScraper.extract_relevant_text_from_html w html ?s] =>
      destruct (extract_text_run w html s _ Htext) as (st1 & -> & Hf)
  end.
  rewrite Hblank. unfold print, emit, raise. cbn [fst snd].
  eexists. split; [reflexivity|].
  eapply follows_trans; [|eapply follows_trans; [exact Hf|]];
    (eexists; split; [reflexivity|]; intros r [H|[]]; discriminate).
Qed.

Lemma llm_path_answer (st : state) (text : str) (d : dict) :
  result_of (RecipeScraper.extract_relevant_text_from_html w html) = Ok text ->
  strip text <> [] ->
  llm_extract w (mkRequest text ui prefs url) = Ok (VDict d) ->
  d <> [] ->
  exists st0 st',
    RecipeScraper.llm_path w url html ui prefs st
      = (Ok (VDict (finished w url ui d st0)), st')
    /\ llm_calls st' = llm_calls st ++ [mkRequest text ui prefs url]
    /\ (forall l, In l (printed st) -> In l (printed st')).
Proof.
  intros Htext Hnb Hllm Hd.
  unfold RecipeScraper.llm_path, bindM.
  unfold print at 1, emit at 1. cbn [fst snd].
  match goal with
  | |- context [RecipeScraper.extract_relevant_text_from_html w html ?s] =>
      assert (Hf0 : follows st s)
        by (eexists; split; [reflexivity|]; intros r [H|[]]; discriminate);
      destruct (extract_text_run w html s _ Htext) as (st1 & -> & Hf)
  end.
  destruct (strip text) as [|c t] eqn:Es; [contradiction|].
  unfold try_clauses, bindM, RecipeScraper.extract_recipe_from_text_content_for_url_scrape.
  unfold bindM, emit, lift. cbn [fst snd]. rewrite Hllm.
  match goal with
  | |- context [RecipeScraper.finish_llm_recipe w url ui (VDict d) ?s] =>
      destruct (finish_llm_recipe_run w url ui d s Hd) as (st2 & -> & Hf2);
      exists s, st2
  end.
  split; [reflexivity|].
  pose proof (follows_trans _ _ _ Hf0 Hf) as Hf1.
  split.
  - rewrite (follows_llm_calls _ _ Hf2). unfold llm_calls at 1. cbn [trace].
    rewrite llm_calls_app. cbn [flat_map app].
    f_equal. apply (follows_llm_calls _ _ Hf1).
  - intros l Hin. apply (follows_printed _ _ l Hf2).
    unfold printed. cbn [trace]. rewrite printed_app_llm.
    apply (follows_printed _ _ l Hf1 Hin).
Qed.

(** What a successful fallback path returns. *)
Lemma llm_path_success (st st' : state) (v : pyval) :
  RecipeScraper.llm_path w url html ui prefs st = (Ok v, st') ->
  exists text d st0,
    v = VDict (finished w url ui d st0)
    /\ strip text <> []
    /\ llm_extract w (mkRequest text ui prefs url) = Ok (VDict d)
    /\ d <> [].
Proof.
  unfold RecipeScraper.llm_path, bindM.
  unfold print at 1, emit at 1. cbn [fst snd].
  match goal with
  | |- context [RecipeScraper.extract_relevant_text_from_html w html ?s] =>
      destruct (RecipeScraper.extract_relevant_text_from_html w html s)
        as [[text|e] st1]
  end; [|discriminate].
  destruct (strip text) as [|c t] eqn:Es.
  { unfold bindM, print, emit, raise. cbn [fst snd]. discriminate. }
  unfold try_clauses, bindM, RecipeScraper.extract_recipe_from_text_content_for_url_scrape.
  unfold bindM, emit, lift. cbn [fst snd].
  destruct (llm_extract w (mkRequest text ui prefs url)) as [answer|e] eqn:Hllm.
  - destruct answer as [| | | | | |d].
    1-6: (match goal with
          | |- context [RecipeScraper.finish_llm_recipe w url ui ?a ?s] =>
              destruct (finish_llm_recipe_invalid w url ui a s) as (st2 & -> & _);
              [intros d' Hd'; discriminate|]
          end;
          cbn [dispatch]; unfold bindM, print, emit, raise; cbn [fst snd orb instance_of exn_cls RecipeScraper.invalid_llm_result subclass]; discriminate).
    destruct d as [|kv d].
    + match goal with
      | |- context [RecipeScraper.finish_llm_recipe w url ui ?a ?s] =>
          destruct (finish_llm_recipe_invalid w url ui a s) as (st2 & -> & _);
          [intros d' Hd'; now inversion Hd'|]
      end.
      cbn [dispatch]. unfold bindM, print, emit, raise.
      cbn [fst snd orb instance_of exn_cls RecipeScraper.invalid_llm_result subclass].
      discriminate.
    + match goal with
      | |- context [RecipeScraper.finish_llm_recipe w url ui (VDict ?dd) ?s] =>
          destruct (finish_llm_recipe_run w url ui dd s) as (st2 & -> & _);
          [discriminate|];
          intros H; inversion H; subst; clear H;
          exists text, dd, s
      end.
      repeat split; auto; try discriminate. now rewrite Es.
  - cbn [dispatch].
    destruct (instance_of ConnectionError e || instance_of ValueError e);
      unfold bindM, print, emit, raise, any_exception; cbn [fst snd]; discriminate.
Qed.

End Fallback.

Section OrchestratorClaims.

Lemma parse_after_fetch (w : world) (url : str) (ui : option str) (prefs : pyval)
    (html : str) (st : state) :
  RecipeScraper.valid_url url = true ->
  result_of (RecipeScraper.fetch_url_content w url) = Ok html ->
  exists st1,
    follows st st1
    /\ RecipeScraper.parse_recipe_from_url w url ui prefs st =
         (recipe_schema_data <-- RecipeScraper.locate_structured_data w html url ;;
          converted <-- RecipeScraper.structured_path w url ui recipe_schema_data ;;
          match converted with
          | Some internal_recipe_dict => ret internal_recipe_dict
          | None => RecipeScraper.llm_path w url html ui prefs
          end) st1.
Proof.
  intros Hv Hf.
  destruct (fetch_run w url st _ Hf) as (st1 & E & Hfol).
  exists st1. split; [assumption|].
  unfold RecipeScraper.parse_recipe_from_url. rewrite Hv. cbn [negb].
  unfold bindM at 1. unfold try_except, try_clauses. rewrite E. reflexivity.
Qed.

(** C1: when the scan of a fetched page finds a candidate and its
    conversion raises, [parse_recipe_from_url] does not fail there: it
    prints the failure and goes on to the text extraction and the LLM
    helper, and when the helper answers with a non-empty mapping it returns
    that record with [source] set to "url_scrape_gemini_fallback". *)
Theorem conversion_failure_falls_back
    (w : world) (url : str) (ui : option str) (prefs : pyval)
    (html : str) (cand : pyval) (e : exn) (text : str) (d : dict) :
  RecipeScraper.valid_url url = true ->
  result_of (RecipeScraper.fetch_url_content w url) = Ok html ->
  result_of (RecipeScraper.locate_structured_data w html url) = Ok cand ->
  truthy cand = true ->
  result_of (SchemaConverter.convert_schema_org_to_internal_recipe w cand url) = Raise e ->
  result_of (RecipeScraper.extract_relevant_text_from_html w html) = Ok text ->
  strip text <> [] ->
  llm_extract w (mkRequest text ui prefs url) = Ok (VDict d) ->
  d <> [] ->
  exists record st',
    RecipeScraper.parse_recipe_from_url w url ui prefs initial = (Ok (VDict record), st')
    /\ dict_lookup (lit "source") record = Some (VStr (lit "url_scrape_gemini_fallback"))
    /\ In (lit "ERROR (parse_recipe_from_url): Failed to convert schema.org data from "
             ++ url ++ lit ". Error: " ++ exn_msg e
             ++ lit ". Falling back to Gemini scrape.") (printed st')
    /\ llm_calls st' = [mkRequest text ui prefs url].
Proof.
  intros Hv Hf Hl Ht Hc Htext Hnb Hllm Hd.
  destruct (parse_after_fetch w url ui prefs html initial Hv Hf) as (st1 & F1 & ->).
  unfold bindM at 1.
  destruct (locate_run w html url st1 _ Hl) as (st2 & -> & F2).
  unfold bindM at 1.
  destruct (structured_path_fallback w url ui cand e st2 Ht Hc) as (st3 & -> & F3 & Hline).
  destruct (llm_path_answer w url html ui prefs st3 text d Htext Hnb Hllm Hd)
    as (st0 & st4 & -> & Hcalls & Hprinted).
  exists (finished w url ui d st0), st4.
  split; [reflexivity|]. split; [apply finished_fields|]. split.
  - now apply Hprinted.
  - rewrite Hcalls.
    rewrite (follows_llm_calls _ _ (follows_trans _ _ _ F1 (follows_trans _ _ _ F2 F3))).
    reflexivity.
Qed.

Lemma conversion_failure_falls_back_witness :
  exists record st',
    RecipeScraper.parse_recipe_from_url
      (sample_world (Ok (sample_structured_data recipe_with_image_object))
                    (lit "Soup: boil water.")
                    (Ok (VDict [(lit "title", VStr (lit "Soup"))])))
      sample_url None VNone initial = (Ok (VDict record), st')
    /\ dict_lookup (lit "source") record = Some (VStr (lit "url_scrape_gemini_fallback")).
Proof.
  destruct (conversion_failure_falls_back
              (sample_world (Ok (sample_structured_data recipe_with_image_object))
                            (lit "Soup: boil water.")
                            (Ok (VDict [(lit "title", VStr (lit "Soup"))])))
              sample_url None VNone
              (lit "<html></html>") recipe_with_image_object
              (mkExn AttributeError (lit "'dict' object has no attribute 'strip'"))
              (lit "Soup: boil water.")
              [(lit "title", VStr (lit "Soup"))])
    as (record & st' & H & Hs & _);
    try (vm_compute; reflexivity); try discriminate.
  exists record, st'. split; assumption.
Defined.

(** C8: when the request reaches the text extraction (the address is
    valid, the page was fetched, and the structured path gave no record:
    no candidate, or a conversion that raised) and the extracted text is
    empty or white space only, [parse_recipe_from_url] fails with "Could
    not extract meaningful text from the URL to attempt a scrape." and the
    LLM helper is not called. *)
Theorem blank_text_stops_before_llm
    (w : world) (url : str) (ui : option str) (prefs : pyval)
    (html : str) (cand : pyval) (text : str) (st : state) :
  RecipeScraper.valid_url url = true ->
  result_of (RecipeScraper.fetch_url_content w url) = Ok html ->
  result_of (RecipeScraper.locate_structured_data w html url) = Ok cand ->
  (truthy cand = false
   \/ exists e,
        result_of (SchemaConverter.convert_schema_org_to_internal_recipe w cand url)
          = Raise e) ->
  result_of (RecipeScraper.extract_relevant_text_from_html w html) = Ok text ->
  strip text = [] ->
  fst (RecipeScraper.parse_recipe_from_url w url ui prefs st)
    = Raise RecipeScraper.no_extractable_content
  /\ llm_calls (snd (RecipeScraper.parse_recipe_from_url w url ui prefs st))
     = llm_calls st.
Proof.
  intros Hv Hf Hl Hnone Htext Hblank.
  assert (Hrun : exists st4,
             RecipeScraper.parse_recipe_from_url w url ui prefs st
               = (Raise RecipeScraper.no_extractable_content, st4)
             /\ follows st st4).
  { destruct (parse_after_fetch w url ui prefs html st Hv Hf) as (st1 & F1 & ->).
    unfold bindM at 1.
    destruct (locate_run w html url st1 _ Hl) as (st2 & -> & F2).
    unfold bindM at 1.
    assert (Hsp : exists st3,
               RecipeScraper.structured_path w url ui cand st2 = (Ok None, st3)
               /\ follows st2 st3).
    { destruct (truthy cand) eqn:Ht.
      - destruct Hnone as [Hn|(e & He)]; [discriminate|].
        destruct (structured_path_fallback w url ui cand e st2 Ht He)
          as (st3 & E & F3 & _).
        now exists st3.
      - exists st2. split; [now apply structured_path_no_candidate | apply follows_refl]. }
    destruct Hsp as (st3 & -> & F3).
    destruct (llm_path_blank w url html ui prefs st3 text Htext Hblank) as (st4 & -> & F4).
    exists st4. split; [reflexivity|].
    exact (follows_trans _ _ _ F1 (follows_trans _ _ _ F2 (follows_trans _ _ _ F3 F4))). }
  destruct Hrun as (st4 & -> & F). split; [reflexivity|].
  now apply follows_llm_calls.
Qed.

Lemma blank_text_stops_before_llm_witness :
  fst (RecipeScraper.parse_recipe_from_url
         (sample_world (Ok []) (lit "   ") (Ok (VDict [(lit "title", VStr (lit "Soup"))])))
         sample_url None VNone initial)
    = Raise RecipeScraper.no_extractable_content.
Proof.
  refine (proj1 (blank_text_stops_before_llm
                   (sample_world (Ok []) (lit "   ")
                                 (Ok (VDict [(lit "title", VStr (lit "Soup"))])))
                   sample_url None VNone (lit "<html></html>") VNone [] initial
                   _ _ _ _ _ _));
    try (vm_compute; reflexivity).
  left. reflexivity.
Defined.

End OrchestratorClaims.

Section RecordInvariants.

(** C9, as stated, fails on the fallback path: when the LLM helper answers
    with a mapping that has no ingredients, the record returned has none. *)
Lemma fallback_record_without_ingredients :
  exists record st',
    RecipeScraper.parse_recipe_from_url
      (sample_world (Ok []) (lit "Soup: boil water.")
                    (Ok (VDict [(lit "title", VStr (lit "Soup"))])))
      sample_url None VNone initial = (Ok (VDict record), st')
    /\ dict_lookup (lit "ingredients") record = None
    /\ dict_lookup (lit "instructions") record = None.
Proof.
  eexists. eexists. split; [vm_compute; reflexivity|].
  split; reflexivity.
Qed.

(** C9, amended: on every successful result, from either path, the record
    is a mapping with a truthy [recipeId] and exactly one [source] entry,
    which is the tag of the path taken; on the structured-data path
    [ingredients] and [instructions] are lists.  On the fallback path they
    are whatever the LLM helper returned.  (The mappings the helper returns
    are taken to have distinct keys, as every Python dict has.) *)
Theorem successful_record_invariants
    (w : world) (url : str) (ui : option str) (prefs : pyval)
    (st st' : state) (v : pyval) :
  (forall r d, llm_extract w r = Ok (VDict d) -> unique_keys d) ->
  RecipeScraper.parse_recipe_from_url w url ui prefs st = (Ok v, st') ->
  exists record,
    v = VDict record
    /\ (exists id, dict_lookup (lit "recipeId") record = Some id /\ truthy id = true)
    /\ count_key (lit "source") record = 1
    /\ ((dict_lookup (lit "source") record = Some (VStr (lit "url_import_schema.org"))
         /\ (exists l, dict_lookup (lit "ingredients") record = Some (VList l))
         /\ (exists l, dict_lookup (lit "instructions") record = Some (VList l)))
        \/ dict_lookup (lit "source") record
           = Some (VStr (lit "url_scrape_gemini_fallback"))).
Proof.
  intros Hwf.
  unfold RecipeScraper.parse_recipe_from_url.
  destruct (RecipeScraper.valid_url url); cbn [negb]; [|discriminate].
  unfold bindM at 1.
  destruct (try_except (RecipeScraper.fetch_url_content w url) _ _ st)
    as [[html|e] st1]; [|discriminate].
  unfold bindM at 1.
  destruct (RecipeScraper.locate_structured_data w html url st1)
    as [[cand|e] st2]; [|discriminate].
  unfold bindM at 1.
  destruct (RecipeScraper.structured_path w url ui cand st2)
    as [[[rec|]|e] st3] eqn:Esp; [| |discriminate].
  - unfold ret. intros H; inversion H; subst; clear H.
    destruct (structured_path_record w url ui cand v st2 st' Esp)
      as (record & -> & Hid & Hcount & Hsrc & Hing & Hins).
    exists record. repeat split; auto.
  - intros H.
    destruct (llm_path_success w url html ui prefs st3 st' v H)
      as (text & d & st0 & -> & _ & Hllm & _).
    destruct (finished_fields w url ui d st0) as (Hsrc & _ & Hid & Hcount).
    exists (finished w url ui d st0). repeat split; auto.
    apply Hcount. now apply (Hwf _ _ Hllm).
Qed.

Lemma successful_record_invariants_witness :
  exists record,
    VDict (finished
             (sample_world (Ok []) (lit "Soup: boil water.")
                           (Ok (VDict [(lit "title", VStr (lit "Soup"))])))
             sample_url None [(lit "title", VStr (lit "Soup"))] initial)
      = VDict record
    /\ count_key (lit "source") record = 1.
Proof.
  destruct (successful_record_invariants
              (sample_world (Ok []) (lit "Soup: boil water.")
                            (Ok (VDict [(lit "title", VStr (lit "Soup"))])))
              sample_url None VNone initial
              (snd (RecipeScraper.parse_recipe_from_url
                      (sample_world (Ok []) (lit "Soup: boil water.")
                                    (Ok (VDict [(lit "title", VStr (lit "Soup"))])))
                      sample_url None VNone initial))
              (VDict (finished
                        (sample_world (Ok []) (lit "Soup: boil water.")
                                      (Ok (VDict [(lit "title", VStr (lit "Soup"))])))
                        sample_url None [(lit "title", VStr (lit "Soup"))] initial)))
    as (record & E & _ & Hc & _).
  - intros r d H. inversion H; subst. unfold unique_keys. simpl.
    constructor; [intros [] | constructor].
  - vm_compute. reflexivity.
  - exists record. split; assumption.
Defined.

End RecordInvariants.

Section MoreWitnesses.

Lemma parse_schema_duration_spec_witness :
  ~ has_token 72 (lit "PT30S") /\ ~ has_token 77 (lit "PT30S")
  /\ SchemaConverter.parse_schema_duration (VStr (lit "PT30S")) = Ok VNone.
Proof.
  assert (H72 : ~ has_token 72 (lit "PT30S"))
    by (apply (search_digits_none_iff 72 _ eq_refl); reflexivity).
  assert (H77 : ~ has_token 77 (lit "PT30S"))
    by (apply (search_digits_none_iff 77 _ eq_refl); reflexivity).
  split; [exact H72|]. split; [exact H77|].
  exact (proj2 (proj2 (proj2 (proj2 (proj2 (proj2 parse_schema_duration_spec)))))
           (lit "PT30S") H72 H77).
Defined.

Lemma locate_structured_data_spec_witness :
  fst (RecipeScraper.locate_structured_data
         (sample_world (Ok (sample_structured_data plain_recipe)) []
                       (Ok VNone))
         (lit "<html></html>") sample_url initial)
    = Ok plain_recipe.
Proof.
  refine (proj1 (proj1 locate_structured_data_spec
                   (sample_world (Ok (sample_structured_data plain_recipe)) [] (Ok VNone))
                   (lit "<html></html>") sample_url initial
                   (sample_structured_data plain_recipe) _ eq_refl eq_refl _)
                plain_recipe eq_refl).
  repeat constructor.
Defined.

End MoreWitnesses.

(* ===================================================================== *)
(** ** Further properties of utils.py *)
(* ===================================================================== *)

Section UtilsExtras.

Lemma default_names_trimmed :
  strip Config.DEFAULT_INGREDIENT_NAME = Config.DEFAULT_INGREDIENT_NAME
  /\ strip Config.DEFAULT_UNKNOWN_INGREDIENT = Config.DEFAULT_UNKNOWN_INGREDIENT.
Proof. split; vm_compute; reflexivity. Qed.

(** The shape of every mapping [coerce_to_ingredient] returns. *)
Lemma coerce_to_ingredient_shape (item v : pyval) :
  Utils.coerce_to_ingredient item = Ok v ->
  exists q u n,
    v = Utils.ingredient q u (VStr n)
    /\ (q = VNone \/ exists f, q = VFloat f)
    /\ (u = VNone \/ exists s, u = VStr s /\ s <> [] /\ strip s = s)
    /\ n <> [] /\ strip n = n.
Proof.
  intros H.
  destruct (coercible item) eqn:Hc.
  2:{ destruct (proj2 (coerce_to_ingredient_spec item) Hc) as (e & He & _). congruence. }
  destruct (proj1 (coerce_to_ingredient_spec item) Hc)
    as (q & u & n & E & Hq & Hu & Hn & Hd & Hs & Ho).
  rewrite E in H. inversion H; subst v; clear H.
  exists q, u, n. repeat split; auto.
  destruct default_names_trimmed as [T1 T2].
  destruct item as [| | | |s| |d].
  1-4, 6: destruct (Ho eq_refl eq_refl) as (_ & _ & ->); exact T2.
  - destruct (Hs s eq_refl) as (_ & _ & ->).
    destruct (strip s) as [|c t] eqn:Es; [exact T1|].
    rewrite <- Es. apply strip_idem.
  - rewrite (Hd d eq_refl).
    destruct (offered_name d) as [| | | |s| |]; try exact T1.
    destruct (strip s) as [|c t] eqn:Es; [exact T1|].
    rewrite <- Es. apply strip_idem.
Qed.

Lemma py_or_truthy (a b : pyval) : truthy a = true -> py_or a b = a.
Proof. intros H. unfold py_or. now rewrite H. Qed.

Lemma py_or_falsy (a b : pyval) : truthy a = false -> py_or a b = b.
Proof. intros H. unfold py_or. now rewrite H. Qed.

(** X2: coercing an ingredient that was already coerced changes nothing. *)
Theorem coerce_to_ingredient_idempotent (item v : pyval) :
  Utils.coerce_to_ingredient item = Ok v ->
  Utils.coerce_to_ingredient v = Ok v.
Proof.
  intros H.
  destruct (coerce_to_ingredient_shape item v H)
    as (q & u & n & -> & Hq & Hu & Hn & Hstrip).
  unfold Utils.coerce_to_ingredient, Utils.ingredient.
  change (dict_get (lit "quantity") VNone
            [(lit "quantity", q); (lit "unit", u); (lit "item_name", VStr n)]) with q.
  change (dict_get (lit "unit") VNone
            [(lit "quantity", q); (lit "unit", u); (lit "item_name", VStr n)]) with u.
  change (dict_get (lit "item_name") VNone
            [(lit "quantity", q); (lit "unit", u); (lit "item_name", VStr n)])
    with (VStr n).
  assert (Ht : truthy (VStr n) = true) by now apply truthy_str.
  assert (Eq : Utils.coerce_quantity q = Ok q).
  { destruct Hq as [->|(f & ->)]; reflexivity. }
  rewrite Eq. cbn [bind].
  rewrite (py_or_truthy (VStr n)) by assumption.
  rewrite (py_or_truthy (VStr n)) by assumption.
  cbn [Utils.py_strip bind]. rewrite Hstrip.
  rewrite (py_or_truthy (VStr n)) by assumption.
  destruct Hu as [->|(s & -> & Hs & Ess)]; [reflexivity|].
  rewrite Ess. rewrite py_or_truthy; [reflexivity|]. now apply truthy_str.
Qed.

Lemma coerce_to_ingredient_idempotent_witness :
  Utils.coerce_to_ingredient
    (Utils.ingredient VNone VNone (VStr (lit "salt")))
  = Ok (Utils.ingredient VNone VNone (VStr (lit "salt"))).
Proof.
  apply (coerce_to_ingredient_idempotent (VStr (lit " salt "))).
  vm_compute. reflexivity.
Defined.

Lemma in_dropwhile (p : N -> bool) (x : N) (s : str) :
  In x (dropwhile p s) -> In x s.
Proof.
  induction s as [|c s IH]; cbn [dropwhile]; [auto|].
  destruct (p c); [intros H; right; now apply IH | auto].
Qed.

Lemma in_strip (x : N) (s : str) : In x (strip s) -> In x s.
Proof.
  unfold strip, rstrip, lstrip. intros H.
  apply in_rev in H. apply in_dropwhile in H. apply in_rev in H.
  now apply in_dropwhile in H.
Qed.

Lemma no_backtick_no_fence (s : str) :
  ~ In 96%N s -> startswith Re.backticks s = false.
Proof.
  intros H. destruct s as [|c s]; [reflexivity|].
  cbn. destruct c as [|p]; [reflexivity|].
  destruct (Pos.eqb 96 p) eqn:E; [|reflexivity].
  apply Pos.eqb_eq in E. subst p. exfalso. apply H. now left.
Qed.

Lemma fence_match_none (bol : bool) (s : str) :
  ~ In 96%N s -> Re.fence_match_len bol s = None.
Proof.
  intros H. unfold Re.fence_match_len, Re.fence_open_len, Re.fence_close_len.
  rewrite (no_backtick_no_fence s H).
  rewrite no_backtick_no_fence.
  - now destruct bol.
  - intros Hin. apply H. now apply (in_dropwhile isspace).
Qed.

Lemma sub_fences_no_backtick (bol : bool) (s : str) :
  ~ In 96%N s -> Re.sub_fences_from bol 0 s = s.
Proof.
  revert bol; induction s as [|c s IH]; intros bol H; [reflexivity|].
  cbn [Re.sub_fences_from]. rewrite (fence_match_none bol (c :: s) H).
  f_equal. apply IH. intros Hin. apply H. now right.
Qed.

(** X4: a text without a backtick is only trimmed before it is parsed. *)
Theorem strip_fences_without_backticks (raw : str) :
  ~ In 96%N raw -> Utils.strip_fences raw = strip raw.
Proof.
  intros H. unfold Utils.strip_fences, Re.sub_fences.
  now rewrite sub_fences_no_backtick.
Qed.

Lemma strip_fences_without_backticks_witness :
  Utils.strip_fences (lit "  [1, 2] ") = strip (lit "  [1, 2] ").
Proof.
  apply strip_fences_without_backticks.
  vm_compute. intuition discriminate.
Defined.

End UtilsExtras.

(* ===================================================================== *)
(** ** Further properties of schema_converter.py *)
(* ===================================================================== *)

Section ConverterExtras.

(** A token is shorter than the text it is found in. *)
Lemma token_shorter (x : N) (s g : str) :
  Re.search_digits_before x s = Some g -> List.length g < List.length s.
Proof.
  intros H. destruct (search_digits_sound x s g H) as (_ & _ & pre & post & ->).
  rewrite !length_app. cbn [List.length]. lia.
Qed.

(** X5: the domain of [parse_schema_duration].  It raises on the truthy
    values that are not strings (a number of minutes, a list, a mapping),
    with [AttributeError], and on the strings that begin with PT and whose
    hours token or minutes token has more than 4300 digits, with the
    [ValueError] of [int]; on every other value it returns None or a
    non-empty string.  A string of at most 4300 characters is never of the
    second kind. *)
Theorem parse_schema_duration_domain (v : pyval) :
  (duration_shaped v = true -> duration_within_limit v = true ->
   exists r, SchemaConverter.parse_schema_duration v = Ok r
             /\ (r = VNone \/ exists t, r = VStr t /\ t <> []))
  /\ (duration_shaped v = false ->
      SchemaConverter.parse_schema_duration v
        = Raise (mkExn AttributeError
                   (lit "'" ++ type_name v
                        ++ lit "' object has no attribute 'startswith'")))
  /\ (duration_shaped v = true -> duration_within_limit v = false ->
      exists e, SchemaConverter.parse_schema_duration v = Raise e
                /\ exn_cls e = ValueError)
  /\ (forall s, v = VStr s -> (N.of_nat (List.length s) <= 4300)%N ->
                duration_within_limit v = true).
Proof.
  split; [|split; [|split]].
  - intros Hs Hw. apply duration_ok_returns. unfold duration_ok. now rewrite Hs, Hw.
  - intros H. now rewrite (duration_misshaped v H).
  - apply duration_beyond_limit.
  - intros s -> Hlen. unfold duration_within_limit, token_within_limit.
    assert (Htok : forall x g, Re.search_digits_before x s = Some g ->
                               (N.of_nat (List.length g) <=? int_max_str_digits)%N = true).
    { intros x g Hg. apply N.leb_le. apply token_shorter in Hg.
      unfold int_max_str_digits. lia. }
    destruct (negb (startswith (lit "PT") s)); [reflexivity|]. cbn [orb].
    destruct (Re.search_digits_before 72 s) as [gh|] eqn:Eh;
      destruct (Re.search_digits_before 77 s) as [gm|] eqn:Em;
      rewrite ?(Htok _ _ Eh), ?(Htok _ _ Em); reflexivity.
Qed.

Lemma parse_schema_duration_domain_witness :
  exists e,
    SchemaConverter.parse_schema_duration
      (VStr (lit "PT" ++ repeat 49%N (N.to_nat 4301) ++ lit "H")) = Raise e
    /\ exn_cls e = ValueError.
Proof.
  refine (proj1 (proj2 (proj2 (parse_schema_duration_domain
                                 (VStr (lit "PT" ++ repeat 49%N (N.to_nat 4301)
                                          ++ lit "H"))))) _ _).
  - reflexivity.
  - vm_compute. reflexivity.
Defined.

Lemma split_pieces_no_dot (cur s : str) :
  ~ In 46%N cur ->
  Forall (fun p => ~ In 46%N p) (split_from [46%N] 0 cur s).
Proof.
  revert cur; induction s as [|c s IH]; intros cur Hcur; cbn [split_from].
  - constructor; [|constructor]. intros Hin. apply in_rev in Hin. contradiction.
  - cbn [startswith]. destruct (N.eqb 46 c) eqn:E; cbn [andb List.length Nat.sub].
    + constructor.
      * intros Hin. apply in_rev in Hin. contradiction.
      * apply IH. intros [].
    + apply IH. intros [Hc|Hin]; [|contradiction].
      apply N.eqb_neq in E. congruence.
Qed.

(** X6: a single instruction string is cut at the periods into its
    sentences: every resulting instruction is a non-empty, trimmed string
    without a period. *)
Theorem sentences_are_clean (raw_instr : str) :
  exists l,
    SchemaConverter.instructions_of (VStr raw_instr) = Ok l
    /\ forall v, In v l ->
                 exists t, v = VStr t /\ t <> [] /\ strip t = t /\ ~ In 46%N t.
Proof.
  eexists. split; [reflexivity|].
  unfold SchemaConverter.sentences.
  intros v H. apply in_flat_map in H as (piece & Hpiece & Hv).
  destruct (strip piece) as [|c t] eqn:Es; [contradiction|].
  destruct Hv as [<-|[]].
  exists (c :: t). split; [reflexivity|]. split; [discriminate|]. split.
  - rewrite <- Es. apply strip_idem.
  - intros Hin. rewrite <- Es in Hin. apply in_strip in Hin.
    pose proof (split_pieces_no_dot [] raw_instr (fun f => f)) as Hall.
    rewrite Forall_forall in Hall. exact (Hall piece Hpiece Hin).
Qed.

Lemma sentences_are_clean_witness :
  exists t, VStr (lit "Serve hot") = VStr t /\ t <> [].
Proof.
  destruct (sentences_are_clean (lit "Boil. Serve hot.  ")) as (l & E & H).
  vm_compute in E. injection E as <-.
  destruct (H (VStr (lit "Serve hot"))) as (t & Et & Hne & _).
  - vm_compute. right. left. reflexivity.
  - exists t. split; assumption.
Defined.

(** X7: the ingredients follow [recipeIngredient] item by item, in order
    and without merging duplicates: a list gives one ingredient per element,
    named by [str] of the element; a single string gives one ingredient per
    character; a missing key gives none. *)
Theorem ingredients_follow_source (w : world) (d : dict) (url : str) (st : state) :
  convertible d = true ->
  exists record,
    fst (SchemaConverter.convert_schema_org_to_internal_recipe w (VDict d) url st)
      = Ok (VDict record)
    /\ (forall l,
          dict_lookup (lit "recipeIngredient") d = Some (VList l) ->
          dict_lookup (lit "ingredients") record
            = Some (VList (map (fun ing =>
                                  VDict [(lit "quantity", VNone); (lit "unit", VNone);
                                         (lit "item_name", VStr (py_str ing))]) l)))
    /\ (forall s,
          dict_lookup (lit "recipeIngredient") d = Some (VStr s) ->
          dict_lookup (lit "ingredients") record
            = Some (VList (map (fun c =>
                                  VDict [(lit "quantity", VNone); (lit "unit", VNone);
                                         (lit "item_name", VStr [c])]) s)))
    /\ (dict_lookup (lit "recipeIngredient") d = None ->
        dict_lookup (lit "ingredients") record = Some (VList [])).
Proof.
  intros Hc.
  destruct (convert_convertible w d url st Hc)
    as (pt & ct & tt' & ings & instrs & img & _ & _ & _ & Hi & _ & E).
  rewrite E. eexists. split; [reflexivity|].
  change (dict_lookup (lit "ingredients") _)
    with (Some (VList (map (fun ing =>
                              VDict [(lit "quantity", VNone); (lit "unit", VNone);
                                     (lit "item_name", VStr (py_str ing))]) ings))).
  unfold dict_get in Hi.
  repeat split.
  - intros l Hl. rewrite Hl in Hi. cbn [py_iter] in Hi. inversion Hi; subst. reflexivity.
  - intros s Hs. rewrite Hs in Hi. cbn [py_iter] in Hi. inversion Hi; subst.
    rewrite map_map. reflexivity.
  - intros Hn. rewrite Hn in Hi. cbn [py_iter] in Hi. inversion Hi; subst. reflexivity.
Qed.

Lemma ingredients_follow_source_witness :
  exists record,
    fst (SchemaConverter.convert_schema_org_to_internal_recipe
           (sample_world (Ok []) [] (Ok VNone))
           (VDict [(lit "recipeIngredient", VStr (lit "egg"))]) sample_url initial)
      = Ok (VDict record)
    /\ dict_lookup (lit "ingredients") record
       = Some (VList (map (fun c =>
                             VDict [(lit "quantity", VNone); (lit "unit", VNone);
                                    (lit "item_name", VStr [c])]) (lit "egg"))).
Proof.
  destruct (ingredients_follow_source (sample_world (Ok []) [] (Ok VNone))
              [(lit "recipeIngredient", VStr (lit "egg"))] sample_url initial eq_refl)
    as (record & E & _ & Hs & _).
  exists record. split; [exact E|]. apply Hs. reflexivity.
Defined.

End ConverterExtras.

(* ===================================================================== *)
(** ** Further properties of recipe_scraper.py: fetching and text *)
(* ===================================================================== *)

Section FetchExtras.

Lemma contains_app_r (sub pre s : str) :
  contains sub s = true -> contains sub (pre ++ s) = true.
Proof.
  intros H. induction pre as [|c pre IH]; [exact H|].
  cbn [app contains]. rewrite IH. apply orb_true_r.
Qed.

Lemma startswith_app (p s : str) : startswith p (p ++ s) = true.
Proof.
  induction p as [|c p IH]; [reflexivity|].
  cbn [app startswith]. now rewrite N.eqb_refl, IH.
Qed.

Lemma contains_middle (sub pre post : str) : contains sub (pre ++ sub ++ post) = true.
Proof.
  apply contains_app_r. destruct (sub ++ post) eqn:E.
  - destruct sub; [reflexivity | discriminate].
  - rewrite <- E. cbn [contains]. unfold contains.
    destruct (sub ++ post) eqn:E'; [discriminate|].
    rewrite <- E'. now rewrite startswith_app.
Qed.

(** X8: the outcomes of [fetch_url_content].  It returns the page exactly
    when the exchange gave a response with a good status: the UTF-8
    decoding of its body when there is one, the text in the detected
    encoding otherwise.  A time-out, an error status and any other
    [RequestException] are raised as a [ConnectionError] whose message
    names the address.  An exception of [requests.get] that is no
    [RequestException] is caught by no clause: it escapes as it is, after
    the request and with nothing printed. *)
Theorem fetch_url_content_outcomes (w : world) (url : str) (st : state) :
  match http_get w url with
  | HttpResponse utf8 text _ _ =>
      fst (RecipeScraper.fetch_url_content w url st)
        = Ok match utf8 with Some content => content | None => text end
  | HttpRaised e =>
      RecipeScraper.fetch_url_content w url st
        = (Raise e, mkState (trace st ++ [Requested url]) (draws st))
  | _ =>
      exists msg,
        fst (RecipeScraper.fetch_url_content w url st)
          = Raise (mkExn ConnectionError msg)
        /\ contains url msg = true
  end.
Proof.
  unfold RecipeScraper.fetch_url_content, bindM, emit, print, emit, raise, ret.
  destruct (http_get w url)
    as [|status description|name description|e|utf8 text enc final];
    cbn [fst snd].
  - eexists. split; [reflexivity|]. apply contains_middle.
  - eexists. split; [reflexivity|]. apply contains_middle.
  - eexists. split; [reflexivity|]. apply contains_middle.
  - reflexivity.
  - destruct utf8; reflexivity.
Qed.

(** What the fetch raises is a [ConnectionError] of its own or the
    exception that escaped [requests.get]. *)
Lemma fetch_raises (w : world) (url : str) (st : state) (e : exn) :
  fst (RecipeScraper.fetch_url_content w url st) = Raise e ->
  exn_cls e = ConnectionError \/ http_get w url = HttpRaised e.
Proof.
  unfold RecipeScraper.fetch_url_content, bindM, emit, print, emit, raise, ret.
  destruct (http_get w url)
    as [|status description|name description|e'|utf8 text enc final];
    cbn [fst snd]; try (intros H; inversion H; left; reflexivity).
  - intros H; inversion H; subst. now right.
  - destruct utf8; discriminate.
Qed.

End FetchExtras.

Section TextExtras.

Lemma space_runs_inside (s : str) :
  Re.sub_space_runs_from true s = Re.sub_space_runs_from false (dropwhile isspace s).
Proof.
  induction s as [|c t IH]; [reflexivity|].
  cbn [Re.sub_space_runs_from dropwhile].
  destruct (isspace c) eqn:E; [exact IH|].
  cbn [Re.sub_space_runs_from]. now rewrite E.
Qed.

Lemma has_space_run_cons (c : N) (s : str) :
  head_nonspace s = true -> has_space_run (c :: s) = has_space_run s.
Proof.
  destruct s as [|d s]; [reflexivity|].
  cbn [head_nonspace]. intros H. apply negb_true_iff in H.
  change (has_space_run (c :: d :: s))
    with ((isspace c && isspace d) || has_space_run (d :: s)).
  now rewrite H, andb_false_r.
Qed.

Lemma has_space_run_cons_nonspace (c : N) (s : str) :
  isspace c = false -> has_space_run (c :: s) = has_space_run s.
Proof.
  intros H. destruct s as [|d s]; [reflexivity|].
  change (has_space_run (c :: d :: s))
    with ((isspace c && isspace d) || has_space_run (d :: s)).
  now rewrite H.
Qed.

Lemma space_runs_collapsed (s : str) :
  has_space_run (Re.sub_space_runs_from false s) = false
  /\ has_space_run (Re.sub_space_runs_from true s) = false
  /\ head_nonspace (Re.sub_space_runs_from true s) = true.
Proof.
  induction s as [|c t (IHf & IHt & IHh)]; [repeat split|].
  cbn [Re.sub_space_runs_from].
  destruct (isspace c) eqn:Ec.
  - split; [|split; assumption].
    destruct t as [|d t']; [reflexivity|].
    destruct (isspace d) eqn:Ed.
    + now rewrite has_space_run_cons.
    + cbn [Re.sub_space_runs_from] in IHf |- *. rewrite Ed in IHf |- *.
      rewrite has_space_run_cons; [assumption|].
      cbn [head_nonspace]. now rewrite Ed.
  - split; [|split].
    + now rewrite has_space_run_cons_nonspace.
    + now rewrite has_space_run_cons_nonspace.
    + cbn [head_nonspace]. now rewrite Ec.
Qed.

Lemma space_runs_head (s : str) :
  head_nonspace s = true -> head_nonspace (Re.sub_space_runs s) = true.
Proof.
  destruct s as [|c t]; [reflexivity|].
  cbn [head_nonspace]. intros H. apply negb_true_iff in H.
  unfold Re.sub_space_runs. cbn [Re.sub_space_runs_from]. rewrite H.
  cbn [head_nonspace]. now rewrite H.
Qed.

Lemma strip_head (s : str) : head_nonspace (strip s) = true.
Proof.
  unfold strip. destruct (lstrip s) as [|h t] eqn:E; [reflexivity|].
  assert (Hh : isspace h = false) by (eapply dropwhile_head; exact E).
  rewrite rstrip_cons by assumption. cbn [head_nonspace]. now rewrite Hh.
Qed.

Lemma has_space_run_firstn (n : nat) (s : str) :
  has_space_run s = false -> has_space_run (firstn n s) = false.
Proof.
  revert s; induction n as [|n IH]; intros s H; [reflexivity|].
  destruct s as [|c [|d t]]; [reflexivity | now destruct n |].
  change (has_space_run (c :: d :: t))
    with ((isspace c && isspace d) || has_space_run (d :: t)) in H.
  apply orb_false_iff in H as [H1 H2].
  specialize (IH (d :: t) H2).
  destruct n as [|n]; [reflexivity|].
  change (firstn (S (S n)) (c :: d :: t)) with (c :: firstn (S n) (d :: t)).
  change (firstn (S n) (d :: t)) with (d :: firstn n t) in IH |- *.
  change (has_space_run (c :: d :: firstn n t))
    with ((isspace c && isspace d) || has_space_run (d :: firstn n t)).
  now rewrite H1, IH.
Qed.

Lemma head_nonspace_firstn (n : nat) (s : str) :
  head_nonspace s = true -> head_nonspace (firstn n s) = true.
Proof. destruct n, s; auto. Qed.

Lemma head_nonspace_strip (s : str) :
  head_nonspace s = true -> (strip s = [] <-> s = []).
Proof.
  destruct s as [|c t]; [intros _; split; reflexivity|].
  cbn [head_nonspace]. intros H. apply negb_true_iff in H.
  split; [|discriminate].
  unfold strip. rewrite lstrip_fixed by (simpl; assumption).
  rewrite rstrip_cons by assumption. discriminate.
Qed.

(** The cleaned text: no two white-space characters in a row, and no
    white space in front. *)
Lemma clean_text_shape (full_text : str) :
  has_space_run (RecipeScraper.clean_text full_text) = false
  /\ head_nonspace (RecipeScraper.clean_text full_text) = true.
Proof.
  unfold RecipeScraper.clean_text. split.
  - apply space_runs_collapsed.
  - apply space_runs_head, strip_head.
Qed.

Lemma Ok_inj {A} (a b : A) : Ok a = Ok b -> a = b.
Proof. intros H. now inversion H. Qed.

(** The text the extractor returns is the cleaned text, cut at 75000
    characters. *)
Lemma extract_text_result (w : world) (html : str) (st : state) (text : str) :
  fst (RecipeScraper.extract_relevant_text_from_html w html st) = Ok text ->
  exists full_text,
    text = firstn RecipeScraper.max_length_for_llm (RecipeScraper.clean_text full_text).
Proof.
  unfold RecipeScraper.extract_relevant_text_from_html.
  destruct html as [|c html].
  { intros H. apply Ok_inj in H. exists []. now subst text. }
  unfold bindM, lift.
  destruct (soup_parse w (c :: html)) as [[]|e]; [|discriminate].
  destruct (RecipeScraper.select_main_content w (c :: html)
              RecipeScraper.main_content_selectors st) as [[sel|e] st1];
    [|discriminate].
  destruct sel as [|t sel].
  - unfold print, emit, ret. cbn [fst snd].
    match goal with
    | |- context [(?a <? ?b)%nat] => destruct (a <? b)%nat eqn:El
    end; cbn [fst snd]; intros H; apply Ok_inj in H;
      (eexists; rewrite <- H; try reflexivity).
    apply Nat.ltb_ge in El. now rewrite firstn_all2.
  - unfold print, emit, ret. cbn [fst snd].
    match goal with
    | |- context [(?a <? ?b)%nat] => destruct (a <? b)%nat eqn:El
    end; cbn [fst snd]; intros H; apply Ok_inj in H;
      (eexists; rewrite <- H; try reflexivity).
    apply Nat.ltb_ge in El. now rewrite firstn_all2.
Qed.

(** X9: the outcomes of [extract_relevant_text_from_html].  An empty page
    gives the empty text and is not parsed.  Otherwise the page goes to the
    HTML parser, outside any [try]: what the parser raises escapes as it
    is, and nothing else is raised.  A text that is returned has at most
    75000 characters, no two white-space characters in a row and no white
    space in front: so it is blank only when it is empty. *)
Theorem extracted_text_shape (w : world) (html : str) (st : state) :
  match fst (RecipeScraper.extract_relevant_text_from_html w html st) with
  | Ok text =>
      (html = [] \/ soup_parse w html = Ok tt)
      /\ List.length text <= N.to_nat 75000
      /\ has_space_run text = false
      /\ (strip text = [] <-> text = [])
  | Raise e => html <> [] /\ soup_parse w html = Raise e
  end.
Proof.
  pose proof (extract_text_outcome w html st) as Ho.
  pose proof (extract_text_result w html st) as Hr.
  destruct (fst (RecipeScraper.extract_relevant_text_from_html w html st))
    as [text|e]; [|exact Ho].
  split; [exact Ho|].
  destruct (Hr text eq_refl) as (full & ->).
  destruct (clean_text_shape full) as [Hrun Hhead].
  split; [|split].
  - rewrite length_firstn. apply Nat.le_min_l.
  - now apply has_space_run_firstn.
  - apply head_nonspace_strip. now apply head_nonspace_firstn.
Qed.

(** X10: the loop over the selectors stops at the first selector that
    finds elements: it returns the texts of those elements, prints one line
    naming that selector, and never consults the later ones. *)
Theorem first_matching_selector
    (w : world) (html : str) (pre : list str) (selector : str) (post : list str)
    (st : state) :
  Forall (fun s => soup_select w html s = []) pre ->
  soup_select w html selector <> [] ->
  RecipeScraper.select_main_content w html (pre ++ selector :: post) st
    = (Ok (soup_select w html selector),
       mkState (trace st ++ [Printed (lit "Found elements with selector: " ++ selector)])
               (draws st)).
Proof.
  intros Hpre Hsel. induction Hpre as [|s pre Hs _ IH];
    cbn [app RecipeScraper.select_main_content].
  - destruct (soup_select w html selector); [contradiction | reflexivity].
  - now rewrite Hs.
Qed.

Lemma first_matching_selector_witness :
  fst (RecipeScraper.select_main_content
         (sample_world (Ok []) (lit "Soup") (Ok VNone)) (lit "<html></html>")
         RecipeScraper.main_content_selectors initial)
    = Ok [lit "Soup"].
Proof.
  pose proof (first_matching_selector
                (sample_world (Ok []) (lit "Soup") (Ok VNone)) (lit "<html></html>")
                (firstn 8 RecipeScraper.main_content_selectors) (lit "main")
                (skipn 9 RecipeScraper.main_content_selectors) initial) as H.
  change (firstn 8 RecipeScraper.main_content_selectors ++ lit "main"
            :: skipn 9 RecipeScraper.main_content_selectors)
    with RecipeScraper.main_content_selectors in H.
  rewrite H; [reflexivity | repeat constructor | discriminate].
Defined.

End TextExtras.

(* ===================================================================== *)
(** ** Further properties of recipe_scraper.py: the orchestrator *)
(* ===================================================================== *)

Section Printing.

Lemma prints_only_refl (st : state) : prints_only st st.
Proof. exists []. cbn [map]. now rewrite app_nil_r. Qed.

Lemma prints_only_trans (a b c : state) :
  prints_only a b -> prints_only b c -> prints_only a c.
Proof.
  intros (l1 & E1) (l2 & E2). exists (l1 ++ l2).
  now rewrite E2, E1, map_app, app_assoc.
Qed.

Lemma printing_ret {A} (a : A) : printing (ret a).
Proof. intros st. apply prints_only_refl. Qed.

Lemma printing_raise {A} (e : exn) : printing (@raise A e).
Proof. intros st. apply prints_only_refl. Qed.

Lemma printing_lift {A} (r : result A) : printing (lift r).
Proof. intros st. apply prints_only_refl. Qed.

Lemma printing_print (l : str) : printing (print l).
Proof. intros st. exists [l]. reflexivity. Qed.

Lemma printing_draw (w : world) : printing (draw w).
Proof. intros st. exists []. cbn [draw snd trace map]. now rewrite app_nil_r. Qed.

Lemma printing_bind {A B} (m : M A) (k : A -> M B) :
  printing m -> (forall a, printing (k a)) -> printing (bindM m k).
Proof.
  intros Hm Hk st. unfold bindM. specialize (Hm st).
  destruct (m st) as [[a|e] st1]; cbn [snd] in *.
  - eapply prints_only_trans; [exact Hm | apply Hk].
  - exact Hm.
Qed.

Lemma printing_dispatch {A} (clauses : list ((exn -> bool) * (exn -> M A))) (e : exn) :
  Forall (fun c => forall e, printing (snd c e)) clauses -> printing (dispatch clauses e).
Proof.
  induction 1 as [|[p h] rest Hc _ IH]; cbn [dispatch].
  - apply printing_raise.
  - destruct (p e); [apply Hc | exact IH].
Qed.

Lemma printing_try_clauses {A} (m : M A)
    (clauses : list ((exn -> bool) * (exn -> M A))) :
  printing m -> Forall (fun c => forall e, printing (snd c e)) clauses ->
  printing (try_clauses m clauses).
Proof.
  intros Hm Hc st. unfold try_clauses. specialize (Hm st).
  destruct (m st) as [[a|e] st1]; cbn [snd] in *.
  - exact Hm.
  - eapply prints_only_trans; [exact Hm | now apply printing_dispatch].
Qed.

Lemma printing_try_except {A} (m : M A) (p : exn -> bool) (h : exn -> M A) :
  printing m -> (forall e, printing (h e)) -> printing (try_except m p h).
Proof.
  intros Hm Hh. apply printing_try_clauses; [assumption|].
  constructor; [exact Hh | constructor].
Qed.

End Printing.

Ltac printing_step :=
  match goal with
  | |- printing (bindM _ _) => apply printing_bind; [|intros ?]
  | |- printing (ret _) => apply printing_ret
  | |- printing (raise _) => apply printing_raise
  | |- printing (lift _) => apply printing_lift
  | |- printing (print _) => apply printing_print
  | |- printing (draw _) => apply printing_draw
  | |- printing (try_except _ _ _) => apply printing_try_except; [|intros ?]
  | |- printing (let _ := _ in _) => cbv zeta
  | |- printing (match ?x with _ => _ end) => destruct x
  end.

Section PrintingStages.

Lemma select_printing (w : world) (html : str) (selectors : list str) :
  printing (RecipeScraper.select_main_content w html selectors).
Proof.
  induction selectors as [|s rest IH]; cbn [RecipeScraper.select_main_content].
  - apply printing_ret.
  - destruct (soup_select w html s); [exact IH | repeat printing_step].
Qed.

Lemma extract_text_printing (w : world) (html : str) :
  printing (RecipeScraper.extract_relevant_text_from_html w html).
Proof.
  unfold RecipeScraper.extract_relevant_text_from_html.
  destruct html; [apply printing_ret|].
  apply printing_bind; [apply printing_lift | intros _].
  apply printing_bind; [apply select_printing | intros sel].
  repeat printing_step.
Qed.

Lemma locate_printing (w : world) (html url : str) :
  printing (RecipeScraper.locate_structured_data w html url).
Proof. unfold RecipeScraper.locate_structured_data. repeat printing_step. Qed.

Lemma convert_printing (w : world) (data : pyval) (url : str) :
  printing (SchemaConverter.convert_schema_org_to_internal_recipe w data url).
Proof.
  unfold SchemaConverter.convert_schema_org_to_internal_recipe. repeat printing_step.
Qed.

Lemma structured_path_printing (w : world) (url : str) (ui : option str) (cand : pyval) :
  printing (RecipeScraper.structured_path w url ui cand).
Proof.
  unfold RecipeScraper.structured_path.
  destruct (truthy cand); [|apply printing_ret].
  apply printing_try_except.
  - apply printing_bind; [apply convert_printing | intros d]. repeat printing_step.
  - intros e. repeat printing_step.
Qed.

Lemma finish_printing (w : world) (url : str) (ui : option str) (v : pyval) :
  printing (RecipeScraper.finish_llm_recipe w url ui v).
Proof. unfold RecipeScraper.finish_llm_recipe. repeat printing_step. Qed.

(** An event, then a computation that only prints. *)
Lemma emit_then_printing {A} (e : event) (m : M A) (st : state) :
  printing m ->
  exists lines,
    trace (snd (bindM (emit e) (fun _ => m) st)) = trace st ++ e :: map Printed lines.
Proof.
  intros H. unfold bindM, emit.
  destruct (H (mkState (trace st ++ [e]) (draws st))) as (lines & E).
  exists lines. rewrite E. cbn [trace]. now rewrite <- app_assoc.
Qed.

Lemma fetch_trace (w : world) (url : str) (st : state) :
  exists lines,
    trace (snd (RecipeScraper.fetch_url_content w url st))
      = trace st ++ Requested url :: map Printed lines.
Proof.
  unfold RecipeScraper.fetch_url_content. apply emit_then_printing.
  repeat printing_step.
Qed.

Lemma guarded_fetch_trace (w : world) (url : str) (p : exn -> bool)
    (h : exn -> M str) (st : state) :
  (forall e, printing (h e)) ->
  exists lines,
    trace (snd (try_except (RecipeScraper.fetch_url_content w url) p h st))
      = trace st ++ Requested url :: map Printed lines.
Proof.
  intros Hh. unfold try_except, try_clauses.
  destruct (fetch_trace w url st) as (l1 & E1).
  destruct (RecipeScraper.fetch_url_content w url st) as [[html|e] st1]; cbn [snd] in *.
  - now exists l1.
  - cbn [dispatch].
    assert (Hd : printing (if p e then h e else raise e))
      by (destruct (p e); [apply Hh | apply printing_raise]).
    destruct (Hd st1) as (l2 & E2).
    exists (l1 ++ l2). rewrite E2, E1, map_app, <- app_assoc. reflexivity.
Qed.

(** The call of the LLM helper with its post-processing and handlers: one
    call, then printed lines. *)
Lemma llm_call_events (w : world) (url : str) (ui : option str)
    (r : llm_request) (clauses : list ((exn -> bool) * (exn -> M pyval)))
    (st : state) :
  Forall (fun c => forall e, printing (snd c e)) clauses ->
  exists lines,
    trace (snd (try_clauses
                  (recipe_from_gemini <--
                     RecipeScraper.extract_recipe_from_text_content_for_url_scrape w r ;;
                   RecipeScraper.finish_llm_recipe w url ui recipe_from_gemini)
                  clauses st))
      = trace st ++ LLMCalled r :: map Printed lines.
Proof.
  intros Hc.
  unfold try_clauses, RecipeScraper.extract_recipe_from_text_content_for_url_scrape.
  unfold bindM, emit, lift. cbn [fst snd].
  destruct (llm_extract w r) as [answer|e].
  - match goal with
    | |- context [RecipeScraper.finish_llm_recipe w url ui answer ?s] =>
        destruct (finish_printing w url ui answer s) as (l & Hl);
        destruct (RecipeScraper.finish_llm_recipe w url ui answer s) as [[v|e] st2]
    end; cbn [snd trace] in *.
    + exists l. rewrite Hl. now rewrite <- app_assoc.
    + destruct (printing_dispatch clauses e Hc st2) as (l2 & Hl2).
      exists (l ++ l2). rewrite Hl2, Hl, map_app, <- !app_assoc. reflexivity.
  - match goal with
    | |- context [dispatch clauses e ?s] =>
        destruct (printing_dispatch clauses e Hc s) as (l2 & Hl2)
    end.
    exists l2. rewrite Hl2. cbn [trace]. now rewrite <- app_assoc.
Qed.

Lemma extract_text_bounded (w : world) (html : str) (st : state) (text : str) :
  fst (RecipeScraper.extract_relevant_text_from_html w html st) = Ok text ->
  List.length text <= RecipeScraper.max_length_for_llm.
Proof.
  intros H. destruct (extract_text_result w html st text H) as (full & ->).
  rewrite length_firstn. apply Nat.le_min_l.
Qed.

(** The events of the fallback path: printed lines, then at most one call
    of the LLM helper, on a text that is not blank. *)
Lemma llm_path_events (w : world) (url html : str) (ui : option str) (prefs : pyval)
    (st final : state) :
  snd (RecipeScraper.llm_path w url html ui prefs st) = final ->
  exists lines,
    trace final = trace st ++ map Printed lines
    \/ exists text lines',
         trace final
           = trace st ++ map Printed lines
               ++ LLMCalled (mkRequest text ui prefs url) :: map Printed lines'
         /\ strip text <> []
         /\ List.length text <= RecipeScraper.max_length_for_llm.
Proof.
  unfold RecipeScraper.llm_path.
  unfold bindM at 1. unfold print at 1, emit at 1. cbn [fst snd].
  unfold bindM at 1.
  match goal with
  | |- context [RecipeScraper.extract_relevant_text_from_html w html ?s] =>
      destruct (extract_text_printing w html s) as (l1 & E1);
      pose proof (extract_text_bounded w html s) as Hb;
      destruct (RecipeScraper.extract_relevant_text_from_html w html s)
        as [[text|e] st1]
  end; cbn [fst snd trace] in *.
  - specialize (Hb text eq_refl).
    destruct (strip text) as [|c t] eqn:Es.
    + unfold bindM, print, emit, raise. cbn [fst snd trace]. intros <-.
      eexists (_ :: l1 ++ [_]). left. cbn [trace].
      rewrite E1. cbn [map]. rewrite map_app, <- !app_assoc. reflexivity.
    + match goal with
      | |- context [try_clauses _ ?cl] =>
          destruct (llm_call_events w url ui (mkRequest text ui prefs url) cl st1)
            as (l2 & E2)
      end.
      { repeat constructor; intros e; cbn [snd]; repeat printing_step. }
      intros <-.
      eexists (_ :: l1). right. exists text, l2.
      split; [|split; [rewrite Es; discriminate | exact Hb]].
      rewrite E2, E1. cbn [map]. rewrite <- !app_assoc. reflexivity.
  - intros <-. eexists (_ :: l1). left. rewrite E1. cbn [map].
    now rewrite <- app_assoc.
Qed.

Lemma structured_path_total (w : world) (url : str) (ui : option str)
    (cand : pyval) (st : state) :
  exists o, fst (RecipeScraper.structured_path w url ui cand st) = Ok o.
Proof.
  unfold RecipeScraper.structured_path.
  destruct (truthy cand); [|eexists; reflexivity].
  unfold try_except, try_clauses.
  match goal with
  | |- context [match ?m st with _ => _ end] => destruct (m st) as [[v|e] st']
  end.
  - eexists; reflexivity.
  - eexists; reflexivity.
Qed.

(** What the fallback path raises passes the handlers of the call of the
    LLM helper, or is what the HTML parser raised. *)
Lemma llm_path_failures (w : world) (url html : str) (ui : option str) (prefs : pyval)
    (st : state) (e : exn) :
  fst (RecipeScraper.llm_path w url html ui prefs st) = Raise e ->
  passes_through e = true \/ soup_parse w html = Raise e.
Proof.
  unfold RecipeScraper.llm_path.
  unfold bindM at 1. unfold print at 1, emit at 1. cbn [fst snd].
  unfold bindM at 1.
  match goal with
  | |- context [RecipeScraper.extract_relevant_text_from_html w html ?s] =>
      pose proof (extract_text_outcome w html s) as Ho;
      destruct (RecipeScraper.extract_relevant_text_from_html w html s)
        as [[t|e'] st1]
  end; cbn [fst] in Ho.
  2:{ intros H. apply (f_equal (fun r => match r with Raise x => x | Ok _ => e end)) in H.
      cbn in H. subst e'. right. apply Ho. }
  destruct (strip t) as [|c t'].
  - unfold bindM, print, emit, raise. cbn [fst snd].
    intros H; inversion H; left; reflexivity.
  - unfold try_clauses.
    match goal with
    | |- context [match ?m st1 with _ => _ end] => destruct (m st1) as [[v|e0] st2]
    end; [discriminate|].
    cbn [dispatch]. fold (passes_through e0).
    destruct (passes_through e0) eqn:Ep;
      unfold any_exception, bindM, print, emit, raise; cbn [fst snd];
      intros H; inversion H; subst; left; [assumption | reflexivity].
Qed.

End PrintingStages.

Section OrchestratorExtras.

(** X11: what a run of [parse_recipe_from_url] does that can be observed,
    for any page, any structured data and any LLM helper.  For an address
    that does not begin with http:// or https:// it does nothing.  Else it
    requests the address once, as its first step, and then only prints,
    except for at most one call of the LLM helper; that call is made with
    the user's instructions and preferences and the address as they were
    given, on a text that is not blank and has at most 75000 characters. *)
Theorem run_events (w : world) (url : str) (ui : option str) (prefs : pyval)
    (st : state) :
  (RecipeScraper.valid_url url = false
   /\ snd (RecipeScraper.parse_recipe_from_url w url ui prefs st) = st)
  \/ (RecipeScraper.valid_url url = true
      /\ exists lines,
           trace (snd (RecipeScraper.parse_recipe_from_url w url ui prefs st))
             = trace st ++ Requested url :: map Printed lines
           \/ exists text lines',
                trace (snd (RecipeScraper.parse_recipe_from_url w url ui prefs st))
                  = trace st ++ Requested url :: map Printed lines
                      ++ LLMCalled (mkRequest text ui prefs url) :: map Printed lines'
                /\ strip text <> []
                /\ List.length text <= N.to_nat 75000).
Proof.
  cut (forall final,
          snd (RecipeScraper.parse_recipe_from_url w url ui prefs st) = final ->
          (RecipeScraper.valid_url url = false /\ final = st)
          \/ (RecipeScraper.valid_url url = true
              /\ exists lines,
                   trace final = trace st ++ Requested url :: map Printed lines
                   \/ exists text lines',
                        trace final
                          = trace st ++ Requested url :: map Printed lines
                              ++ LLMCalled (mkRequest text ui prefs url)
                                   :: map Printed lines'
                        /\ strip text <> []
                        /\ List.length text <= N.to_nat 75000)).
  { intros H. exact (H _ eq_refl). }
  intros final.
  unfold RecipeScraper.parse_recipe_from_url.
  destruct (RecipeScraper.valid_url url); cbn [negb];
    [right | intros <-; left; auto].
  split; [reflexivity|]. revert H.
  unfold bindM at 1.
  match goal with
  | |- context [try_except (RecipeScraper.fetch_url_content w url) ?p ?h st] =>
      destruct (guarded_fetch_trace w url p h st) as (l1 & E1);
      [intros e; repeat printing_step|];
      destruct (try_except (RecipeScraper.fetch_url_content w url) p h st)
        as [[html|e] st1]
  end; cbn [snd] in *; [|intros <-; exists l1; now left].
  unfold bindM at 1.
  destruct (locate_printing w html url st1) as (l2 & E2).
  destruct (RecipeScraper.locate_structured_data w html url st1) as [[cand|e] st2];
    cbn [snd] in *.
  2:{ intros <-. exists (l1 ++ l2). left.
      rewrite E2, E1, map_app, <- app_assoc. reflexivity. }
  unfold bindM at 1.
  destruct (structured_path_printing w url ui cand st2) as (l3 & E3).
  destruct (RecipeScraper.structured_path w url ui cand st2) as [[[rec|]|e] st3];
    cbn [snd] in *.
  - unfold ret. cbn [snd]. intros <-. exists (l1 ++ l2 ++ l3). left.
    rewrite E3, E2, E1, !map_app, <- !app_assoc. reflexivity.
  - intros Hfin.
    destruct (llm_path_events w url html ui prefs st3 final Hfin)
      as (l4 & [E4|(text & l5 & E4 & Hnb & Hlen)]).
    + exists (l1 ++ l2 ++ l3 ++ l4). left.
      rewrite E4, E3, E2, E1, !map_app, <- !app_assoc. reflexivity.
    + exists (l1 ++ l2 ++ l3 ++ l4). right. exists text, l5.
      split; [|split; assumption].
      rewrite E4, E3, E2, E1, !map_app, <- !app_assoc. reflexivity.
  - intros <-. exists (l1 ++ l2 ++ l3). left.
    rewrite E3, E2, E1, !map_app, <- !app_assoc. reflexivity.
Qed.

(** X12: the exceptions [parse_recipe_from_url] raises.  Each is an
    instance of [ValueError] or of [ConnectionError], or it is one of the
    two exceptions no handler of the pipeline is placed around: the
    exception [requests.get] raised outside the [RequestException] family,
    or the exception with which the HTML parser rejected the fetched page.
    Failures of the scan and of the conversion are absorbed, and an
    unexpected failure of the LLM helper is wrapped in a
    [ConnectionAbortedError]. *)
Theorem parse_failures_classified
    (w : world) (url : str) (ui : option str) (prefs : pyval) (st : state) (e : exn) :
  fst (RecipeScraper.parse_recipe_from_url w url ui prefs st) = Raise e ->
  instance_of ValueError e = true
  \/ instance_of ConnectionError e = true
  \/ http_get w url = HttpRaised e
  \/ exists html,
       result_of (RecipeScraper.fetch_url_content w url) = Ok html
       /\ soup_parse w html = Raise e.
Proof.
  unfold RecipeScraper.parse_recipe_from_url.
  destruct (RecipeScraper.valid_url url); cbn [negb].
  2:{ intros H; inversion H. left; reflexivity. }
  unfold bindM at 1. unfold try_except, try_clauses.
  pose proof (fetch_raises w url st) as Hf.
  pose proof (fetch_stateless w url st) as Hst. unfold result_of.
  destruct (RecipeScraper.fetch_url_content w url st) as [[html|e0] st1];
    cbn [fst] in Hf, Hst.
  - unfold bindM at 1.
    destruct (locate_never_raises w html url st1) as (cand & Hl).
    destruct (RecipeScraper.locate_structured_data w html url st1) as [[c|e1] st2];
      cbn [fst] in Hl; [|discriminate].
    unfold bindM at 1.
    destruct (structured_path_total w url ui c st2) as (o & Ho).
    destruct (RecipeScraper.structured_path w url ui c st2) as [[[rec|]|e2] st3];
      cbn [fst] in Ho; [discriminate | | discriminate].
    intros H. apply llm_path_failures in H as [H|H].
    + unfold passes_through in H. apply orb_true_iff in H. tauto.
    + right. right. right. exists html. split; [now symmetry | exact H].
  - cbn [dispatch].
    destruct (instance_of ConnectionError e0) eqn:Hi;
      unfold bindM, print, emit, raise; cbn [fst snd];
      intros H; inversion H; subst e0.
    + right. left. exact Hi.
    + destruct (Hf e eq_refl) as [Hc|Hr].
      * unfold instance_of in Hi. rewrite Hc in Hi. discriminate.
      * right. right. left. exact Hr.
Qed.

Lemma parse_failures_classified_witness :
  instance_of ValueError RecipeScraper.invalid_url = true
  \/ instance_of ConnectionError RecipeScraper.invalid_url = true
  \/ http_get (sample_world (Ok []) [] (Ok VNone)) (lit "ftp://example.com")
     = HttpRaised RecipeScraper.invalid_url
  \/ exists html,
       result_of (RecipeScraper.fetch_url_content
                    (sample_world (Ok []) [] (Ok VNone)) (lit "ftp://example.com"))
         = Ok html
       /\ soup_parse (sample_world (Ok []) [] (Ok VNone)) html
          = Raise RecipeScraper.invalid_url.
Proof.
  exact (parse_failures_classified
           (sample_world (Ok []) [] (Ok VNone)) (lit "ftp://example.com") None VNone
           initial RecipeScraper.invalid_url eq_refl).
Defined.

(** X13: when the scan of a fetched page finds a candidate the converter
    handles, [parse_recipe_from_url] returns the converted record and never
    calls the LLM helper.  The record is tagged "url_import_schema.org",
    carries the address, and has [userModificationInstructions] exactly
    when the user's instructions are a non-empty string: their trimmed
    text, which is empty for instructions of white space only. *)
Theorem structured_data_path_result
    (w : world) (url : str) (ui : option str) (prefs : pyval)
    (html : str) (d : dict) (st : state) :
  RecipeScraper.valid_url url = true ->
  result_of (RecipeScraper.fetch_url_content w url) = Ok html ->
  result_of (RecipeScraper.locate_structured_data w html url) = Ok (VDict d) ->
  d <> [] ->
  convertible d = true ->
  exists record st',
    RecipeScraper.parse_recipe_from_url w url ui prefs st = (Ok (VDict record), st')
    /\ llm_calls st' = llm_calls st
    /\ dict_lookup (lit "source") record = Some (VStr (lit "url_import_schema.org"))
    /\ dict_lookup (lit "originalImportUrl") record = Some (VStr url)
    /\ dict_lookup (lit "userModificationInstructions") record
       = match ui with
         | Some (c :: s) => Some (VStr (strip (c :: s)))
         | _ => None
         end.
Proof.
  intros Hv Hf Hl Hd Hc.
  destruct (parse_after_fetch w url ui prefs html st Hv Hf) as (st1 & F1 & ->).
  unfold bindM at 1.
  destruct (locate_run w html url st1 _ Hl) as (st2 & -> & F2).
  unfold bindM at 1.
  unfold RecipeScraper.structured_path.
  assert (Ht : truthy (VDict d) = true) by (destruct d; [contradiction | reflexivity]).
  rewrite Ht. unfold try_except, try_clauses. unfold bindM at 1.
  destruct (convert_convertible w d url st2 Hc)
    as (pt & ct & tt' & ings & instrs & img & _ & _ & _ & _ & _ & E).
  rewrite E.
  assert (Hcalls : llm_calls (mkState (trace st2) (S (draws st2))) = llm_calls st).
  { unfold llm_calls at 1. cbn [trace].
    exact (follows_llm_calls _ _ (follows_trans _ _ _ F1 F2)). }
  destruct ui as [[|c s]|]; cbn [RecipeScraper.nonempty andb truthy]; unfold ret;
    eexists; eexists; (split; [reflexivity|]); (split; [exact Hcalls|]);
    repeat split; reflexivity.
Qed.

Lemma structured_data_path_result_witness :
  exists record st',
    RecipeScraper.parse_recipe_from_url
      (sample_world (Ok (sample_structured_data plain_recipe)) [] (Ok VNone))
      sample_url (Some (lit " less salt ")) VNone initial = (Ok (VDict record), st')
    /\ dict_lookup (lit "userModificationInstructions") record
       = Some (VStr (lit "less salt")).
Proof.
  destruct (structured_data_path_result
              (sample_world (Ok (sample_structured_data plain_recipe)) [] (Ok VNone))
              sample_url (Some (lit " less salt ")) VNone (lit "<html></html>")
              [(lit "@type", VStr (lit "Recipe")); (lit "name", VStr (lit "Soup"));
               (lit "recipeIngredient", VList [VStr (lit "1 cup water")])]
              initial)
    as (record & st' & E & _ & _ & _ & Hu);
    try (vm_compute; reflexivity); try discriminate.
  exists record, st'. split; [exact E | exact Hu].
Defined.

(** X14: a failure of the fetch ends the run: [parse_recipe_from_url]
    raises the same exception and the LLM helper is not called.  When the
    exception is a [ConnectionError] (what [fetch_url_content] raises for a
    failed request) the line "Fetching URL failed" is printed first; any
    other exception that escaped the fetch passes [except ConnectionError]
    and leaves the run as the fetch left it. *)
Theorem fetch_failure_is_final
    (w : world) (url : str) (ui : option str) (prefs : pyval) (st : state) (e : exn) :
  RecipeScraper.valid_url url = true ->
  result_of (RecipeScraper.fetch_url_content w url) = Raise e ->
  exists st',
    RecipeScraper.parse_recipe_from_url w url ui prefs st = (Raise e, st')
    /\ llm_calls st' = llm_calls st
    /\ (instance_of ConnectionError e = true ->
        In (lit "ERROR (parse_recipe_from_url): Fetching URL failed: " ++ exn_msg e)
           (printed st'))
    /\ (instance_of ConnectionError e = false ->
        st' = snd (RecipeScraper.fetch_url_content w url st)).
Proof.
  intros Hv Hf.
  destruct (fetch_run w url st _ Hf) as (st1 & E & F1).
  unfold RecipeScraper.parse_recipe_from_url. rewrite Hv. cbn [negb].
  unfold bindM at 1. unfold try_except, try_clauses. rewrite E.
  cbn [dispatch snd].
  destruct (instance_of ConnectionError e) eqn:Hi.
  - unfold bindM, print, emit, raise. cbn [fst snd].
    eexists. split; [reflexivity|]. split; [|split; [intros _ | discriminate]].
    + unfold llm_calls at 1. cbn [trace]. rewrite llm_calls_app. cbn [flat_map].
      rewrite app_nil_r. exact (follows_llm_calls _ _ F1).
    + unfold printed. cbn [trace]. rewrite flat_map_app. apply in_or_app.
      right. now left.
  - exists st1. split; [reflexivity|].
    split; [exact (follows_llm_calls _ _ F1)|].
    split; [discriminate | reflexivity].
Qed.

Lemma fetch_failure_is_final_witness :
  exists st',
    RecipeScraper.parse_recipe_from_url
      (mkWorld (fun n => N.of_nat n) (fun _ => HttpTimeout) (fun _ _ => Ok [])
               (fun _ => Ok tt) (fun _ _ => []) (fun _ => None) (fun _ => Ok VNone))
      sample_url None VNone initial
    = (Raise (RecipeScraper.connection_error
                (lit "The request to " ++ sample_url
                   ++ lit " timed out. Please check the URL or try again later.")),
       st').
Proof.
  destruct (fetch_failure_is_final
              (mkWorld (fun n => N.of_nat n) (fun _ => HttpTimeout) (fun _ _ => Ok [])
                       (fun _ => Ok tt) (fun _ _ => []) (fun _ => None)
                       (fun _ => Ok VNone))
              sample_url None VNone initial
              (RecipeScraper.connection_error
                 (lit "The request to " ++ sample_url
                    ++ lit " timed out. Please check the URL or try again later."))
              eq_refl eq_refl) as (st' & E & _).
  exists st'. exact E.
Defined.

Lemma first_typed_recipe_stops (pre : list pyval) (bad : pyval) (post : list pyval) :
  Forall (fun e => is_entity e = true /\ typed_recipe e = false) pre ->
  is_entity bad = false ->
  first_typed_recipe (pre ++ bad :: post) = no_attribute bad (lit "get").
Proof.
  intros Hpre Hbad. induction Hpre as [|e pre [He Ht] _ IH]; cbn [app first_typed_recipe].
  - destruct bad; try reflexivity. discriminate.
  - destruct e; try discriminate. now rewrite Ht.
Qed.

(** X15: one json-ld entity that is no mapping, met before any Recipe,
    costs the page all its structured data: the scan stops with the
    [AttributeError] of calling [get] on it, which is printed as a warning,
    and yields None, whatever Recipe the later blocks or the microdata
    hold. *)
Theorem malformed_block_discards_structured_data
    (w : world) (html url : str) (st : state) (sd : dict)
    (items pre : list pyval) (bad : pyval) (post : list pyval) :
  extruct_extract w html url = Ok sd ->
  dict_lookup (lit "json-ld") sd = Some (VList items) ->
  flat_map block_entities items = pre ++ bad :: post ->
  Forall (fun e => is_entity e = true /\ typed_recipe e = false) pre ->
  is_entity bad = false ->
  RecipeScraper.locate_structured_data w html url st
    = (Ok VNone,
       mkState (trace st
                  ++ [Printed (lit "WARN (parse_recipe_from_url): Extruct processing failed for URL "
                                 ++ url ++ lit ". Error: '" ++ type_name bad
                                 ++ lit "' object has no attribute 'get'"
                                 ++ lit ". Proceeding to Gemini scrape.")])
               (draws st)).
Proof.
  intros Hsd Hld Hitems Hpre Hbad.
  destruct (dict_has_lookup _ _ _ Hld) as [Hhas Hget].
  unfold RecipeScraper.locate_structured_data, try_except, try_clauses.
  unfold bindM, lift, ret, print, emit, RecipeScraper.items_of.
  rewrite Hsd. cbn [fst snd]. rewrite Hhas, Hget. cbn [py_iter].
  rewrite scan_json_ld_first, Hitems, (first_typed_recipe_stops pre bad post Hpre Hbad).
  unfold no_attribute. cbn [dispatch any_exception exn_msg fst snd].
  rewrite <- !app_assoc. reflexivity.
Qed.

Lemma malformed_block_discards_structured_data_witness :
  fst (RecipeScraper.locate_structured_data
         (sample_world (Ok malformed_structured_data) [] (Ok VNone))
         (lit "<html></html>") sample_url initial)
    = Ok VNone.
Proof.
  rewrite (malformed_block_discards_structured_data
             (sample_world (Ok malformed_structured_data) [] (Ok VNone))
             (lit "<html></html>") sample_url initial malformed_structured_data
             [VStr (lit "oops"); plain_recipe] [] (VStr (lit "oops")) [plain_recipe]
             eq_refl eq_refl eq_refl (Forall_nil _) eq_refl).
  reflexivity.
Defined.

End OrchestratorExtras.

Section FallbackExtras.

(** X16: the failures of the LLM helper.  An exception of the
    [ConnectionError] or [ValueError] family is raised again as it is;
    any other exception is replaced by a [ConnectionAbortedError] whose
    message names the address and the original message.  An answer that is
    not a mapping, or an empty one, is a [ValueError]. *)
Theorem llm_failures_reported
    (w : world) (url html : str) (ui : option str) (prefs : pyval)
    (st : state) (text : str) :
  result_of (RecipeScraper.extract_relevant_text_from_html w html) = Ok text ->
  strip text <> [] ->
  (forall e,
      llm_extract w (mkRequest text ui prefs url) = Raise e ->
      fst (RecipeScraper.llm_path w url html ui prefs st)
        = Raise (if passes_through e then e
                 else mkExn ConnectionAbortedError
                        (lit "Unexpected AI error during URL scrape: " ++ url
                           ++ lit ". Details: " ++ exn_msg e)))
  /\ (forall v,
         llm_extract w (mkRequest text ui prefs url) = Ok v ->
         (forall d, v = VDict d -> d = []) ->
         fst (RecipeScraper.llm_path w url html ui prefs st)
           = Raise RecipeScraper.invalid_llm_result).
Proof.
  intros Htext Hnb. split.
  - intros e He.
    unfold RecipeScraper.llm_path, bindM.
    unfold print at 1, emit at 1. cbn [fst snd].
    match goal with
    | |- context [RecipeScraper.extract_relevant_text_from_html w html ?s] =>
        destruct (extract_text_run w html s _ Htext) as (st1 & -> & _)
    end.
    destruct (strip text) as [|c t] eqn:Es; [contradiction|].
    unfold try_clauses, bindM,
      RecipeScraper.extract_recipe_from_text_content_for_url_scrape.
    unfold bindM, emit, lift. cbn [fst snd]. rewrite He.
    cbn [dispatch]. fold (passes_through e).
    destruct (passes_through e);
      unfold any_exception, print, emit, raise; cbn [fst snd]; reflexivity.
  - intros v Hv Hbad.
    unfold RecipeScraper.llm_path, bindM.
    unfold print at 1, emit at 1. cbn [fst snd].
    match goal with
    | |- context [RecipeScraper.extract_relevant_text_from_html w html ?s] =>
        destruct (extract_text_run w html s _ Htext) as (st1 & -> & _)
    end.
    destruct (strip text) as [|c t] eqn:Es; [contradiction|].
    unfold try_clauses, bindM,
      RecipeScraper.extract_recipe_from_text_content_for_url_scrape.
    unfold bindM, emit, lift. cbn [fst snd]. rewrite Hv.
    match goal with
    | |- context [RecipeScraper.finish_llm_recipe w url ui v ?s] =>
        destruct (finish_llm_recipe_invalid w url ui v s Hbad) as (st2 & -> & _)
    end.
    cbn [dispatch].
    unfold print, emit, raise.
    cbn [fst snd orb instance_of exn_cls RecipeScraper.invalid_llm_result subclass].
    reflexivity.
Qed.

Lemma llm_failures_reported_witness :
  fst (RecipeScraper.llm_path
         (sample_world (Ok []) (lit "Soup: boil water.")
            (Raise (mkExn (OtherException (lit "ResourceExhausted")) (lit "quota"))))
         sample_url (lit "<html></html>") None VNone initial)
    = Raise (mkExn ConnectionAbortedError
               (lit "Unexpected AI error during URL scrape: " ++ sample_url
                  ++ lit ". Details: quota")).
Proof.
  refine (proj1 (llm_failures_reported
                   (sample_world (Ok []) (lit "Soup: boil water.")
                      (Raise (mkExn (OtherException (lit "ResourceExhausted"))
                                (lit "quota"))))
                   sample_url (lit "<html></html>") None VNone initial
                   (lit "Soup: boil water.") _ _)
                (mkExn (OtherException (lit "ResourceExhausted")) (lit "quota")) _).
  - vm_compute. reflexivity.
  - vm_compute. discriminate.
  - reflexivity.
Defined.

(** X17: the post-processing of an LLM answer leaves the answer's own
    fields alone: every key but the four it manages keeps its value, a
    truthy [recipeId] of the answer is kept, and so is the answer's own
    [userModificationInstructions]; only when the answer has none are the
    user's non-empty instructions attached, trimmed.  [source] and
    [originalImportUrl] are always overwritten. *)
Theorem llm_record_passes_through
    (w : world) (url : str) (ui : option str) (d : dict) (st : state) :
  d <> [] ->
  exists record,
    fst (RecipeScraper.finish_llm_recipe w url ui (VDict d) st) = Ok (VDict record)
    /\ (forall k,
           k <> lit "recipeId" -> k <> lit "source" -> k <> lit "originalImportUrl" ->
           k <> lit "userModificationInstructions" ->
           dict_lookup k record = dict_lookup k d)
    /\ (forall id,
           dict_lookup (lit "recipeId") d = Some id -> truthy id = true ->
           dict_lookup (lit "recipeId") record = Some id)
    /\ dict_lookup (lit "source") record = Some (VStr (lit "url_scrape_gemini_fallback"))
    /\ dict_lookup (lit "originalImportUrl") record = Some (VStr url)
    /\ dict_lookup (lit "userModificationInstructions") record
       = match dict_lookup (lit "userModificationInstructions") d with
         | Some v => Some v
         | None => match ui with
                   | Some (c :: s) => Some (VStr (strip (c :: s)))
                   | _ => None
                   end
         end.
Proof.
  intros Hd.
  destruct (finish_llm_recipe_run w url ui d st Hd) as (st' & E & _).
  rewrite E. cbn [fst]. eexists. split; [reflexivity|].
  unfold finished.
  set (d1 := if negb (dict_has (lit "recipeId") d)
                || negb (truthy (dict_get (lit "recipeId") VNone d))
             then dict_set (lit "recipeId") (VStr (uuid4_str (urandom w (draws st)))) d
             else d).
  assert (H1 : forall k, k <> lit "recipeId" -> dict_lookup k d1 = dict_lookup k d).
  { intros k Hk. subst d1.
    destruct (negb _ || negb _); [|reflexivity].
    apply dict_lookup_set_other. congruence. }
  assert (H1id : forall id, dict_lookup (lit "recipeId") d = Some id -> truthy id = true ->
                            dict_lookup (lit "recipeId") d1 = Some id).
  { intros id Hid Ht. subst d1. unfold dict_has, dict_get. rewrite Hid, Ht. exact Hid. }
  clearbody d1.
  set (d2 := dict_set (lit "originalImportUrl") (VStr url)
               (dict_set (lit "source") (VStr RecipeScraper.fallback_tag) d1)).
  assert (H2 : forall k, k <> lit "source" -> k <> lit "originalImportUrl" ->
                         dict_lookup k d2 = dict_lookup k d1).
  { intros k Hs Ho. subst d2.
    rewrite !dict_lookup_set_other by congruence. reflexivity. }
  assert (Hs2 : dict_lookup (lit "source") d2 = Some (VStr RecipeScraper.fallback_tag)).
  { subst d2. rewrite dict_lookup_set_other by distinct_keys.
    apply dict_lookup_set_same. }
  assert (Ho2 : dict_lookup (lit "originalImportUrl") d2 = Some (VStr url)).
  { subst d2. apply dict_lookup_set_same. }
  assert (Hu2 : dict_lookup (lit "userModificationInstructions") d2
                = dict_lookup (lit "userModificationInstructions") d).
  { rewrite H2 by distinct_keys. apply H1. distinct_keys. }
  clearbody d2.
  unfold dict_has. rewrite Hu2.
  destruct (dict_lookup (lit "userModificationInstructions") d) as [v|] eqn:Eu;
    cbn [negb].
  - rewrite andb_false_r.
    split; [intros k K1 K2 K3 K4; now rewrite H2, H1 by assumption|].
    split; [intros id Hid Ht; rewrite H2 by distinct_keys; now apply H1id|].
    split; [assumption|]. split; [assumption|].
    now rewrite Hu2.
  - rewrite andb_true_r.
    destruct ui as [[|c s]|]; cbn [RecipeScraper.nonempty].
    + split; [intros k K1 K2 K3 K4; now rewrite H2, H1 by assumption|].
      split; [intros id Hid Ht; rewrite H2 by distinct_keys; now apply H1id|].
      split; [assumption|]. split; [assumption|]. now rewrite Hu2.
    + split.
      { intros k K1 K2 K3 K4.
        rewrite dict_lookup_set_other by congruence. now rewrite H2, H1 by assumption. }
      split.
      { intros id Hid Ht. rewrite dict_lookup_set_other by distinct_keys.
        rewrite H2 by distinct_keys. now apply H1id. }
      split; [now rewrite dict_lookup_set_other by distinct_keys|].
      split; [now rewrite dict_lookup_set_other by distinct_keys|].
      apply dict_lookup_set_same.
    + split; [intros k K1 K2 K3 K4; now rewrite H2, H1 by assumption|].
      split; [intros id Hid Ht; rewrite H2 by distinct_keys; now apply H1id|].
      split; [assumption|]. split; [assumption|]. now rewrite Hu2.
Qed.

Lemma llm_record_passes_through_witness :
  exists record,
    fst (RecipeScraper.finish_llm_recipe
           (sample_world (Ok []) [] (Ok VNone)) sample_url (Some (lit " less salt "))
           (VDict [(lit "title", VStr (lit "Soup")); (lit "source", VStr (lit "llm"))])
           initial)
      = Ok (VDict record)
    /\ dict_lookup (lit "title") record = Some (VStr (lit "Soup"))
    /\ dict_lookup (lit "source") record = Some (VStr (lit "url_scrape_gemini_fallback")).
Proof.
  destruct (llm_record_passes_through
              (sample_world (Ok []) [] (Ok VNone)) sample_url (Some (lit " less salt "))
              [(lit "title", VStr (lit "Soup")); (lit "source", VStr (lit "llm"))]
              initial)
    as (record & E & Hk & _ & Hs & _); [discriminate|].
  exists record. split; [exact E|]. split; [|exact Hs].
  rewrite Hk; [reflexivity | | | |]; distinct_keys.
Defined.

End FallbackExtras.

(* ===================================================================== *)
(** ** The fuel of the JSON scanner *)
(* ===================================================================== *)

Functional Scheme scanstring_ind := Induction for Json.scanstring Sort Prop.

Section ScannerFuel.

Ltac literal_cases r :=
  let c := fresh "c" in
  let r' := fresh "r" in
  let p := fresh "p" in
  destruct r as [|c r']; [reflexivity|];
  destruct c as [|p]; [reflexivity|];
  do 7 (try (destruct p as [p|p|]; try reflexivity)).

Lemma match_quote {A} (r : str) (a : str -> A) (b : A) :
  match r with 34%N :: r' => a r' | _ => b end
  = match r with
    | c :: r' => if (c =? 34)%N then a r' else b
    | [] => b
    end.
Proof. literal_cases r. Qed.

Lemma match_colon {A} (r : str) (a : str -> A) (b : A) :
  match r with 58%N :: r' => a r' | _ => b end
  = match r with
    | c :: r' => if (c =? 58)%N then a r' else b
    | [] => b
    end.
Proof. literal_cases r. Qed.

Lemma match_close_brace {A} (r : str) (a : str -> A) (b : A) :
  match r with 125%N :: r' => a r' | _ => b end
  = match r with
    | c :: r' => if (c =? 125)%N then a r' else b
    | [] => b
    end.
Proof. literal_cases r. Qed.

Lemma match_close_bracket {A} (r : str) (a : str -> A) (b : A) :
  match r with 93%N :: r' => a r' | _ => b end
  = match r with
    | c :: r' => if (c =? 93)%N then a r' else b
    | [] => b
    end.
Proof. literal_cases r. Qed.

Lemma match_brace_or_comma {A} (r : str) (a a' : str -> A) (b : A) :
  match r with 125%N :: r' => a r' | 44%N :: r' => a' r' | _ => b end
  = match r with
    | c :: r' => if (c =? 125)%N then a r' else if (c =? 44)%N then a' r' else b
    | [] => b
    end.
Proof. literal_cases r. Qed.

Lemma match_bracket_or_comma {A} (r : str) (a a' : str -> A) (b : A) :
  match r with 93%N :: r' => a r' | 44%N :: r' => a' r' | _ => b end
  = match r with
    | c :: r' => if (c =? 93)%N then a r' else if (c =? 44)%N then a' r' else b
    | [] => b
    end.
Proof. literal_cases r. Qed.

Lemma length_dropwhile (p : N -> bool) (s : str) :
  List.length (dropwhile p s) <= List.length s.
Proof.
  induction s as [|c s IH]; [apply Nat.le_refl|].
  cbn [dropwhile]. destruct (p c); cbn [List.length]; lia.
Qed.

Lemma consumes_fail {A} (m : str) (p : nat) (s : str) : consumes (@Json.Fail A m p) s.
Proof. split; [discriminate | intros; discriminate]. Qed.

Lemma consumes_done {A} (a : A) (rest : str) (p : nat) (s : str) :
  List.length rest < List.length s -> consumes (Json.Done a rest p) s.
Proof.
  intros H. split; [discriminate|].
  intros a' rest' p' E. inversion E; subst. exact H.
Qed.

Lemma consumes_longer {A} (o : Json.outcome A) (s s' : str) :
  consumes o s -> List.length s <= List.length s' -> consumes o s'.
Proof.
  intros [H1 H2] Hl. split; [exact H1|].
  intros a rest p E. specialize (H2 _ _ _ E). lia.
Qed.

(** A string body is scanned without fuel, and what follows the closing
    quote is shorter than the body. *)
Lemma scanstring_consumes (s : str) (pos begin : nat) (acc : str) :
  consumes (Json.scanstring s pos begin acc) s.
Proof.
  functional induction (Json.scanstring s pos begin acc);
    try apply consumes_fail;
    try (apply consumes_done; cbn [List.length]; lia);
    try match goal with
        | E : _ :: _ = _ :: _ |- _ => rewrite E in *
        end;
    (eapply consumes_longer; [exact IHo | cbn [List.length]; lia]).
Qed.

Lemma length_skipn_lt (n : nat) (s : str) :
  0 < n -> s <> [] -> List.length (skipn n s) < List.length s.
Proof.
  intros Hn Hs. rewrite length_skipn. destruct s; [contradiction|].
  cbn [List.length]. lia.
Qed.

Lemma match_number_nonempty (s lexeme : str) (is_float : bool) :
  Json.match_number s = Some (lexeme, is_float) -> 0 < List.length lexeme.
Proof.
  unfold Json.match_number.
  set (sr := match s with 45%N :: t => ([45%N], t) | _ => ([], s) end).
  destruct sr as [sign r0]. destruct r0 as [|d t0]; [discriminate|].
  destruct (d =? 48)%N.
  - intros H. inversion H. rewrite !length_app. cbn [List.length]. lia.
  - destruct (is_ascii_digit d); [|discriminate].
    intros H. inversion H. rewrite !length_app. cbn [List.length]. lia.
Qed.

(** With fuel for twice the length of the text, the scanner does not run
    out of it, and every value it reads takes at least one character. *)
Lemma scanner_consumes (fuel : nat) :
  (forall s pos,
      2 * List.length s + 1 <= fuel -> consumes (Json.scan_once fuel s pos) s)
  /\ (forall s pos acc,
         2 * List.length s + 1 <= fuel ->
         consumes (Json.parse_members fuel s pos acc) s)
  /\ (forall s pos acc,
         2 * List.length s + 2 <= fuel ->
         consumes (Json.parse_elements fuel s pos acc) s).
Proof.
  induction fuel as [|fuel (IHs & IHm & IHe)].
  { repeat split; intros; lia. }
  split; [|split].
  - intros s pos Hf. cbn [Json.scan_once].
    destruct s as [|c t]; [apply consumes_fail|].
    cbn [List.length] in Hf.
    destruct (c =? 34)%N.
    { pose proof (scanstring_consumes t (pos + 1) pos []) as [N1 N2].
      destruct (Json.scanstring t (pos + 1) pos []) as [x rest p|m p|];
        [apply consumes_done | apply consumes_fail | contradiction].
      specialize (N2 _ _ _ eq_refl). cbn [List.length]. lia. }
    pose proof (length_dropwhile Json.is_ws t) as Hd.
    destruct (c =? 123)%N.
    { unfold Json.skip_ws. rewrite match_close_brace.
      destruct (dropwhile Json.is_ws t) as [|c' r'] eqn:Er.
      - apply consumes_longer with (s := []); [|cbn [List.length]; lia].
        apply IHm. cbn [List.length]. lia.
      - destruct (c' =? 125)%N.
        + apply consumes_done. cbn [List.length] in *. lia.
        + apply consumes_longer with (s := c' :: r'); [|cbn [List.length] in *; lia].
          apply IHm. cbn [List.length] in *. lia. }
    destruct (c =? 91)%N.
    { unfold Json.skip_ws. rewrite match_close_bracket.
      destruct (dropwhile Json.is_ws t) as [|c' r'] eqn:Er.
      - apply consumes_longer with (s := []); [|cbn [List.length]; lia].
        apply IHe. cbn [List.length]. lia.
      - destruct (c' =? 93)%N.
        + apply consumes_done. cbn [List.length] in *. lia.
        + apply consumes_longer with (s := c' :: r'); [|cbn [List.length] in *; lia].
          apply IHe. cbn [List.length] in *. lia. }
    repeat match goal with
           | |- consumes (if ?b then _ else _) _ =>
               destruct b; [apply consumes_done; apply length_skipn_lt; [lia | discriminate]|]
           end.
    destruct (Json.match_number (c :: t)) as [[lexeme is_float]|] eqn:En;
      [|apply consumes_fail].
    apply consumes_done. apply length_skipn_lt; [|discriminate].
    now apply (match_number_nonempty _ _ _ En).
  - intros s pos acc Hf. cbn [Json.parse_members].
    rewrite match_quote.
    destruct s as [|c t]; [apply consumes_fail|].
    cbn [List.length] in Hf.
    destruct (c =? 34)%N; [|apply consumes_fail].
    pose proof (scanstring_consumes t (pos + 1) pos []) as [N1 N2].
    destruct (Json.scanstring t (pos + 1) pos []) as [key r1 p1|m p|];
      [| apply consumes_fail | contradiction].
    specialize (N2 _ _ _ eq_refl).
    unfold Json.skip_ws at 1.
    pose proof (length_dropwhile Json.is_ws r1) as Hd1.
    rewrite match_colon.
    destruct (dropwhile Json.is_ws r1) as [|c2 r3]; [apply consumes_fail|].
    destruct (c2 =? 58)%N; [|apply consumes_fail].
    unfold Json.skip_ws at 1.
    pose proof (length_dropwhile Json.is_ws r3) as Hd3.
    cbn [List.length] in Hd1.
    match goal with
    | |- context [Json.scan_once fuel ?r ?p] =>
        destruct (IHs r p) as [M1 M2]; [lia|];
        destruct (Json.scan_once fuel r p) as [v r5 p5|m p'|]
    end; [| apply consumes_fail | contradiction].
    specialize (M2 _ _ _ eq_refl).
    unfold Json.skip_ws at 1.
    pose proof (length_dropwhile Json.is_ws r5) as Hd5.
    rewrite match_brace_or_comma.
    destruct (dropwhile Json.is_ws r5) as [|c6 r7]; [apply consumes_fail|].
    cbn [List.length] in Hd5.
    destruct (c6 =? 125)%N; [apply consumes_done; cbn [List.length]; lia|].
    destruct (c6 =? 44)%N; [|apply consumes_fail].
    unfold Json.skip_ws.
    pose proof (length_dropwhile Json.is_ws r7) as Hd7.
    eapply consumes_longer; [apply IHm; lia | cbn [List.length]; lia].
  - intros s pos acc Hf. cbn [Json.parse_elements].
    destruct (IHs s pos) as [M1 M2]; [lia|].
    destruct (Json.scan_once fuel s pos) as [v r1 p1|m p'|];
      [| apply consumes_fail | contradiction].
    specialize (M2 _ _ _ eq_refl).
    unfold Json.skip_ws at 1.
    pose proof (length_dropwhile Json.is_ws r1) as Hd1.
    rewrite match_bracket_or_comma.
    destruct (dropwhile Json.is_ws r1) as [|c2 r3]; [apply consumes_fail|].
    cbn [List.length] in Hd1.
    destruct (c2 =? 93)%N; [apply consumes_done; lia|].
    destruct (c2 =? 44)%N; [|apply consumes_fail].
    unfold Json.skip_ws.
    pose proof (length_dropwhile Json.is_ws r3) as Hd3.
    eapply consumes_longer; [apply IHe; lia | lia].
Qed.

End ScannerFuel.

Section ScannerFuelIndependence.

(** More fuel does not change an outcome that was reached. *)
Lemma scanner_mono (fuel : nat) :
  forall fuel', fuel <= fuel' ->
    (forall s pos,
        Json.scan_once fuel s pos <> Json.OutOfFuel ->
        Json.scan_once fuel' s pos = Json.scan_once fuel s pos)
    /\ (forall s pos acc,
           Json.parse_members fuel s pos acc <> Json.OutOfFuel ->
           Json.parse_members fuel' s pos acc = Json.parse_members fuel s pos acc)
    /\ (forall s pos acc,
           Json.parse_elements fuel s pos acc <> Json.OutOfFuel ->
           Json.parse_elements fuel' s pos acc = Json.parse_elements fuel s pos acc).
Proof.
  induction fuel as [|fuel IH]; intros fuel' Hle.
  { repeat split; intros; cbn in *; contradiction. }
  destruct fuel' as [|fuel']; [lia|].
  destruct (IH fuel' ltac:(lia)) as (IHs & IHm & IHe).
  split; [|split].
  - intros s pos. cbn [Json.scan_once].
    destruct s as [|c t]; [reflexivity|].
    destruct (c =? 34)%N; [reflexivity|].
    destruct (c =? 123)%N.
    { unfold Json.skip_ws. rewrite !match_close_brace.
      destruct (dropwhile Json.is_ws t) as [|c' r']; [apply IHm|].
      destruct (c' =? 125)%N; [reflexivity | apply IHm]. }
    destruct (c =? 91)%N.
    { unfold Json.skip_ws. rewrite !match_close_bracket.
      destruct (dropwhile Json.is_ws t) as [|c' r']; [apply IHe|].
      destruct (c' =? 93)%N; [reflexivity | apply IHe]. }
    reflexivity.
  - intros s pos acc. cbn [Json.parse_members]. unfold Json.skip_ws.
    rewrite !match_quote.
    destruct s as [|c t]; [reflexivity|].
    destruct (c =? 34)%N; [|reflexivity].
    destruct (Json.scanstring t (pos + 1) pos []) as [key r1 p1|m p|];
      [| reflexivity | reflexivity].
    rewrite !match_colon.
    destruct (dropwhile Json.is_ws r1) as [|c2 r3]; [reflexivity|].
    destruct (c2 =? 58)%N; [|reflexivity].
    match goal with
    | |- context [Json.scan_once fuel ?r ?p] =>
        pose proof (IHs r p) as Hs;
        destruct (Json.scan_once fuel r p) as [v r5 p5|m p'|]
    end; [| intros _; rewrite Hs by discriminate; reflexivity | contradiction].
    rewrite Hs by discriminate.
    rewrite !match_brace_or_comma.
    destruct (dropwhile Json.is_ws r5) as [|c6 r7]; [reflexivity|].
    destruct (c6 =? 125)%N; [reflexivity|].
    destruct (c6 =? 44)%N; [|reflexivity].
    apply IHm.
  - intros s pos acc. cbn [Json.parse_elements]. unfold Json.skip_ws.
    pose proof (IHs s pos) as Hs.
    destruct (Json.scan_once fuel s pos) as [v r1 p1|m p'|];
      [| intros _; rewrite Hs by discriminate; reflexivity | contradiction].
    rewrite Hs by discriminate.
    rewrite !match_bracket_or_comma.
    destruct (dropwhile Json.is_ws r1) as [|c2 r3]; [reflexivity|].
    destruct (c2 =? 93)%N; [reflexivity|].
    destruct (c2 =? 44)%N; [|reflexivity].
    apply IHe.
Qed.

(** The fuel [Json.loads] gives the scanner is enough for every text: the
    scanner does not use it up, so the branch of [Json.loads] for a scanner
    out of fuel is never taken, and more fuel does not change the
    outcome. *)
Lemma scan_fuel_adequate (s : str) (fuel : nat) :
  Json.fuel_for s <= fuel ->
  Json.scan_once (Json.fuel_for s) (fst (Json.skip_ws s 0)) (snd (Json.skip_ws s 0))
    <> Json.OutOfFuel
  /\ Json.scan_once fuel (fst (Json.skip_ws s 0)) (snd (Json.skip_ws s 0))
     = Json.scan_once (Json.fuel_for s) (fst (Json.skip_ws s 0))
         (snd (Json.skip_ws s 0)).
Proof.
  intros Hle.
  assert (H : Json.scan_once (Json.fuel_for s) (fst (Json.skip_ws s 0))
                (snd (Json.skip_ws s 0)) <> Json.OutOfFuel).
  { apply (proj1 (scanner_consumes (Json.fuel_for s))).
    unfold Json.fuel_for, Json.skip_ws. cbn [fst].
    pose proof (length_dropwhile Json.is_ws s). lia. }
  split; [exact H|].
  now apply (proj1 (scanner_mono (Json.fuel_for s) fuel Hle)).
Qed.

End ScannerFuelIndependence.

(* ===================================================================== *)
(** ** The identifiers of the two paths *)
(* ===================================================================== *)

Section Identifiers.

Lemma hex_digit_is_hex (d : N) : (d < 16)%N -> is_hex (hex_digit d) = true.
Proof.
  intros H. unfold hex_digit, is_hex.
  destruct (d <? 10)%N eqn:E.
  - apply N.ltb_lt in E.
    apply orb_true_iff. left. apply andb_true_iff. split; apply N.leb_le; lia.
  - apply N.ltb_ge in E.
    apply orb_true_iff. right. apply andb_true_iff. split; apply N.leb_le; lia.
Qed.

Lemma hex_fixed_is_hex (w : nat) (n : N) :
  Forall (fun c => is_hex c = true) (hex_fixed w n).
Proof.
  revert n; induction w as [|w IH]; intros n; cbn [hex_fixed]; [constructor|].
  apply Forall_app. split; [apply IH|].
  constructor; [|constructor].
  apply hex_digit_is_hex. apply N.mod_lt. discriminate.
Qed.

Lemma length_uuid4_str (r : N) : List.length (uuid4_str r) = 36.
Proof.
  unfold uuid4_str. cbv zeta.
  pose proof (length_hex_fixed 32 (uuid4_int r)) as H. fold (uuid4_hex r) in H.
  rewrite !length_app, !length_firstn, !length_skipn, H. reflexivity.
Qed.

Lemma uuid4_str_dash (r : N) : In 45%N (uuid4_str r).
Proof.
  unfold uuid4_str. cbv zeta. apply in_or_app. right. now left.
Qed.

(** X1: the two paths write identifiers of different forms.  The
    converter's [recipeId] is the 32 hexadecimal digits of a random UUID,
    without dashes; the identifier the fallback path gives an LLM answer
    that has none (or a falsy one) is the 36-character form of a UUID, with
    dashes. *)
Theorem recipe_id_formats (w : world) (url : str) (st : state) :
  (forall d,
      convertible d = true ->
      exists record id,
        fst (SchemaConverter.convert_schema_org_to_internal_recipe w (VDict d) url st)
          = Ok (VDict record)
        /\ dict_lookup (lit "recipeId") record = Some (VStr id)
        /\ List.length id = 32
        /\ Forall (fun c => is_hex c = true) id)
  /\ (forall ui d,
         d <> [] ->
         truthy (dict_get (lit "recipeId") VNone d) = false ->
         exists record id,
           fst (RecipeScraper.finish_llm_recipe w url ui (VDict d) st)
             = Ok (VDict record)
           /\ dict_lookup (lit "recipeId") record = Some (VStr id)
           /\ List.length id = 36
           /\ In 45%N id).
Proof.
  split.
  - intros d Hc.
    destruct (convert_convertible w d url st Hc)
      as (pt & ct & tt' & ings & instrs & img & _ & _ & _ & _ & _ & E).
    rewrite E. eexists. eexists. split; [reflexivity|].
    split; [reflexivity|]. split; [apply length_hex_fixed | apply hex_fixed_is_hex].
  - intros ui d Hd Hid.
    destruct (finish_llm_recipe_run w url ui d st Hd) as (st' & E & _).
    rewrite E. cbn [fst]. eexists. exists (uuid4_str (urandom w (draws st))).
    split; [reflexivity|].
    split; [|split; [apply length_uuid4_str | apply uuid4_str_dash]].
    unfold finished. rewrite Hid. cbn [negb]. rewrite orb_true_r.
    match goal with
    | |- context [if ?b then _ else _] => destruct b
    end; rewrite !dict_lookup_set_other by distinct_keys; apply dict_lookup_set_same.
Qed.

Lemma recipe_id_formats_witness :
  exists record id,
    fst (SchemaConverter.convert_schema_org_to_internal_recipe
           (sample_world (Ok []) [] (Ok VNone))
           (VDict [(lit "name", VStr (lit "Soup"))]) sample_url initial)
      = Ok (VDict record)
    /\ dict_lookup (lit "recipeId") record = Some (VStr id)
    /\ List.length id = 32.
Proof.
  destruct (proj1 (recipe_id_formats (sample_world (Ok []) [] (Ok VNone))
                     sample_url initial)
              [(lit "name", VStr (lit "Soup"))] eq_refl)
    as (record & id & E & Hid & Hlen & _).
  exists record, id. repeat split; assumption.
Defined.

End Identifiers.
